(** * crm_onlinesite: the client-tracking web application of [app.py]

    A shallow embedding of the request handlers of [app.py] (a Flask
    application over a two-table relational store) and the properties its
    specification states about them.

    Conventions of the embedding.
    - A Python [str] is the list of its Unicode code points ([ord] of each
      character), so that [str.strip] and comparison behave as in Python.
    - A [datetime] is the record of its fields; [datetime.now()] is an input
      of the handler that calls it.
    - A handler is a function from the database to either an uncaught
      exception (nothing is committed) or a response and the database as
      committed.
    - What belongs to the storage engine, to the Unicode tables or to the
      XML library rather than to [app.py] (the [LIKE] operator, the table of
      decimal digits, the saving of a workbook) is a variable of the section
      that uses it.
    - A lookup by primary key is modelled for the ids the engine binds,
      [key_in_range]; the properties of a lookup that finds no row assume
      it.
    - The constraints the models declare on [users] (primary key,
      [unique=True] on [username]) are checked where the engine checks them,
      at the commit; the lengths of the [String] columns are not modelled.

    Embedded: [login], [logout], [add_client], [edit_client],
    [delete_client], [list_clients], [create_admin], [user_list],
    [add_user], [edit_user], [delete_user], [home], the choice of the
    database URL, and of the two exports the rows they write. *)

From Stdlib Require Import ZArith List Bool String Ascii Lia.
Import ListNotations.
Local Open Scope Z_scope.

(* ===================================================================== *)
(** ** Python strings *)

Module Str.

(** A Python [str]: its code points. *)
Definition str := list Z.

(** An ASCII literal of the source as a [str]. *)
Definition lit (s : string) : str :=
  map (fun a => Z.of_nat (nat_of_ascii a)) (list_ascii_of_string s).

Fixpoint eqb (s t : str) : bool :=
  match s, t with
  | [], [] => true
  | a :: s', b :: t' => (a =? b) && eqb s' t'
  | _, _ => false
  end.

(** [str.isspace] on one character: the code points CPython's
    [_PyUnicode_IsWhitespace] accepts. *)
Definition isspace (c : Z) : bool :=
  ((0x09 <=? c) && (c <=? 0x0D)) || ((0x1C <=? c) && (c <=? 0x20))
  || (c =? 0x85) || (c =? 0xA0) || (c =? 0x1680)
  || ((0x2000 <=? c) && (c <=? 0x200A))
  || (c =? 0x2028) || (c =? 0x2029) || (c =? 0x202F) || (c =? 0x205F)
  || (c =? 0x3000).

Fixpoint lstrip (s : str) : str :=
  match s with
  | c :: s' => if isspace c then lstrip s' else s
  | [] => []
  end.

Definition rstrip (s : str) : str := rev (lstrip (rev s)).

(** [s.strip()] *)
Definition strip (s : str) : str := rstrip (lstrip s).

(** Truth value of a [str] in a condition: non-empty. *)
Definition truthy (s : str) : bool :=
  match s with [] => false | _ :: _ => true end.

End Str.
Import Str.

(* ===================================================================== *)
(** ** [datetime] *)

Module Datetime.

Record datetime := mk_datetime {
  year : Z; month : Z; day : Z;
  hour : Z; minute : Z; second : Z; microsecond : Z
}.

Definition MINYEAR := 1.
Definition MAXYEAR := 9999.

Definition is_leap (y : Z) : bool :=
  (y mod 4 =? 0) && (negb (y mod 100 =? 0) || (y mod 400 =? 0)).

(** [_DAYS_IN_MONTH], for a common year. *)
Definition DAYS_IN_MONTH (m : Z) : Z :=
  nth (Z.to_nat m) [0; 31; 28; 31; 30; 31; 30; 31; 31; 30; 31; 30; 31] 0.

Definition days_in_month (y m : Z) : Z :=
  if (m =? 2) && is_leap y then 29 else DAYS_IN_MONTH m.

(** Days in the years before year [y] ([_days_before_year]). *)
Definition days_before_year (y : Z) : Z :=
  let p := y - 1 in p * 365 + p / 4 - p / 100 + p / 400.

(** [_DAYS_BEFORE_MONTH], for a common year. *)
Definition DAYS_BEFORE_MONTH (m : Z) : Z :=
  nth (Z.to_nat m) [0; 0; 31; 59; 90; 120; 151; 181; 212; 243; 273; 304; 334] 0.

Definition days_before_month (y m : Z) : Z :=
  DAYS_BEFORE_MONTH m + (if (2 <? m) && is_leap y then 1 else 0).

(** [_ymd2ord]: the proleptic Gregorian ordinal, 0001-01-01 being day 1. *)
Definition ymd2ord (y m d : Z) : Z :=
  days_before_year y + days_before_month y m + d.

Definition DI400Y := 146097.
Definition DI100Y := 36524.
Definition DI4Y := 1461.
Definition MAXORDINAL := 3652059.

(** The tail of [_ord2ymd]: month and day of the [n]-th day (from 0) of a
    year, [leapyear] telling whether the year is a leap year. *)
Definition month_day (leapyear : bool) (n : Z) : Z * Z :=
  let m := Z.shiftr (n + 50) 5 in
  let preceding :=
    DAYS_BEFORE_MONTH m + (if (2 <? m) && leapyear then 1 else 0) in
  if n <? preceding then
    let m := m - 1 in
    let preceding :=
      preceding
      - (DAYS_IN_MONTH m + (if (m =? 2) && leapyear then 1 else 0)) in
    (m, n - preceding + 1)
  else (m, n - preceding + 1).

(** [_ord2ymd]: year, month and day of an ordinal. *)
Definition ord2ymd (n : Z) : Z * Z * Z :=
  let n := n - 1 in
  let n400 := n / DI400Y in let n := n mod DI400Y in
  let y := n400 * 400 + 1 in
  let n100 := n / DI100Y in let n := n mod DI100Y in
  let n4 := n / DI4Y in let n := n mod DI4Y in
  let n1 := n / 365 in let n := n mod 365 in
  let y := y + n100 * 100 + n4 * 4 + n1 in
  if (n1 =? 4) || (n100 =? 4) then (y - 1, 12, 31)
  else
    let leapyear := (n1 =? 3) && (negb (n4 =? 24) || (n100 =? 3)) in
    let '(m, d) := month_day leapyear n in (y, m, d).

Definition valid_date (y m d : Z) : bool :=
  (MINYEAR <=? y) && (y <=? MAXYEAR) && (1 <=? m) && (m <=? 12)
  && (1 <=? d) && (d <=? days_in_month y m).

Definition valid_time (h mi s us : Z) : bool :=
  (0 <=? h) && (h <? 24) && (0 <=? mi) && (mi <? 60)
  && (0 <=? s) && (s <? 60) && (0 <=? us) && (us <? 1000000).

(** The values the [datetime] constructor accepts. *)
Definition valid (t : datetime) : bool :=
  valid_date (year t) (month t) (day t)
  && valid_time (hour t) (minute t) (second t) (microsecond t).

(** [t.toordinal()] *)
Definition toordinal (t : datetime) : Z := ymd2ord (year t) (month t) (day t).

(** [t + timedelta(days=n)]: the date moves by [n] ordinals and the time of
    day stays; [None] is Python's [OverflowError], raised when the ordinal
    leaves [1 .. MAXORDINAL]. *)
Definition add_days (t : datetime) (n : Z) : option datetime :=
  let o := toordinal t + n in
  if (0 <? o) && (o <=? MAXORDINAL) then
    let '(y, m, d) := ord2ymd o in
    Some (mk_datetime y m d (hour t) (minute t) (second t) (microsecond t))
  else None.

(** The decimal digits of [n], zero-padded to [w] characters. *)
Fixpoint zfill (w : nat) (n : Z) : str :=
  match w with
  | O => []
  | S w' => zfill w' (n / 10) ++ [48 + n mod 10]
  end.

(** [%Y] as the C library under Python prints the year of a [datetime]
    (1 to 9999): its decimal digits, not padded (["999"], ["5"]). *)
Definition fmt_Y (y : Z) : str :=
  if y <? 10 then zfill 1 y
  else if y <? 100 then zfill 2 y
  else if y <? 1000 then zfill 3 y
  else zfill 4 y.

(** [t.strftime("%Y-%m-%d")]: the year as [%Y] prints it, the month and the
    day on two digits. *)
Definition strftime_Ymd (t : datetime) : str :=
  fmt_Y (year t) ++ [45] ++ zfill 2 (month t) ++ [45] ++ zfill 2 (day t).

(** Same calendar day, whatever the time of day. *)
Definition same_date (a b : datetime) : bool :=
  (year a =? year b) && (month a =? month b) && (day a =? day b).

(** The fields [strftime("%Y-%m-%d")] tells apart. *)
Definition printable (t : datetime) : Prop :=
  0 <= year t < 10000 /\ 0 <= month t < 100 /\ 0 <= day t < 100.

End Datetime.
Import Datetime.

(* ===================================================================== *)
(** ** Exceptions *)

(** The exceptions the handlers can let escape. *)
Inductive exn :=
| BadRequestKeyError (key : string)   (* request.form[key], key absent *)
| ValueError                          (* datetime.strptime *)
| OverflowError                       (* datetime + timedelta *)
| AttributeError                      (* attribute of None *)
| UnmappedInstanceError               (* db.session.delete(None) *)
| IntegrityError                      (* UNIQUE constraint, at commit *)
| IllegalCharacterError.              (* openpyxl: control character in a cell *)

Inductive result (A : Type) :=
| Ok (a : A)
| Raise (e : exn).
Arguments Ok {A} a.
Arguments Raise {A} e.

Definition bind {A B} (r : result A) (k : A -> result B) : result B :=
  match r with
  | Ok a => k a
  | Raise e => Raise e
  end.

Declare Scope py_scope.
Delimit Scope py_scope with py.
Notation "x <- e ;; k" := (bind e (fun x => k))
  (at level 100, e at next level, right associativity) : py_scope.
Local Open Scope py_scope.

(** [x.attr] where [x] may be [None]. *)
Definition deref {A} (x : option A) : result A :=
  match x with
  | Some a => Ok a
  | None => Raise AttributeError
  end.

(* ===================================================================== *)
(** ** [datetime.strptime(s, "%Y/%m/%d")] *)

Section Strptime.

(** [unicodedata.decimal]: the value of a character that the regular
    expression class [\d] accepts (Unicode category Nd; for ['0'..'9'],
    code point minus 48), [None] for any other character. *)
Variable decimal : Z -> option Z.

(** The class [[lo-hi]] of ASCII digits. *)
Definition in_class (lo hi c : Z) : bool := (48 + lo <=? c) && (c <=? 48 + hi).

(** [(?P<Y>\d\d\d\d)] *)
Definition group_Y (s : str) : option (Z * str) :=
  match s with
  | a :: b :: c :: d :: rest =>
      match decimal a, decimal b, decimal c, decimal d with
      | Some a, Some b, Some c, Some d =>
          Some (1000 * a + 100 * b + 10 * c + d, rest)
      | _, _, _, _ => None
      end
  | _ => None
  end.

(** [(?P<m>1[0-2]|0[1-9]|[1-9])]: what each alternative that matches
    yields, in the order the regular expression tries them. *)
Definition group_m (s : str) : list (Z * str) :=
  match s with
  | 49 :: c :: r => if in_class 0 2 c then [(10 + (c - 48), r)] else []
  | _ => []
  end ++
  match s with
  | 48 :: c :: r => if in_class 1 9 c then [(c - 48, r)] else []
  | _ => []
  end ++
  match s with
  | c :: r => if in_class 1 9 c then [(c - 48, r)] else []
  | _ => []
  end.

(** [(?P<d>3[0-1]|[1-2]\d|0[1-9]|[1-9]| [1-9])] *)
Definition group_d (s : str) : list (Z * str) :=
  match s with
  | 51 :: c :: r => if in_class 0 1 c then [(30 + (c - 48), r)] else []
  | _ => []
  end ++
  match s with
  | a :: c :: r =>
      if in_class 1 2 a then
        match decimal c with
        | Some v => [(10 * (a - 48) + v, r)]
        | None => []
        end
      else []
  | _ => []
  end ++
  match s with
  | 48 :: c :: r => if in_class 1 9 c then [(c - 48, r)] else []
  | _ => []
  end ++
  match s with
  | c :: r => if in_class 1 9 c then [(c - 48, r)] else []
  | _ => []
  end ++
  match s with
  | 32 :: c :: r => if in_class 1 9 c then [(c - 48, r)] else []
  | _ => []
  end.

(** The literal ['/'] of the format. *)
Definition slash (s : str) : option str :=
  match s with
  | 47 :: r => Some r
  | _ => None
  end.

(** The first month alternative after which ['/'] and a day match, with
    the first day alternative that matches there. *)
Fixpoint first_md (ms : list (Z * str)) : option (Z * Z * str) :=
  match ms with
  | [] => None
  | (m, r) :: ms' =>
      match slash r with
      | Some r' =>
          match group_d r' with
          | (d, rest) :: _ => Some (m, d, rest)
          | [] => first_md ms'
          end
      | None => first_md ms'
      end
  end.

(** [format_regex.match(s)]: the groups and the unmatched rest. *)
Definition regex_match (s : str) : option (Z * Z * Z * str) :=
  match group_Y s with
  | Some (y, r) =>
      match slash r with
      | Some r' =>
          match first_md (group_m r') with
          | Some (m, d, rest) => Some (y, m, d, rest)
          | None => None
          end
      | None => None
      end
  | None => None
  end.

(** [datetime.strptime(s, "%Y/%m/%d")]: midnight of the day parsed;
    [ValueError] when the string does not match the format, when text
    remains after the match, or when the day is not a date. *)
Definition strptime (s : str) : result datetime :=
  match regex_match s with
  | Some (y, m, d, []) =>
      if valid_date y m d then Ok (mk_datetime y m d 0 0 0 0)
      else Raise ValueError
  | _ => Raise ValueError
  end.

End Strptime.

(** The decimal table restricted to ASCII. *)
Definition ascii_decimal (c : Z) : option Z :=
  if in_class 0 9 c then Some (c - 48) else None.

(* ===================================================================== *)
(** ** werkzeug.security *)

(** A password hash, kept symbolic: the salt drawn by
    [generate_password_hash] and the password it digests. *)
Inductive pwhash := Hashed (salt password : str).

Definition generate_password_hash (salt password : str) : pwhash :=
  Hashed salt password.

Definition check_password_hash (h : pwhash) (password : str) : bool :=
  match h with
  | Hashed _ p => Str.eqb p password
  end.

(* ===================================================================== *)
(** ** The tables *)

Module User.
(** A row of [users]. *)
Record t := mk {
  id : Z;
  username : str;          (* unique=True *)
  password_hash : pwhash;
  employee_id : str;
  role : str               (* user / admin *)
}.

Definition set_password (salt : str) (u : t) (password : str) : t :=
  mk (id u) (username u) (generate_password_hash salt password)
     (employee_id u) (role u).

Definition check_password (u : t) (password : str) : bool :=
  check_password_hash (password_hash u) password.
End User.

Module Client.
(** A row of [customers]. *)
Record t := mk {
  id : Z;
  name : str;
  house_address : str;
  register_address : str;
  first_contact : datetime;
  next_follow : datetime;
  notes : str;
  user_id : Z
}.
End Client.

(** The database: both tables, rows in storage order. *)
Record DB := mk_DB {
  users : list User.t;
  customers : list Client.t
}.

(** The primary key given to a new row: one more than the largest in use. *)
Definition fresh_id (ids : list Z) : Z := 1 + fold_right Z.max 0 ids.

(** [User.query.filter_by(username=username).first()] *)
Definition User_by_username (db : DB) (username : str) : option User.t :=
  find (fun u => Str.eqb (User.username u) username) (users db).

(** The ids a lookup by primary key can bind: those the route's [<int:id>]
    yields (not negative) that fit the 64-bit integer of the engine. At
    [2^63] and above the driver raises before any row is looked up, which
    the tables here do not model: what is stated of an id without a row is
    stated of ids in this range. *)
Definition key_in_range (id : Z) : Prop := 0 <= id < 2 ^ 63.

(** [User.query.get(id)], for an id the engine can bind. *)
Definition User_get (db : DB) (id : Z) : option User.t :=
  find (fun u => User.id u =? id) (users db).

(** [Client.query.get(id)], for an id the engine can bind. *)
Definition Client_get (db : DB) (id : Z) : option Client.t :=
  find (fun c => Client.id c =? id) (customers db).

(** [Client.query.filter_by(user_id=user_id)] *)
Definition Client_by_user_id (db : DB) (user_id : Z) : list Client.t :=
  filter (fun c => Client.user_id c =? user_id) (customers db).

(** [db.session.add(c); db.session.commit()] for a new client: [mk_row]
    receives the primary key. *)
Definition commit_insert_client (db : DB) (mk_row : Z -> Client.t) : result DB :=
  let c := mk_row (fresh_id (map Client.id (customers db))) in
  Ok (mk_DB (users db) (customers db ++ [c])).

(** [db.session.commit()] after the attributes of client [c] were set. *)
Definition commit_update_client (db : DB) (c : Client.t) : result DB :=
  Ok (mk_DB (users db)
        (map (fun r => if Client.id r =? Client.id c then c else r)
             (customers db))).

(** [db.session.delete(c); db.session.commit()] *)
Definition commit_delete_client (db : DB) (c : option Client.t) : result DB :=
  match c with
  | None => Raise UnmappedInstanceError
  | Some c =>
      Ok (mk_DB (users db)
            (filter (fun r => negb (Client.id r =? Client.id c)) (customers db)))
  end.

(** [db.session.add(user); db.session.commit()]: the insert fails on the
    UNIQUE constraint of [username] when a row holds that username. *)
Definition commit_insert_user (db : DB) (mk_row : Z -> User.t) : result DB :=
  let u := mk_row (fresh_id (map User.id (users db))) in
  if existsb (fun r => Str.eqb (User.username r) (User.username u)) (users db)
  then Raise IntegrityError
  else Ok (mk_DB (users db ++ [u]) (customers db)).

(** [db.session.commit()] after the attributes of user [u] were set: the
    update fails on the UNIQUE constraint when another row holds the
    username. *)
Definition commit_update_user (db : DB) (u : User.t) : result DB :=
  if existsb (fun r => negb (User.id r =? User.id u)
                       && Str.eqb (User.username r) (User.username u))
             (users db)
  then Raise IntegrityError
  else Ok (mk_DB
             (map (fun r => if User.id r =? User.id u then u else r) (users db))
             (customers db)).

(** [db.session.delete(user); db.session.commit()] *)
Definition commit_delete_user (db : DB) (u : option User.t) : result DB :=
  match u with
  | None => Raise UnmappedInstanceError
  | Some u =>
      Ok (mk_DB (filter (fun r => negb (User.id r =? User.id u)) (users db))
                (customers db))
  end.

(* ===================================================================== *)
(** ** Requests, sessions and responses *)

Inductive method := GET | POST.

(** A request: its method, [request.form] and [request.args]. *)
Record request := mk_request {
  req_method : method;
  form : list (string * str);
  args : list (string * str)
}.

Fixpoint lookup (key : string) (d : list (string * str)) : option str :=
  match d with
  | [] => None
  | (k, v) :: d' => if String.eqb k key then Some v else lookup key d'
  end.

(** [request.form[key]] *)
Definition form_get (r : request) (key : string) : result str :=
  match lookup key (form r) with
  | Some v => Ok v
  | None => Raise (BadRequestKeyError key)
  end.

(** [request.args.get(key, "")] *)
Definition args_get (r : request) (key : string) : str :=
  match lookup key (args r) with
  | Some v => v
  | None => []
  end.

Module Session.
(** The keys [login] sets in the session. *)
Record t := mk {
  user_id : Z;
  username : str;
  employee_id : str;
  role : str
}.
End Session.

(** The Flask session: empty ([None]), or as [login] filled it. *)
Definition session := option Session.t.

(** What a template is rendered with. *)
Inductive context :=
| no_context
| with_error (error : string)
| with_client (client : option Client.t)
| with_clients (clients : list Client.t) (search : str) (today_flag : bool)
               (today_str : str) (today_count : Z)
| with_users (users : list User.t)
| with_user (user : option User.t).

(** What a view function returns. *)
Inductive response :=
| redirect (location : string)
| render_template (template : string) (ctx : context)
| text (body : string).

(** A view function: from the database to an uncaught exception, or to a
    response and the database as committed. *)
Definition handler := DB -> result (response * DB).

(** What the client receives. *)
Inductive reply :=
| Sent (r : response)
| Status (code : Z).

(** How Flask answers for a view function: its response; 400 for a missing
    form key, which is an [HTTPException] (outside debug mode); 500 for any
    other exception, none of which [app.py] handles. An exception leaves the
    database as it was: the commit was not reached. *)
Definition serve (h : handler) (db : DB) : reply * DB :=
  match h db with
  | Ok (r, db') => (Sent r, db')
  | Raise (BadRequestKeyError _) => (Status 400, db)
  | Raise _ => (Status 500, db)
  end.

Definition ADMIN : str := lit "admin".

(** The stored registered address that stands for the house address:
    the two characters U+540C U+5DE6. *)
Definition SAME_AS_HOUSE : str := [0x540C; 0x5DE6].

(** [@login_required] *)
Definition login_required (s : session) (func : Session.t -> handler) : handler :=
  match s with
  | None => fun db => Ok (redirect "/login", db)
  | Some sess => func sess
  end.

(* ===================================================================== *)
(** ** The view functions *)

(** [login], on POST: the response and the session it leaves. *)
Definition login (s : session) (r : request) (db : DB)
  : result (response * session) :=
  match req_method r with
  | POST =>
      username <- form_get r "username" ;;
      password <- form_get r "password" ;;
      match User_by_username db username with
      | Some user =>
          if User.check_password user password then
            Ok (redirect "/list",
                Some (Session.mk (User.id user) (User.username user)
                        (User.employee_id user) (User.role user)))
          else Ok (render_template "login.html" (with_error "帳號或密碼錯誤"), s)
      | None => Ok (render_template "login.html" (with_error "帳號或密碼錯誤"), s)
      end
  | GET => Ok (render_template "login.html" no_context, s)
  end.

Definition logout (s : session) : response * session :=
  (redirect "/login", None).

(** [add_client]; [now] is what [datetime.now()] returns. *)
Definition add_client (decimal : Z -> option Z) (now : datetime)
    (s : session) (r : request) : handler :=
  login_required s (fun sess db =>
    match req_method r with
    | POST =>
        name <- form_get r "name" ;;
        house_address <- form_get r "house_address" ;;
        register_address <- form_get r "register_address" ;;
        notes <- form_get r "notes" ;;
        next_follow <- form_get r "next_follow" ;;
        let chosen_next := strip next_follow in
        next_time <-
          (if Str.eqb chosen_next [] then
             match add_days now 14 with
             | Some t => Ok t
             | None => Raise OverflowError
             end
           else strptime decimal chosen_next) ;;
        let register_address :=
          if Str.eqb (strip house_address) (strip register_address)
          then SAME_AS_HOUSE else register_address in
        db' <- commit_insert_client db (fun id =>
                 Client.mk id name house_address register_address
                           now next_time notes (Session.user_id sess)) ;;
        Ok (redirect "/list", db')
    | GET => Ok (render_template "add.html" no_context, db)
    end).

(** [edit_client] *)
Definition edit_client (decimal : Z -> option Z)
    (s : session) (r : request) (id : Z) : handler :=
  login_required s (fun sess db =>
    let client := Client_get db id in
    denied <-
      (if negb (Str.eqb (Session.role sess) ADMIN) then
         c <- deref client ;;
         Ok (negb (Client.user_id c =? Session.user_id sess))
       else Ok false) ;;
    if denied : bool then Ok (text "⛔ 你沒有權限編輯這筆資料", db)
    else
      match req_method r with
      | POST =>
          name <- form_get r "name" ;;
          c <- deref client ;;
          house_address <- form_get r "house_address" ;;
          register_address <- form_get r "register_address" ;;
          notes <- form_get r "notes" ;;
          next_follow <- form_get r "next_follow" ;;
          let chosen_next := strip next_follow in
          next_time <-
            (if truthy chosen_next then strptime decimal chosen_next
             else Ok (Client.next_follow c)) ;;
          let register_address :=
            if Str.eqb (strip house_address) (strip register_address)
            then SAME_AS_HOUSE else register_address in
          db' <- commit_update_client db
                   (Client.mk (Client.id c) name house_address register_address
                      (Client.first_contact c) next_time notes
                      (Client.user_id c)) ;;
          Ok (redirect "/list", db')
      | GET => Ok (render_template "edit.html" (with_client client), db)
      end).

(** [delete_client] *)
Definition delete_client (s : session) (id : Z) : handler :=
  login_required s (fun sess db =>
    let c := Client_get db id in
    denied <-
      (if negb (Str.eqb (Session.role sess) ADMIN) then
         c <- deref c ;;
         Ok (negb (Client.user_id c =? Session.user_id sess))
       else Ok false) ;;
    if denied : bool then Ok (text "⛔ 你沒有權限刪除這筆資料", db)
    else
      db' <- commit_delete_client db c ;;
      Ok (redirect "/list", db')).

(** The rows a session may see: [Client.query] for the role ["admin"],
    [Client.query.filter_by(user_id=user_id)] for any other. *)
Definition scoped_query (role : str) (user_id : Z) (db : DB) : list Client.t :=
  if Str.eqb role ADMIN then customers db else Client_by_user_id db user_id.

(** The follow-up of client [c] falls on the day [today_str]. *)
Definition due_on (today_str : str) (c : Client.t) : bool :=
  Str.eqb (strftime_Ymd (Client.next_follow c)) today_str.

Section ListClients.

(** The [LIKE] operator of the storage engine: [like v p] tells whether
    the column value [v] matches the pattern [p]. *)
Variable like : str -> str -> bool.

(** The search filter of [list_clients] for the pattern [keyword]. *)
Definition matches (keyword : str) (c : Client.t) : bool :=
  like (Client.name c) keyword
  || like (Client.house_address c) keyword
  || like (Client.register_address c) keyword
  || like (Client.notes c) keyword.

(** [list_clients]; [now] is what [datetime.now()] returns. *)
Definition list_clients (now : datetime) (s : session) (r : request)
  : handler :=
  login_required s (fun sess db =>
    let search := strip (args_get r "q") in
    let today_flag := Str.eqb (args_get r "today") (lit "1") in
    let today_str := strftime_Ymd now in
    let role := Session.role sess in
    let user_id := Session.user_id sess in
    let query := scoped_query role user_id db in
    let query :=
      if truthy search then
        let keyword := [37] ++ search ++ [37] in
        filter (matches keyword) query
      else query in
    let clients := query in
    let clients :=
      if today_flag then filter (due_on today_str) clients else clients in
    let today_count :=
      Z.of_nat (List.length (filter (due_on today_str)
                          (scoped_query role user_id db))) in
    Ok (render_template "list.html"
          (with_clients clients search today_flag today_str today_count),
        db)).

End ListClients.

(** [create_admin]; [salt] is the salt [generate_password_hash] draws. *)
Definition create_admin (salt : str) : handler := fun db =>
  match User_by_username db ADMIN with
  | Some _ => Ok (text "管理員已存在！", db)
  | None =>
      db' <- commit_insert_user db (fun id =>
               User.mk id ADMIN (generate_password_hash salt (lit "123456"))
                       (lit "A000") ADMIN) ;;
      Ok (text "管理員帳號已建立： admin / 123456", db')
  end.

(** [user_list] *)
Definition user_list (s : session) : handler :=
  login_required s (fun sess db =>
    if negb (Str.eqb (Session.role sess) ADMIN)
    then Ok (text "⛔ 只有管理員可以查看員工列表", db)
    else Ok (render_template "users.html" (with_users (users db)), db)).

(** [add_user]; the new row is [User(...)] after [set_password]. *)
Definition add_user (salt : str) (s : session) (r : request) : handler :=
  login_required s (fun sess db =>
    if negb (Str.eqb (Session.role sess) ADMIN)
    then Ok (text "⛔ 只有管理員可以新增員工", db)
    else
      match req_method r with
      | POST =>
          username <- form_get r "username" ;;
          password <- form_get r "password" ;;
          employee_id <- form_get r "employee_id" ;;
          role <- form_get r "role" ;;
          match User_by_username db username with
          | Some _ =>
              Ok (render_template "user_add.html" (with_error "此帳號已存在"), db)
          | None =>
              db' <- commit_insert_user db (fun id =>
                       User.mk id username
                               (generate_password_hash salt password)
                               employee_id role) ;;
              Ok (redirect "/users", db')
          end
      | GET => Ok (render_template "user_add.html" no_context, db)
      end).

(** [edit_user] *)
Definition edit_user (salt : str) (s : session) (r : request) (id : Z)
  : handler :=
  login_required s (fun sess db =>
    if negb (Str.eqb (Session.role sess) ADMIN)
    then Ok (text "⛔ 只有管理員可以編輯員工", db)
    else
      let user := User_get db id in
      match req_method r with
      | POST =>
          username <- form_get r "username" ;;
          u <- deref user ;;
          employee_id <- form_get r "employee_id" ;;
          role <- form_get r "role" ;;
          password <- form_get r "password" ;;
          let u := User.mk (User.id u) username (User.password_hash u)
                           employee_id role in
          let new_pass := strip password in
          let u := if truthy new_pass
                   then User.set_password salt u new_pass else u in
          db' <- commit_update_user db u ;;
          Ok (redirect "/users", db')
      | GET => Ok (render_template "user_edit.html" (with_user user), db)
      end).

(** [delete_user] *)
Definition delete_user (s : session) (id : Z) : handler :=
  login_required s (fun sess db =>
    if negb (Str.eqb (Session.role sess) ADMIN)
    then Ok (text "⛔ 只有管理員可以刪除員工", db)
    else if id =? Session.user_id sess
    then Ok (text "⛔ 無法刪除自己", db)
    else
      db' <- commit_delete_user db (User_get db id) ;;
      Ok (redirect "/users", db')).

(* ===================================================================== *)
(** ** Predicates on the store *)

(** The row [edit_client] writes over [c0]. *)
Definition updated (c0 : Client.t)
    (name house register : str) (next : datetime) (notes : str) : Client.t :=
  Client.mk (Client.id c0) name house register (Client.first_contact c0)
            next notes (Client.user_id c0).

(** The stored registered address of [c] obeys the same-address rule. *)
Definition sentinel_ok (c : Client.t) : Prop :=
  strip (Client.house_address c) = strip (Client.register_address c) ->
  Client.register_address c = SAME_AS_HOUSE.

Definition usernames (db : DB) : list str := map User.username (users db).

(** The constraints of the [users] table: the primary key and the UNIQUE
    column. *)
Definition users_ok (db : DB) : Prop :=
  NoDup (map User.id (users db)) /\ NoDup (usernames db).

(** Every next follow-up of the store is a [datetime]. *)
Definition follow_ups_valid (db : DB) : Prop :=
  Forall (fun c => valid (Client.next_follow c) = true) (customers db).

(* ===================================================================== *)
(** ** Sample data *)

Module Sample.

(** A [LIKE] with the wildcards [%] and [_], comparing code points. *)
Fixpoint like_wild (p v : str) : bool :=
  match p with
  | [] => match v with [] => true | _ :: _ => false end
  | 37 :: p' =>
      (fix any (v : str) : bool :=
         like_wild p' v
         || match v with [] => false | _ :: v' => any v' end) v
  | 95 :: p' =>
      match v with [] => false | _ :: v' => like_wild p' v' end
  | c :: p' =>
      match v with [] => false | d :: v' => (c =? d) && like_wild p' v' end
  end.

Definition like (v p : str) : bool := like_wild p v.

(** 2026-11-04 17:05:00 *)
Definition now : datetime := mk_datetime 2026 11 4 17 5 0 0.

Definition root : Session.t := Session.mk 1 (lit "admin") (lit "A000") (lit "admin").
Definition alice : Session.t := Session.mk 2 (lit "alice") (lit "E001") (lit "user").
Definition bob : Session.t := Session.mk 3 (lit "bob") (lit "E002") (lit "user").

Definition db : DB :=
  mk_DB
    [ User.mk 1 (lit "admin") (Hashed (lit "s1") (lit "123456")) (lit "A000") (lit "admin");
      User.mk 2 (lit "alice") (Hashed (lit "s2") (lit "pw-a")) (lit "E001") (lit "user");
      User.mk 3 (lit "bob") (Hashed (lit "s3") (lit "pw-b")) (lit "E002") (lit "user") ]
    [ Client.mk 1 (lit "Wang") (lit "1 X Road") SAME_AS_HOUSE
        (mk_datetime 2026 10 21 9 30 0 0) (mk_datetime 2026 11 4 9 30 0 0)
        (lit "") 2;
      Client.mk 2 (lit "Chen") (lit "2 Y Road") (lit "5 Z Street")
        (mk_datetime 2026 10 1 14 0 0 0) (mk_datetime 2026 11 20 0 0 0 0)
        (lit "call back") 3;
      Client.mk 3 (lit "Lin") (lit "7 Y Road") SAME_AS_HOUSE
        (mk_datetime 2026 11 1 8 0 0 0) (mk_datetime 2026 11 4 0 0 0 0)
        (lit "") 3 ].

(** The form of [/add] and [/edit]. *)
Definition client_form (name house register notes next_follow : str)
  : list (string * str) :=
  [ ("name"%string, name); ("house_address"%string, house);
    ("register_address"%string, register); ("notes"%string, notes);
    ("next_follow"%string, next_follow) ].

(** The form of [/users/add] and [/users/edit]. *)
Definition user_form (username password employee_id role : str)
  : list (string * str) :=
  [ ("username"%string, username); ("password"%string, password);
    ("employee_id"%string, employee_id); ("role"%string, role) ].

Definition post (f : list (string * str)) : request := mk_request POST f [].
Definition get (a : list (string * str)) : request := mk_request GET [] a.

End Sample.

(* ===================================================================== *)
(** ** The database URL *)

(** [s.startswith(prefix)] *)
Fixpoint startswith (s prefix : str) {struct prefix} : bool :=
  match prefix, s with
  | [], _ => true
  | p :: prefix', c :: s' => (c =? p) && startswith s' prefix'
  | _ :: _, [] => false
  end.

(** [s.replace(old, new, 1)]: the leftmost occurrence of [old] replaced. *)
Fixpoint replace_first (old new s : str) {struct s} : str :=
  if startswith s old then new ++ skipn (List.length old) s
  else
    match s with
    | [] => []
    | c :: s' => c :: replace_first old new s'
    end.

(** [app.config["SQLALCHEMY_DATABASE_URI"]], from what
    [os.getenv("DATABASE_URL")] returns. *)
Definition database_uri (raw_url : option str) : str :=
  match raw_url with
  | Some url =>
      if truthy url then
        if startswith url (lit "postgres://")
        then replace_first (lit "postgres://") (lit "postgresql+psycopg2://") url
        else url
      else lit "sqlite:///local.db"
  | None => lit "sqlite:///local.db"
  end.

(* ===================================================================== *)
(** ** The home page and the exports *)

(** [home] *)
Definition home (s : session) : response :=
  match s with
  | Some _ => redirect "/list"
  | None => redirect "/login"
  end.

(** [t.strftime("%Y-%m-%d %H:%M")] *)
Definition strftime_YmdHM (t : datetime) : str :=
  fmt_Y (year t) ++ [45] ++ zfill 2 (month t) ++ [45] ++ zfill 2 (day t)
  ++ [32] ++ zfill 2 (hour t) ++ [58] ++ zfill 2 (minute t).

(** The header row of both exports: the six column labels. *)
Definition EXPORT_HEADER : list str :=
  [ [0x5BA2; 0x6236; 0x59D3; 0x540D];
    [0x623F; 0x5C4B; 0x5730; 0x5740];
    [0x6236; 0x7C4D; 0x5730; 0x5740];
    [0x7B2C; 0x4E00; 0x6B21; 0x958B; 0x767C];
    [0x4E0B; 0x6B21; 0x8DDF; 0x9032];
    [0x5099; 0x8A3B] ].

(** The cells written for one client. *)
Definition export_cells (c : Client.t) : list str :=
  [ Client.name c; Client.house_address c; Client.register_address c;
    strftime_YmdHM (Client.first_contact c);
    strftime_Ymd (Client.next_follow c);
    Client.notes c ].

(** A file sent as an attachment: its name and, for the file the export
    wrote, the rows handed to the writer, in order. *)
Inductive download :=
| send_file (filename : string) (rows : list (list str)).

(** [export_csv]: one [writer.writerow] for the header, then one per row
    of the session's query. *)
Definition export_csv (s : session) (db : DB) : response + download :=
  match s with
  | None => inl (redirect "/login")
  | Some sess =>
      let role := Session.role sess in
      let user_id := Session.user_id sess in
      let data := scoped_query role user_id db in
      let f := [EXPORT_HEADER] in
      let f := fold_left (fun f c => f ++ [export_cells c]) data f in
      inr (send_file "clients_export.csv" f)
  end.

(** openpyxl's [ILLEGAL_CHARACTERS_RE], the class
    [[\000-\010]|[\013-\014]|[\016-\037]]: the control characters other
    than tab, line feed and carriage return. *)
Definition illegal_character (c : Z) : bool :=
  ((0 <=? c) && (c <=? 8)) || ((11 <=? c) && (c <=? 12))
  || ((14 <=? c) && (c <=? 31)).

(** The longest text a cell holds. *)
Definition CELL_MAX : Z := 32767.

(** [value[:32767]] *)
Definition truncate (value : str) : str := firstn (Z.to_nat CELL_MAX) value.

(** openpyxl's [Cell.check_string], applied to every str put in a cell: the
    text is cut to 32767 characters, and what is left must hold no illegal
    character. *)
Definition check_string (value : str) : result str :=
  let value := truncate value in
  if existsb illegal_character value then Raise IllegalCharacterError
  else Ok value.

(** The cells [ws.append] makes of a row, left to right. *)
Fixpoint cells (row : list str) : result (list str) :=
  match row with
  | [] => Ok []
  | value :: row =>
      value <- check_string value ;;
      row <- cells row ;;
      Ok (value :: row)
  end.

(** [ws.append(row)] *)
Definition ws_append (ws : list (list str)) (row : list str)
  : result (list (list str)) :=
  row <- cells row ;;
  Ok (ws ++ [row]).

Section Workbook.

(** [wb.save(filename)] on a workbook whose sheet holds the given rows.
    Whether it raises on a sheet (an XML library may refuse characters the
    cells accepted) is left to the library the workbook is written with. *)
Variable wb_save : list (list str) -> result unit.

(** [export_excel]: one [ws.append] for the header, then one per row of the
    session's query, on the sheet of the workbook, which is then saved. *)
Definition export_excel (s : session) (db : DB)
  : result (response + download) :=
  match s with
  | None => Ok (inl (redirect "/login"))
  | Some sess =>
      let role := Session.role sess in
      let user_id := Session.user_id sess in
      let ws := [] in
      ws <- ws_append ws EXPORT_HEADER ;;
      let data := scoped_query role user_id db in
      ws <- fold_left (fun ws c =>
                         ws <- ws ;; ws_append ws (export_cells c))
             data (Ok ws) ;;
      saved <- wb_save ws ;;
      Ok (inr (send_file "clients_export.xlsx" ws))
  end.

End Workbook.

(** The text of [value] is one a cell takes. *)
Definition cell_ok (value : str) : bool :=
  negb (existsb illegal_character (truncate value)).

(** The sheet of the workbook after the header and a row for each of
    [data]. *)
Definition sheet_of (data : list Client.t) : list (list str) :=
  EXPORT_HEADER :: map (fun c => map truncate (export_cells c)) data.

(* ===================================================================== *)
(** ** The stores the application reaches *)

(** The databases the view functions lead to from the empty one, by any
    sequence of requests. [datetime.now()] returns a [datetime]. The view
    functions that only read are left out: they leave the database. *)
Inductive reachable : DB -> Prop :=
| reach_empty : reachable (mk_DB [] [])
| reach_add_client decimal now s r db :
    valid now = true -> reachable db ->
    reachable (snd (serve (add_client decimal now s r) db))
| reach_edit_client decimal s r id db :
    reachable db -> reachable (snd (serve (edit_client decimal s r id) db))
| reach_delete_client s id db :
    reachable db -> reachable (snd (serve (delete_client s id) db))
| reach_create_admin salt db :
    reachable db -> reachable (snd (serve (create_admin salt) db))
| reach_add_user salt s r db :
    reachable db -> reachable (snd (serve (add_user salt s r) db))
| reach_edit_user salt s r id db :
    reachable db -> reachable (snd (serve (edit_user salt s r id) db))
| reach_delete_user s id db :
    reachable db -> reachable (snd (serve (delete_user s id) db)).

(* ===================================================================== *)
(** * Properties *)

Ltac euclid a b q r :=
  let Hq := fresh "Hdiv" in
  let Hr := fresh "Hmod" in
  assert (Hq : a = b * q + r) by (subst q r; apply Z_div_mod_eq_full);
  assert (Hr : 0 <= r < b) by (subst r; apply Z.mod_pos_bound; lia);
  clearbody q r.

Ltac bool_to_prop :=
  repeat match goal with
  | H : _ && _ = true |- _ => apply andb_true_iff in H; destruct H
  | H : _ || _ = false |- _ => apply orb_false_iff in H; destruct H
  | H : (_ =? _) = true |- _ => apply Z.eqb_eq in H
  | H : (_ =? _) = false |- _ => apply Z.eqb_neq in H
  | H : (_ <=? _) = true |- _ => apply Z.leb_le in H
  | H : (_ <=? _) = false |- _ => apply Z.leb_gt in H
  | H : (_ <? _) = true |- _ => apply Z.ltb_lt in H
  | H : (_ <? _) = false |- _ => apply Z.ltb_ge in H
  end.

(** ** Strings *)

Lemma eqb_eq (s t : str) : Str.eqb s t = true <-> s = t.
Proof.
  revert t. induction s as [|a s IH]; intros [|b t]; simpl;
    try (split; [discriminate | intros E; discriminate E]).
  - tauto.
  - rewrite andb_true_iff, Z.eqb_eq, IH. split.
    + intros [-> ->]. reflexivity.
    + intros E. injection E as -> ->. auto.
Qed.

Lemma eqb_refl (s : str) : Str.eqb s s = true.
Proof. apply eqb_eq. reflexivity. Qed.

Lemma eqb_neq (s t : str) : Str.eqb s t = false <-> s <> t.
Proof.
  rewrite <- eqb_eq. destruct (Str.eqb s t); split; congruence.
Qed.

Lemma app_same_length {A} (a b c d : list A) :
  List.length a = List.length b -> a ++ c = b ++ d -> a = b /\ c = d.
Proof.
  revert b. induction a as [|x a IH]; intros [|y b] L E; simpl in *;
    try discriminate.
  - auto.
  - injection L as L. injection E as -> E.
    destruct (IH b L E) as [-> ->]. auto.
Qed.

Lemma truthy_eqb_nil (s : str) : truthy s = negb (Str.eqb s []).
Proof. destruct s; reflexivity. Qed.

(** ** The calendar *)

Lemma is_leap_spec (y : Z) :
  is_leap y = true <-> y mod 4 = 0 /\ (y mod 100 <> 0 \/ y mod 400 = 0).
Proof.
  unfold is_leap.
  rewrite andb_true_iff, orb_true_iff, negb_true_iff, !Z.eqb_eq, Z.eqb_neq.
  tauto.
Qed.

(** [month_day] on every day of a year, by enumeration. *)
Lemma month_day_table :
  forallb (fun b => forallb (fun k =>
     let r := Z.of_nat k in
     let '(m, d) := month_day b r in
     (1 <=? m) && (m <=? 12) && (1 <=? d)
     && (d <=? (if (m =? 2) && b then 29 else DAYS_IN_MONTH m))
     && (DAYS_BEFORE_MONTH m + (if (2 <? m) && b then 1 else 0) + d =? r + 1))
     (seq 0 365)) [true; false] = true.
Proof. vm_compute. reflexivity. Qed.

Lemma month_day_spec (b : bool) (r : Z) :
  0 <= r < 365 ->
  let '(m, d) := month_day b r in
  1 <= m <= 12
  /\ 1 <= d <= (if (m =? 2) && b then 29 else DAYS_IN_MONTH m)
  /\ DAYS_BEFORE_MONTH m + (if (2 <? m) && b then 1 else 0) + d = r + 1.
Proof.
  intros Hr. pose proof month_day_table as H.
  rewrite forallb_forall in H.
  assert (Hb : In b [true; false]) by (destruct b; simpl; auto).
  specialize (H b Hb). rewrite forallb_forall in H.
  specialize (H (Z.to_nat r)). cbv zeta in H.
  rewrite Z2Nat.id in H by lia.
  assert (Hin : In (Z.to_nat r) (seq 0 365)) by (apply in_seq; lia).
  specialize (H Hin). destruct (month_day b r) as [m d].
  rewrite !andb_true_iff, !Z.leb_le, Z.eqb_eq in H. lia.
Qed.

(** [_ord2ymd] inverts [_ymd2ord] and yields a date. *)
Lemma ord2ymd_spec (n : Z) :
  1 <= n <= MAXORDINAL ->
  let '(y, m, d) := ord2ymd n in
  ymd2ord y m d = n /\ valid_date y m d = true.
Proof.
  intros Hn. unfold ord2ymd, DI400Y, DI100Y, DI4Y, MAXORDINAL in *.
  set (n0 := n - 1).
  set (n400 := n0 / 146097). set (r1 := n0 mod 146097).
  set (n100 := r1 / 36524). set (r2 := r1 mod 36524).
  set (n4 := r2 / 1461). set (r3 := r2 mod 1461).
  set (n1 := r3 / 365). set (r4 := r3 mod 365).
  assert (H0 : 0 <= n0 <= 3652058) by (unfold n0; lia).
  euclid r3 365 n1 r4. euclid r2 1461 n4 r3. euclid r1 36524 n100 r2.
  euclid n0 146097 n400 r1.
  set (y := n400 * 400 + 1 + n100 * 100 + n4 * 4 + n1).
  unfold ymd2ord, valid_date, days_before_year, days_before_month,
    days_in_month, MINYEAR, MAXYEAR.
  destruct ((n1 =? 4) || (n100 =? 4)) eqn:E.
  - apply orb_true_iff in E. rewrite !Z.eqb_eq in E.
    assert (L : is_leap (y - 1) = true).
    { apply is_leap_spec. unfold y. Z.div_mod_to_equations. lia. }
    rewrite L. simpl. change (DAYS_IN_MONTH 12) with 31. split.
    + unfold y, n0 in *. Z.div_mod_to_equations. lia.
    + rewrite !andb_true_iff, !Z.leb_le. unfold y, n0 in *. lia.
  - bool_to_prop.
    set (lp := (n1 =? 3) && (negb (n4 =? 24) || (n100 =? 3))).
    assert (L : is_leap y = lp).
    { unfold lp. apply eq_true_iff_eq.
      rewrite is_leap_spec, andb_true_iff, orb_true_iff, negb_true_iff,
        !Z.eqb_eq, Z.eqb_neq.
      unfold y. Z.div_mod_to_equations. lia. }
    assert (Hr4 : 0 <= r4 < 365) by lia.
    pose proof (month_day_spec lp r4 Hr4) as M.
    destruct (month_day lp r4) as [m d]. destruct M as (Hm & Hd & Ho).
    rewrite L. split.
    + unfold y, n0 in *. Z.div_mod_to_equations. lia.
    + rewrite !andb_true_iff, !Z.leb_le. unfold y, n0 in *. lia.
Qed.

Lemma DAYS_BEFORE_MONTH_bounds (m : Z) :
  1 <= m <= 12 -> 0 <= DAYS_BEFORE_MONTH m <= 334.
Proof.
  intros Hm.
  assert (C : m = 1 \/ m = 2 \/ m = 3 \/ m = 4 \/ m = 5 \/ m = 6 \/ m = 7
              \/ m = 8 \/ m = 9 \/ m = 10 \/ m = 11 \/ m = 12) by lia.
  repeat destruct C as [-> | C]; try subst m; cbv; split; discriminate.
Qed.

(** The ordinal of a date is positive. *)
Lemma ymd2ord_pos (y m d : Z) : valid_date y m d = true -> 1 <= ymd2ord y m d.
Proof.
  unfold valid_date, MINYEAR. rewrite !andb_true_iff, !Z.leb_le.
  intros (((((Hy & _) & Hm1) & Hm2) & Hd) & _).
  pose proof (DAYS_BEFORE_MONTH_bounds m (conj Hm1 Hm2)).
  unfold ymd2ord, days_before_year, days_before_month.
  destruct ((2 <? m) && is_leap y); Z.div_mod_to_equations; lia.
Qed.

(** [t + timedelta(days=n)] is the day [n] ordinals later at the same time
    of day, as long as that day is no later than 9999-12-31. *)
Lemma add_days_spec (t : datetime) (n : Z) :
  valid t = true -> 0 <= n ->
  if toordinal t + n <=? MAXORDINAL then
    exists t', add_days t n = Some t'
      /\ toordinal t' = toordinal t + n
      /\ valid t' = true
      /\ (hour t', minute t', second t', microsecond t')
         = (hour t, minute t, second t, microsecond t)
  else add_days t n = None.
Proof.
  unfold valid. rewrite andb_true_iff. intros [Hd Ht] Hn.
  pose proof (ymd2ord_pos _ _ _ Hd) as Hp. fold (toordinal t) in Hp.
  unfold add_days.
  destruct (toordinal t + n <=? MAXORDINAL) eqn:E.
  - apply Z.leb_le in E.
    assert (P : (0 <? toordinal t + n) = true) by (apply Z.ltb_lt; lia).
    rewrite P. simpl.
    pose proof (ord2ymd_spec (toordinal t + n)) as R.
    destruct (ord2ymd (toordinal t + n)) as [[y m] d].
    destruct R as [R1 R2]; [lia|].
    eexists. split; [reflexivity|]. unfold toordinal, valid. simpl.
    rewrite R2, Ht. auto.
  - rewrite andb_false_r. reflexivity.
Qed.

(** ** [strftime] *)

Lemma zfill_length (w : nat) (n : Z) : List.length (zfill w n) = w.
Proof.
  revert n. induction w as [|w IH]; intros n; simpl; [reflexivity|].
  rewrite length_app, IH. simpl. lia.
Qed.

Lemma zfill_inj (w : nat) (a b : Z) :
  0 <= a < 10 ^ Z.of_nat w -> 0 <= b < 10 ^ Z.of_nat w ->
  zfill w a = zfill w b -> a = b.
Proof.
  revert a b. induction w as [|w IH]; intros a b Ha Hb E.
  - simpl in *. lia.
  - cbn [zfill] in E. apply app_inj_tail in E. destruct E as [E1 E2].
    rewrite Nat2Z.inj_succ, Z.pow_succ_r in Ha, Hb by lia.
    assert (a / 10 = b / 10).
    { apply IH; [| |exact E1]; Z.div_mod_to_equations; lia. }
    Z.div_mod_to_equations. lia.
Qed.

Lemma fmt_Y_width (y : Z) :
  0 <= y < 10000 ->
  exists w, fmt_Y y = zfill w y /\ 0 <= y < 10 ^ Z.of_nat w.
Proof.
  intros Hy. unfold fmt_Y.
  destruct (Z.ltb_spec y 10); [exists 1%nat; split; [reflexivity | simpl; lia]|].
  destruct (Z.ltb_spec y 100); [exists 2%nat; split; [reflexivity | simpl; lia]|].
  destruct (Z.ltb_spec y 1000);
    [exists 3%nat; split; [reflexivity | simpl; lia]|].
  exists 4%nat. split; [reflexivity | simpl; lia].
Qed.

Lemma fmt_Y_inj (a b : Z) :
  0 <= a < 10000 -> 0 <= b < 10000 -> fmt_Y a = fmt_Y b -> a = b.
Proof.
  intros Ha Hb E.
  destruct (fmt_Y_width a Ha) as (w & Ea & Wa).
  destruct (fmt_Y_width b Hb) as (w' & Eb & Wb).
  rewrite Ea, Eb in E.
  assert (w = w') as <-
    by (apply (f_equal (@List.length Z)) in E; rewrite !zfill_length in E;
        exact E).
  apply (zfill_inj w); assumption.
Qed.

Lemma valid_printable (t : datetime) : valid t = true -> printable t.
Proof.
  unfold valid, valid_date, MINYEAR, MAXYEAR, days_in_month, printable.
  rewrite !andb_true_iff, !Z.leb_le.
  intros [(((((Hy1 & Hy2) & Hm1) & Hm2) & Hd1) & Hd2) _].
  assert (days_le : (if (month t =? 2) && is_leap (year t) then 29
                     else DAYS_IN_MONTH (month t)) <= 31).
  { destruct ((month t =? 2) && is_leap (year t)); [lia|].
    assert (C : month t = 1 \/ month t = 2 \/ month t = 3 \/ month t = 4
                \/ month t = 5 \/ month t = 6 \/ month t = 7 \/ month t = 8
                \/ month t = 9 \/ month t = 10 \/ month t = 11
                \/ month t = 12) by lia.
    repeat destruct C as [-> | C]; try rewrite C; cbv; discriminate. }
  lia.
Qed.

Lemma dashed_inj (y1 y2 m1 m2 d1 d2 : str) :
  List.length y1 = List.length y2 -> List.length m1 = List.length m2 ->
  y1 ++ [45] ++ m1 ++ [45] ++ d1 = y2 ++ [45] ++ m2 ++ [45] ++ d2 ->
  y1 = y2 /\ m1 = m2 /\ d1 = d2.
Proof.
  intros Ly Lm E.
  apply app_same_length in E; [|exact Ly]. destruct E as [-> E].
  injection E as E.
  apply app_same_length in E; [|exact Lm]. destruct E as [-> E].
  injection E as ->. auto.
Qed.

(** Two [strftime("%Y-%m-%d")] are the same string exactly when the two
    values fall on the same day. *)
Lemma strftime_Ymd_same_date (a b : datetime) :
  printable a -> printable b ->
  Str.eqb (strftime_Ymd a) (strftime_Ymd b) = same_date a b.
Proof.
  intros (Ay & Am & Ad) (By & Bm & Bd).
  apply eq_true_iff_eq. rewrite eqb_eq. unfold same_date, strftime_Ymd.
  rewrite !andb_true_iff, !Z.eqb_eq. split.
  - intros E.
    assert (Ly : List.length (fmt_Y (year a)) = List.length (fmt_Y (year b))).
    { apply (f_equal (@List.length Z)) in E.
      rewrite !length_app, !zfill_length in E. simpl in E. lia. }
    apply dashed_inj in E; [|exact Ly | rewrite !zfill_length; reflexivity].
    destruct E as (E1 & E2 & E3).
    apply fmt_Y_inj in E1; [|assumption ..].
    apply zfill_inj in E2, E3; simpl; lia.
  - intros [[-> ->] ->]. reflexivity.
Qed.

(** ** Stepping through a view function *)

Lemma is_admin_dec (role : str) :
  {role = ADMIN /\ Str.eqb role ADMIN = true}
  + {role <> ADMIN /\ Str.eqb role ADMIN = false}.
Proof.
  destruct (Str.eqb role ADMIN) eqn:E.
  - left. split; [apply eqb_eq, E | reflexivity].
  - right. split; [apply eqb_neq, E | reflexivity].
Qed.

(** The store a request leaves keeps the constraints when the handler's
    commit does. *)
Lemma serve_keeps (P : DB -> Prop) (h : handler) (db : DB) :
  P db ->
  (forall resp db', h db = Ok (resp, db') -> P db') ->
  P (snd (serve h db)).
Proof.
  intros Hp Hh. unfold serve.
  destruct (h db) as [[resp db']|e] eqn:E; [apply (Hh resp), eq_refl|].
  destruct e; exact Hp.
Qed.

(** ** The rows a session sees *)

Lemma scoped_query_admin (uid : Z) (db : DB) :
  scoped_query ADMIN uid db = customers db.
Proof. reflexivity. Qed.

Lemma scoped_query_owner (role : str) (uid : Z) (db : DB) (c : Client.t) :
  role <> ADMIN ->
  In c (scoped_query role uid db) -> In c (customers db) /\ Client.user_id c = uid.
Proof.
  intros Hr. unfold scoped_query, Client_by_user_id.
  apply eqb_neq in Hr. rewrite Hr. rewrite filter_In, Z.eqb_eq. auto.
Qed.

Lemma filter_filter {A} (f g : A -> bool) (l : list A) :
  filter f (filter g l) = filter (fun x => g x && f x) l.
Proof.
  induction l as [|a l IH]; simpl; [reflexivity|].
  destruct (g a); simpl; [destruct (f a); rewrite IH; reflexivity | exact IH].
Qed.

(** C1. [list_clients] answers a session that is not logged in with the
    redirect to the login page. For a logged-in session it renders the
    list page with the search, the flag and the day of the request, and as
    clients the rows of [customers], in storage order, that the session may
    see and that the filters of the request keep: for a session that is not
    an admin's the rows it may see are those whose [user_id] is the
    session's, for an admin's they are all rows. Hence a session that is
    not an admin's is shown no row of another user; an admin is shown every
    row the filters keep, and with neither filter the whole store. *)
Theorem list_clients_scope
    (like : str -> str -> bool) (now : datetime)
    (s : session) (r : request) (db : DB) :
  match s with
  | None => list_clients like now s r db = Ok (redirect "/login", db)
  | Some sess =>
      let search := strip (args_get r "q") in
      let today_flag := Str.eqb (args_get r "today") (lit "1") in
      let today_str := strftime_Ymd now in
      let admin := Str.eqb (Session.role sess) ADMIN in
      let seen c := admin || (Client.user_id c =? Session.user_id sess) in
      let kept c :=
        (negb (truthy search) || matches like ([37] ++ search ++ [37]) c)
        && (negb today_flag || due_on today_str c) in
      let clients := filter (fun c => seen c && kept c) (customers db) in
      let today_count :=
        Z.of_nat (List.length
                    (filter (fun c => seen c && due_on today_str c)
                       (customers db))) in
      list_clients like now s r db
      = Ok (render_template "list.html"
              (with_clients clients search today_flag today_str today_count),
            db)
      /\ (Session.role sess <> ADMIN ->
          forall c, In c clients ->
            In c (customers db) /\ Client.user_id c = Session.user_id sess)
      /\ (Session.role sess = ADMIN ->
          forall c, In c (customers db) -> kept c = true -> In c clients)
      /\ (Session.role sess = ADMIN -> search = [] -> today_flag = false ->
          clients = customers db)
  end.
Proof.
  destruct s as [sess|]; [|reflexivity]. cbv zeta.
  set (search := strip (args_get r "q")).
  set (flag := Str.eqb (args_get r "today") (lit "1")).
  set (today := strftime_Ymd now).
  set (admin := Str.eqb (Session.role sess) ADMIN).
  set (seen := fun c => admin || (Client.user_id c =? Session.user_id sess)).
  set (kept := fun c =>
         (negb (truthy search) || matches like ([37] ++ search ++ [37]) c)
         && (negb flag || due_on today c)).
  assert (B : scoped_query (Session.role sess) (Session.user_id sess) db
              = filter seen (customers db)).
  { unfold scoped_query, Client_by_user_id, seen. fold admin.
    destruct admin; cbn [orb]; [|reflexivity].
    symmetry. apply forallb_filter_id. apply forallb_forall. reflexivity. }
  split; [|split; [|split]].
  - assert (E : (let found :=
                     if truthy search
                     then filter (matches like ([37] ++ search ++ [37]))
                            (filter seen (customers db))
                     else filter seen (customers db) in
                   if flag then filter (due_on today) found else found)
                = filter (fun c => seen c && kept c) (customers db)).
    { unfold kept. cbv zeta.
      destruct flag, (truthy search); cbn [negb orb];
        rewrite ?filter_filter; apply filter_ext; intros c;
        destruct (seen c); cbn [andb];
        try reflexivity; rewrite ?andb_true_r; reflexivity. }
    cbv zeta in E.
    unfold list_clients, login_required. fold search flag today.
    rewrite B, E, filter_filter. reflexivity.
  - intros Hr c Hc. apply filter_In in Hc. destruct Hc as [Hin Hc].
    split; [exact Hin|].
    apply andb_true_iff in Hc. destruct Hc as [Hs _].
    unfold seen, admin in Hs. apply eqb_neq in Hr. rewrite Hr in Hs.
    apply Z.eqb_eq. exact Hs.
  - intros Hr c Hin Hk. apply filter_In. split; [exact Hin|].
    unfold seen, admin. rewrite Hr. change (Str.eqb ADMIN ADMIN) with true.
    exact Hk.
  - intros Hr Hs Hf. unfold kept, seen, admin.
    rewrite Hr, Hs, Hf. change (Str.eqb ADMIN ADMIN) with true.
    apply forallb_filter_id. apply forallb_forall. reflexivity.
Qed.

Lemma list_clients_scope_witness :
  list_clients Sample.like Sample.now (Some Sample.alice) (Sample.get [])
    Sample.db
  = Ok (render_template "list.html"
          (with_clients
             [Client.mk 1 (lit "Wang") (lit "1 X Road") SAME_AS_HOUSE
                (mk_datetime 2026 10 21 9 30 0 0)
                (mk_datetime 2026 11 4 9 30 0 0) (lit "") 2]
             [] false (lit "2026-11-04") 1), Sample.db)
  /\ list_clients Sample.like Sample.now (Some Sample.root) (Sample.get [])
       Sample.db
     = Ok (render_template "list.html"
             (with_clients (customers Sample.db) [] false
                (lit "2026-11-04") 2), Sample.db).
Proof.
  split.
  - destruct (list_clients_scope Sample.like Sample.now (Some Sample.alice)
                (Sample.get []) Sample.db) as (E & _).
    exact E.
  - destruct (list_clients_scope Sample.like Sample.now (Some Sample.root)
                (Sample.get []) Sample.db) as (E & _ & _ & W).
    cbv zeta in W, E. rewrite (W eq_refl eq_refl eq_refl) in E.
    exact E.
Defined.

(** ** The due-today filter *)

Lemma due_on_same_date (now : datetime) (c : Client.t) :
  valid now = true -> valid (Client.next_follow c) = true ->
  due_on (strftime_Ymd now) c = same_date (Client.next_follow c) now.
Proof.
  intros Hn Hc. unfold due_on.
  apply strftime_Ymd_same_date; apply valid_printable; assumption.
Qed.

Lemma filter_ext_Forall {A} (f g : A -> bool) (P : A -> Prop) (l : list A) :
  (forall a, P a -> f a = g a) -> Forall P l -> filter f l = filter g l.
Proof.
  intros H F. induction F as [|a l Pa F IH]; simpl; [reflexivity|].
  rewrite (H a Pa), IH. reflexivity.
Qed.

Lemma Forall_filter {A} (f : A -> bool) (P : A -> Prop) (l : list A) :
  Forall P l -> Forall P (filter f l).
Proof.
  intros F. induction F as [|a l Pa F IH]; simpl; [constructor|].
  destruct (f a); [constructor|]; assumption.
Qed.

(** C9. With [today=1], [list_clients] shows exactly the rows the session
    sees and the search keeps whose next follow-up falls on the calendar day
    of [now], whatever its time of day, in storage order. *)
Theorem list_clients_due_today
    (like : str -> str -> bool) (now : datetime)
    (sess : Session.t) (r : request) (db : DB) :
  valid now = true ->
  Forall (fun c => valid (Client.next_follow c) = true) (customers db) ->
  args_get r "today" = lit "1" ->
  let search := strip (args_get r "q") in
  let visible := scoped_query (Session.role sess) (Session.user_id sess) db in
  let found :=
    if truthy search
    then filter (matches like ([37] ++ search ++ [37])) visible
    else visible in
  exists today_count,
    list_clients like now (Some sess) r db
    = Ok (render_template "list.html"
            (with_clients
               (filter (fun c => same_date (Client.next_follow c) now) found)
               search true (strftime_Ymd now) today_count), db).
Proof.
  intros Hn Hdb Ht search visible found.
  unfold list_clients, login_required. rewrite Ht. cbn [Str.eqb lit].
  change (Str.eqb (lit "1") (lit "1")) with true.
  fold search visible found.
  exists (Z.of_nat (List.length (filter (due_on (strftime_Ymd now)) visible))).
  replace (filter (due_on (strftime_Ymd now)) found)
    with (filter (fun c => same_date (Client.next_follow c) now) found);
    [reflexivity|].
  symmetry. apply filter_ext_Forall
    with (P := fun c => valid (Client.next_follow c) = true).
  - intros c Hc. apply due_on_same_date; assumption.
  - assert (Hv : Forall (fun c => valid (Client.next_follow c) = true) visible).
    { unfold visible, scoped_query, Client_by_user_id.
      destruct (Str.eqb (Session.role sess) ADMIN);
        [exact Hdb | apply Forall_filter, Hdb]. }
    unfold found. destruct (truthy search); [apply Forall_filter|]; exact Hv.
Qed.

Lemma list_clients_due_today_witness :
  exists today_count,
    list_clients Sample.like Sample.now (Some Sample.bob)
      (Sample.get [("today"%string, lit "1")]) Sample.db
    = Ok (render_template "list.html"
            (with_clients
               [Client.mk 3 (lit "Lin") (lit "7 Y Road") SAME_AS_HOUSE
                  (mk_datetime 2026 11 1 8 0 0 0)
                  (mk_datetime 2026 11 4 0 0 0 0) (lit "") 3]
               [] true (strftime_Ymd Sample.now) today_count), Sample.db).
Proof.
  apply (list_clients_due_today Sample.like Sample.now Sample.bob
           (Sample.get [("today"%string, lit "1")]) Sample.db).
  - reflexivity.
  - repeat constructor.
  - reflexivity.
Defined.

(** ** Rows after a commit *)

Lemma Client_get_id (db : DB) (id : Z) (c : Client.t) :
  Client_get db id = Some c -> In c (customers db) /\ Client.id c = id.
Proof.
  unfold Client_get. intros H. apply find_some in H.
  rewrite Z.eqb_eq in H. exact H.
Qed.

(** Replacing the row of a primary key by a row with that key. *)
Lemma find_replace (c' : Client.t) (id : Z) (l : list Client.t) :
  find (fun c => Client.id c =? id)
       (map (fun r => if Client.id r =? Client.id c' then c' else r) l)
  = option_map (fun r => if Client.id r =? Client.id c' then c' else r)
               (find (fun c => Client.id c =? id) l).
Proof.
  induction l as [|a l IH]; simpl; [reflexivity|].
  destruct (Client.id a =? Client.id c') eqn:E.
  - replace (Client.id c' =? id) with (Client.id a =? id)
      by (apply Z.eqb_eq in E; rewrite E; reflexivity).
    destruct (Client.id a =? id); [simpl; rewrite E; reflexivity | exact IH].
  - destruct (Client.id a =? id); [simpl; rewrite E; reflexivity | exact IH].
Qed.

(** What [edit_client] does when it returns: nothing to the store, or, on
    the redirect to the list, the update of the row [id] from the form. *)
Lemma edit_client_Ok decimal (s : session) (r : request) (id : Z)
    (db db' : DB) (resp : response) :
  edit_client decimal s r id db = Ok (resp, db') ->
  (resp <> redirect "/list" /\ db' = db)
  \/ exists sess c name house register notes nf next,
       s = Some sess /\ req_method r = POST
       /\ resp = redirect "/list"
       /\ Client_get db id = Some c
       /\ (Session.role sess = ADMIN \/ Client.user_id c = Session.user_id sess)
       /\ form_get r "name" = Ok name
       /\ form_get r "house_address" = Ok house
       /\ form_get r "register_address" = Ok register
       /\ form_get r "notes" = Ok notes
       /\ form_get r "next_follow" = Ok nf
       /\ (if truthy (strip nf) then strptime decimal (strip nf)
           else Ok (Client.next_follow c)) = Ok next
       /\ db' = mk_DB (users db)
                  (map (fun x =>
                          if Client.id x =? Client.id c
                          then updated c name house
                                 (if Str.eqb (strip house) (strip register)
                                  then SAME_AS_HOUSE else register)
                                 next notes
                          else x) (customers db)).
Proof.
  unfold edit_client, login_required.
  destruct s as [sess|]; [|intros H; injection H as <- <-; left; split; [discriminate|reflexivity]].
  destruct (is_admin_dec (Session.role sess)) as [[Ha Hb]|[Ha Hb]]; rewrite Hb;
    cbn [negb bind].
  - destruct (req_method r) eqn:Em;
      [intros H; injection H as <- <-; left; split; [discriminate|reflexivity]|].
    destruct (form_get r "name") as [name|] eqn:E1; cbn [bind]; [|discriminate].
    destruct (Client_get db id) as [c|] eqn:Ec; cbn [deref bind]; [|discriminate].
    destruct (form_get r "house_address") as [house|] eqn:E2; cbn [bind]; [|discriminate].
    destruct (form_get r "register_address") as [register|] eqn:E3; cbn [bind]; [|discriminate].
    destruct (form_get r "notes") as [notes|] eqn:E4; cbn [bind]; [|discriminate].
    destruct (form_get r "next_follow") as [nf|] eqn:E5; cbn [bind]; [|discriminate].
    destruct (if truthy (strip nf) then strptime decimal (strip nf)
              else Ok (Client.next_follow c)) as [next|] eqn:E6;
      cbn [bind commit_update_client]; [|discriminate].
    intros H. injection H as <- <-. right.
    exists sess, c, name, house, register, notes, nf, next.
    repeat (split; [first [reflexivity | assumption | left; exact Ha]|]).
    reflexivity.
  - destruct (Client_get db id) as [c|] eqn:Ec; cbn [deref bind]; [|discriminate].
    destruct (Client.user_id c =? Session.user_id sess) eqn:Eo; cbn [negb];
      [|intros H; injection H as <- <-; left; split; [discriminate|reflexivity]].
    apply Z.eqb_eq in Eo.
    destruct (req_method r) eqn:Em;
      [intros H; injection H as <- <-; left; split; [discriminate|reflexivity]|].
    destruct (form_get r "name") as [name|] eqn:E1; cbn [bind]; [|discriminate].
    destruct (form_get r "house_address") as [house|] eqn:E2; cbn [bind]; [|discriminate].
    destruct (form_get r "register_address") as [register|] eqn:E3; cbn [bind]; [|discriminate].
    destruct (form_get r "notes") as [notes|] eqn:E4; cbn [bind]; [|discriminate].
    destruct (form_get r "next_follow") as [nf|] eqn:E5; cbn [bind]; [|discriminate].
    destruct (if truthy (strip nf) then strptime decimal (strip nf)
              else Ok (Client.next_follow c)) as [next|] eqn:E6;
      cbn [bind commit_update_client]; [|discriminate].
    intros H. injection H as <- <-. right.
    exists sess, c, name, house, register, notes, nf, next.
    repeat (split; [first [reflexivity | assumption | right; exact Eo]|]).
    reflexivity.
Qed.

(** What [add_client] does when it returns: nothing to the store, or, on
    the redirect to the list, the insertion of one row built from the form. *)
Lemma add_client_Ok decimal (now : datetime) (s : session) (r : request)
    (db db' : DB) (resp : response) :
  add_client decimal now s r db = Ok (resp, db') ->
  (resp <> redirect "/list" /\ db' = db)
  \/ exists sess name house register notes nf next,
       s = Some sess /\ req_method r = POST
       /\ resp = redirect "/list"
       /\ form_get r "name" = Ok name
       /\ form_get r "house_address" = Ok house
       /\ form_get r "register_address" = Ok register
       /\ form_get r "notes" = Ok notes
       /\ form_get r "next_follow" = Ok nf
       /\ (if Str.eqb (strip nf) []
           then match add_days now 14 with
                | Some t => Ok t
                | None => Raise OverflowError
                end
           else strptime decimal (strip nf)) = Ok next
       /\ db' = mk_DB (users db)
                  (customers db ++
                   [Client.mk (fresh_id (map Client.id (customers db)))
                      name house
                      (if Str.eqb (strip house) (strip register)
                       then SAME_AS_HOUSE else register)
                      now next notes (Session.user_id sess)]).
Proof.
  unfold add_client, login_required.
  destruct s as [sess|];
    [|intros H; injection H as <- <-; left; split; [discriminate|reflexivity]].
  destruct (req_method r) eqn:Em;
    [intros H; injection H as <- <-; left; split; [discriminate|reflexivity]|].
  destruct (form_get r "name") as [name|] eqn:E1; cbn [bind]; [|discriminate].
  destruct (form_get r "house_address") as [house|] eqn:E2; cbn [bind]; [|discriminate].
  destruct (form_get r "register_address") as [register|] eqn:E3; cbn [bind]; [|discriminate].
  destruct (form_get r "notes") as [notes|] eqn:E4; cbn [bind]; [|discriminate].
  destruct (form_get r "next_follow") as [nf|] eqn:E5; cbn [bind]; [|discriminate].
  match goal with
  | |- bind ?e _ = _ -> _ => destruct e as [next|] eqn:E6
  end; cbn [bind commit_insert_client]; [|discriminate].
  intros H. injection H as <- <-. right.
  exists sess, name, house, register, notes, nf, next.
  repeat (split; [first [reflexivity | assumption]|]).
  reflexivity.
Qed.

Lemma sentinel_rule (house register : str) :
  let stored := if Str.eqb (strip house) (strip register)
                then SAME_AS_HOUSE else register in
  (strip house = strip register -> stored = SAME_AS_HOUSE)
  /\ (strip house <> strip register -> stored = register)
  /\ (strip house = strip stored -> stored = SAME_AS_HOUSE).
Proof.
  cbv zeta. destruct (Str.eqb (strip house) (strip register)) eqn:E.
  - apply eqb_eq in E. repeat split; auto. intros H. contradiction.
  - apply eqb_neq in E. repeat split; auto; intros H; contradiction.
Qed.

(** C2. The row [add_client] inserts and the row [edit_client] leaves, once
    the call has completed, hold the house address of the form, and as
    registered address the sentinel when the two addresses of the form are
    equal after [strip], the registered address of the form otherwise; so
    that a stored row whose two addresses are equal after [strip] holds the
    sentinel. *)
Theorem same_address_sentinel decimal (now : datetime) (s : session)
    (r : request) (id : Z) (db db' : DB) :
  (add_client decimal now s r db = Ok (redirect "/list", db') ->
   exists c house register,
     customers db' = customers db ++ [c]
     /\ form_get r "house_address" = Ok house
     /\ form_get r "register_address" = Ok register
     /\ Client.house_address c = house
     /\ (strip house = strip register ->
         Client.register_address c = SAME_AS_HOUSE)
     /\ (strip house <> strip register ->
         Client.register_address c = register)
     /\ sentinel_ok c)
  /\ (edit_client decimal s r id db = Ok (redirect "/list", db') ->
      exists c house register,
        Client_get db' id = Some c
        /\ form_get r "house_address" = Ok house
        /\ form_get r "register_address" = Ok register
        /\ Client.house_address c = house
        /\ (strip house = strip register ->
            Client.register_address c = SAME_AS_HOUSE)
        /\ (strip house <> strip register ->
            Client.register_address c = register)
        /\ sentinel_ok c).
Proof.
  split; intros H.
  - apply add_client_Ok in H. destruct H as [[H _]|H]; [contradiction H; reflexivity|].
    destruct H as (sess & name & house & register & notes & nf & next
                   & _ & _ & _ & _ & Eh & Er & _ & _ & _ & ->).
    destruct (sentinel_rule house register) as (R1 & R2 & R3).
    eexists _, house, register. cbn [customers].
    split; [reflexivity|]. unfold sentinel_ok.
    cbn [Client.house_address Client.register_address].
      repeat (split; [assumption || reflexivity|]). assumption.
  - apply edit_client_Ok in H. destruct H as [[H _]|H]; [contradiction H; reflexivity|].
    destruct H as (sess & c & name & house & register & notes & nf & next
                   & _ & _ & _ & Ec & _ & _ & Eh & Er & _ & _ & _ & ->).
    destruct (sentinel_rule house register) as (R1 & R2 & R3).
    destruct (Client_get_id _ _ _ Ec) as [_ Ei].
    eexists _, house, register. split.
    + unfold Client_get in *. cbn [customers].
      rewrite (find_replace
                 (updated c name house
                    (if Str.eqb (strip house) (strip register)
                     then SAME_AS_HOUSE else register) next notes) id).
      rewrite Ec. cbn. rewrite Z.eqb_refl. reflexivity.
    + unfold sentinel_ok, updated.
      cbn [Client.house_address Client.register_address].
      repeat (split; [assumption || reflexivity|]). assumption.
Qed.

Lemma same_address_sentinel_witness :
  let r := Sample.post (Sample.client_form (lit "Wang") (lit " 1 X Road")
                          (lit "1 X Road ") (lit "") (lit "")) in
  exists db' c,
    add_client ascii_decimal Sample.now (Some Sample.alice) r Sample.db
    = Ok (redirect "/list", db')
    /\ customers db' = customers Sample.db ++ [c]
    /\ Client.house_address c = lit " 1 X Road"
    /\ Client.register_address c = SAME_AS_HOUSE.
Proof.
  intros r.
  pose (db' := match add_client ascii_decimal Sample.now (Some Sample.alice)
                       r Sample.db with
               | Ok (_, d) => d
               | Raise _ => Sample.db
               end).
  destruct (same_address_sentinel ascii_decimal Sample.now (Some Sample.alice)
              r 0 Sample.db db') as [H _].
  destruct (H eq_refl) as (c & house & register & Hc & Hh & Hr & Hs & Hy & _).
  exists db', c. split; [reflexivity|]. split; [exact Hc|].
  injection Hh as <-. injection Hr as <-.
  split; [exact Hs|]. apply Hy. reflexivity.
Defined.

(** C3. [add_client] with a [next_follow] field that is empty after [strip]
    stores a row whose first contact is [now] and whose next follow-up is
    the day fourteen ordinals after it at the same time of day. The sum
    leaves the calendar only for a [now] after 9999-12-17, where the call
    raises [OverflowError] and stores nothing. *)
Theorem add_client_default_next_follow decimal (now : datetime)
    (sess : Session.t) (r : request) (db : DB)
    (name house register notes nf : str) :
  valid now = true ->
  req_method r = POST ->
  form_get r "name" = Ok name ->
  form_get r "house_address" = Ok house ->
  form_get r "register_address" = Ok register ->
  form_get r "notes" = Ok notes ->
  form_get r "next_follow" = Ok nf ->
  strip nf = [] ->
  if toordinal now + 14 <=? MAXORDINAL then
    exists c,
      add_client decimal now (Some sess) r db
      = Ok (redirect "/list", mk_DB (users db) (customers db ++ [c]))
      /\ Client.first_contact c = now
      /\ toordinal (Client.next_follow c)
         = toordinal (Client.first_contact c) + 14
      /\ hour (Client.next_follow c) = hour (Client.first_contact c)
      /\ minute (Client.next_follow c) = minute (Client.first_contact c)
      /\ second (Client.next_follow c) = second (Client.first_contact c)
      /\ microsecond (Client.next_follow c)
         = microsecond (Client.first_contact c)
      /\ valid (Client.next_follow c) = true
      /\ Client.user_id c = Session.user_id sess
  else add_client decimal now (Some sess) r db = Raise OverflowError.
Proof.
  intros Hv Hm E1 E2 E3 E4 E5 Hnf.
  pose proof (add_days_spec now 14 Hv ltac:(lia)) as A.
  unfold add_client, login_required.
  rewrite Hm, E1, E2, E3, E4, E5. cbn [bind]. rewrite Hnf. cbn [Str.eqb].
  destruct (toordinal now + 14 <=? MAXORDINAL).
  - destruct A as (t' & -> & Ho & Hv' & Ht). injection Ht as H1 H2 H3 H4.
    cbn [bind commit_insert_client]. eexists. split; [reflexivity|].
    cbn [Client.first_contact Client.next_follow Client.user_id]. auto 10.
  - rewrite A. reflexivity.
Qed.

Lemma add_client_default_next_follow_witness :
  let r := Sample.post (Sample.client_form (lit "Wang") (lit "1 X Road")
                          (lit "1 X Road") (lit "") (lit "  ")) in
  exists c,
    add_client ascii_decimal Sample.now (Some Sample.alice) r Sample.db
    = Ok (redirect "/list",
          mk_DB (users Sample.db) (customers Sample.db ++ [c]))
    /\ Client.first_contact c = Sample.now
    /\ toordinal (Client.next_follow c) = toordinal Sample.now + 14.
Proof.
  intros r.
  pose proof (add_client_default_next_follow ascii_decimal Sample.now
                Sample.alice r Sample.db (lit "Wang") (lit "1 X Road")
                (lit "1 X Road") (lit "") (lit "  ")
                eq_refl eq_refl eq_refl eq_refl eq_refl eq_refl eq_refl eq_refl)
    as H.
  change (toordinal Sample.now + 14 <=? MAXORDINAL) with true in H.
  destruct H as (c & E & Hf & Ho & _).
  exists c. split; [exact E|]. split; [exact Hf|].
  rewrite Ho, Hf. reflexivity.
Defined.

(** [add_client] on the scenario of the specification: the same address
    twice, no notes, no follow-up date. *)
Example add_client_Wang :
  add_client ascii_decimal Sample.now (Some Sample.alice)
    (Sample.post (Sample.client_form (lit "Wang") (lit "1 X Road")
                    (lit "1 X Road") (lit "") (lit "")))
    (mk_DB (users Sample.db) [])
  = Ok (redirect "/list",
        mk_DB (users Sample.db)
          [Client.mk 1 (lit "Wang") (lit "1 X Road") SAME_AS_HOUSE
             Sample.now (mk_datetime 2026 11 18 17 5 0 0) (lit "") 2]).
Proof. reflexivity. Qed.

(** [edit_client] on a POST the session is permitted, up to the parse of
    the follow-up date. *)
Lemma edit_client_POST decimal (sess : Session.t) (r : request) (id : Z)
    (db : DB) (c : Client.t) (name house register notes nf : str) :
  req_method r = POST ->
  Client_get db id = Some c ->
  Session.role sess = ADMIN \/ Client.user_id c = Session.user_id sess ->
  form_get r "name" = Ok name ->
  form_get r "house_address" = Ok house ->
  form_get r "register_address" = Ok register ->
  form_get r "notes" = Ok notes ->
  form_get r "next_follow" = Ok nf ->
  edit_client decimal (Some sess) r id db
  = (next <- (if truthy (strip nf) then strptime decimal (strip nf)
              else Ok (Client.next_follow c)) ;;
     Ok (redirect "/list",
         mk_DB (users db)
           (map (fun x =>
                   if Client.id x =? Client.id c
                   then updated c name house
                          (if Str.eqb (strip house) (strip register)
                           then SAME_AS_HOUSE else register)
                          next notes
                   else x) (customers db)))).
Proof.
  intros Hm Ec Hp E1 E2 E3 E4 E5.
  unfold edit_client, login_required. rewrite Ec. cbn [deref bind].
  assert (Hd : (if negb (Str.eqb (Session.role sess) ADMIN)
                then Ok (negb (Client.user_id c =? Session.user_id sess))
                else Ok false) = Ok false).
  { destruct (is_admin_dec (Session.role sess)) as [[_ ->]|[Hn ->]];
      cbn [negb]; [reflexivity|].
    destruct Hp as [Hp|Hp]; [contradiction|].
    apply Z.eqb_eq in Hp. rewrite Hp. reflexivity. }
  rewrite Hd. cbn [bind]. rewrite Hm, E1. cbn [bind].
  rewrite E2, E3, E4, E5. cbn [bind].
  destruct (if truthy (strip nf) then strptime decimal (strip nf)
            else Ok (Client.next_follow c)); reflexivity.
Qed.

(** The store after [edit_client], whatever it answers: as it was, or with
    the row [id] updated. *)
Lemma edit_client_store decimal (s : session) (r : request) (id : Z) (db : DB) :
  let db' := snd (serve (edit_client decimal s r id) db) in
  db' = db
  \/ exists c name house register next notes,
       Client_get db id = Some c
       /\ db' = mk_DB (users db)
                  (map (fun x =>
                          if Client.id x =? Client.id c
                          then updated c name house register next notes
                          else x) (customers db)).
Proof.
  unfold serve. destruct (edit_client decimal s r id db) as [[resp db']|e] eqn:E.
  - apply edit_client_Ok in E. destruct E as [[_ ->]|E]; [left; reflexivity|].
    destruct E as (sess & c & name & house & register & notes & nf & next
                   & _ & _ & _ & Ec & _ & _ & _ & _ & _ & _ & _ & ->).
    right. do 6 eexists. split; [exact Ec | reflexivity].
  - left. destruct e; reflexivity.
Qed.

(** C10. A permitted [edit_client] whose [next_follow] field is empty after
    [strip] leaves the stored next follow-up of the row as it was; and
    whatever the session, the method and the form, after [edit_client] every
    row of the store has the first contact and the [user_id] it had. *)
Theorem edit_client_frame decimal (s : session) (r : request) (id : Z)
    (db : DB) :
  (forall sess c name house register notes nf,
      s = Some sess ->
      req_method r = POST ->
      Client_get db id = Some c ->
      Session.role sess = ADMIN \/ Client.user_id c = Session.user_id sess ->
      form_get r "name" = Ok name ->
      form_get r "house_address" = Ok house ->
      form_get r "register_address" = Ok register ->
      form_get r "notes" = Ok notes ->
      form_get r "next_follow" = Ok nf ->
      strip nf = [] ->
      exists db' c',
        edit_client decimal s r id db = Ok (redirect "/list", db')
        /\ Client_get db' id = Some c'
        /\ Client.next_follow c' = Client.next_follow c)
  /\ (forall id' c,
        Client_get db id' = Some c ->
        exists c',
          Client_get (snd (serve (edit_client decimal s r id) db)) id' = Some c'
          /\ Client.first_contact c' = Client.first_contact c
          /\ Client.user_id c' = Client.user_id c).
Proof.
  split.
  - intros sess c name house register notes nf -> Hm Ec Hp E1 E2 E3 E4 E5 Hnf.
    rewrite (edit_client_POST decimal sess r id db c name house register
               notes nf Hm Ec Hp E1 E2 E3 E4 E5).
    rewrite Hnf. cbn [truthy bind]. do 2 eexists. split; [reflexivity|].
    destruct (Client_get_id _ _ _ Ec) as [_ Ei].
    unfold Client_get in *. cbn [customers].
    match goal with
    | |- context [map (fun x => if _ then ?u else x) _] =>
        rewrite (find_replace u id)
    end.
    rewrite Ec. cbn. rewrite Z.eqb_refl. split; reflexivity.
  - intros id' c Ec.
    destruct (edit_client_store decimal s r id db) as [->|H];
      [exists c; auto|].
    destruct H as (c0 & name & house & register & next & notes & Ec0 & ->).
    destruct (Client_get_id _ _ _ Ec) as [_ Ei].
    destruct (Client_get_id _ _ _ Ec0) as [_ Ei0].
    unfold Client_get in *. cbn [customers].
    rewrite (find_replace (updated c0 name house register next notes) id').
    rewrite Ec. cbn [option_map updated Client.id].
    destruct (Client.id c =? Client.id c0) eqn:E.
    + apply Z.eqb_eq in E.
      assert (id' = id) as -> by congruence.
      assert (c = c0) as -> by congruence.
      eexists. split; [reflexivity|]. split; reflexivity.
    + exists c. auto.
Qed.

Lemma edit_client_frame_witness :
  let r := Sample.post (Sample.client_form (lit "Wang") (lit "9 Q Road")
                          (lit "1 X Road") (lit "moved") (lit " ")) in
  exists db' c',
    edit_client ascii_decimal (Some Sample.alice) r 1 Sample.db
    = Ok (redirect "/list", db')
    /\ Client_get db' 1 = Some c'
    /\ Client.next_follow c' = mk_datetime 2026 11 4 9 30 0 0.
Proof.
  intros r.
  destruct (edit_client_frame ascii_decimal (Some Sample.alice) r 1 Sample.db)
    as [H _].
  apply (H Sample.alice
           (Client.mk 1 (lit "Wang") (lit "1 X Road") SAME_AS_HOUSE
              (mk_datetime 2026 10 21 9 30 0 0)
              (mk_datetime 2026 11 4 9 30 0 0) (lit "") 2)
           (lit "Wang") (lit "9 Q Road") (lit "1 X Road") (lit "moved")
           (lit " "));
    solve [reflexivity | right; reflexivity].
Defined.

(** ** Dates that do not parse *)

Lemma strptime_cases decimal (s : str) :
  (exists t, strptime decimal s = Ok t) \/ strptime decimal s = Raise ValueError.
Proof.
  unfold strptime.
  destruct (regex_match decimal s) as [[[[y m] d] [|x rest]]|];
    try (right; reflexivity).
  destruct (valid_date y m d); [left; eexists; reflexivity | right; reflexivity].
Qed.

(** What [strptime] returns is a [datetime], at midnight. *)
Lemma strptime_valid decimal (s : str) (t : datetime) :
  strptime decimal s = Ok t -> valid t = true.
Proof.
  unfold strptime.
  destruct (regex_match decimal s) as [[[[y m] d] [|x rest]]|];
    try discriminate.
  destruct (valid_date y m d) eqn:E; [|discriminate].
  intros H. injection H as <-. unfold valid. cbn. rewrite E. reflexivity.
Qed.

(** C5, as the code has it. When the [next_follow] field is not empty after
    [strip] and [strptime] does not parse it, [add_client], and [edit_client]
    on a row the session may edit, let the [ValueError] of [strptime]
    escape: no response is returned, the request is answered with status
    500, and the store is as it was. *)
Theorem malformed_next_follow_raises decimal (now : datetime)
    (sess : Session.t) (r : request) (id : Z) (db : DB)
    (name house register notes nf : str) :
  req_method r = POST ->
  form_get r "name" = Ok name ->
  form_get r "house_address" = Ok house ->
  form_get r "register_address" = Ok register ->
  form_get r "notes" = Ok notes ->
  form_get r "next_follow" = Ok nf ->
  strip nf <> [] ->
  (forall t, strptime decimal (strip nf) <> Ok t) ->
  (add_client decimal now (Some sess) r db = Raise ValueError
   /\ serve (add_client decimal now (Some sess) r) db = (Status 500, db))
  /\ (forall c,
        Client_get db id = Some c ->
        Session.role sess = ADMIN \/ Client.user_id c = Session.user_id sess ->
        edit_client decimal (Some sess) r id db = Raise ValueError
        /\ serve (edit_client decimal (Some sess) r id) db = (Status 500, db)).
Proof.
  intros Hm E1 E2 E3 E4 E5 Hnf Hbad.
  assert (P : strptime decimal (strip nf) = Raise ValueError).
  { destruct (strptime_cases decimal (strip nf)) as [[t Ht]|Ht];
      [destruct (Hbad t Ht) | exact Ht]. }
  assert (A : add_client decimal now (Some sess) r db = Raise ValueError).
  { unfold add_client, login_required.
    rewrite Hm, E1, E2, E3, E4, E5. cbn [bind].
    apply eqb_neq in Hnf. rewrite Hnf, P. reflexivity. }
  split.
  - split; [exact A|]. unfold serve. rewrite A. reflexivity.
  - intros c Ec Hp.
    assert (B : edit_client decimal (Some sess) r id db = Raise ValueError).
    { rewrite (edit_client_POST decimal sess r id db c name house register
                 notes nf Hm Ec Hp E1 E2 E3 E4 E5).
      rewrite truthy_eqb_nil. apply eqb_neq in Hnf. rewrite Hnf, P.
      reflexivity. }
    split; [exact B|]. unfold serve. rewrite B. reflexivity.
Qed.

Lemma malformed_next_follow_raises_witness :
  let r := Sample.post (Sample.client_form (lit "Wang") (lit "1 X Road")
                          (lit "1 X Road") (lit "") (lit "2026/02/30")) in
  serve (add_client ascii_decimal Sample.now (Some Sample.alice) r) Sample.db
  = (Status 500, Sample.db)
  /\ serve (edit_client ascii_decimal (Some Sample.alice) r 1) Sample.db
     = (Status 500, Sample.db).
Proof.
  intros r.
  destruct (malformed_next_follow_raises ascii_decimal Sample.now Sample.alice
              r 1 Sample.db (lit "Wang") (lit "1 X Road") (lit "1 X Road")
              (lit "") (lit "2026/02/30")
              eq_refl eq_refl eq_refl eq_refl eq_refl eq_refl)
    as [[_ A] B].
  - discriminate.
  - intros t H. discriminate H.
  - split; [exact A|].
    apply (B (Client.mk 1 (lit "Wang") (lit "1 X Road") SAME_AS_HOUSE
                (mk_datetime 2026 10 21 9 30 0 0)
                (mk_datetime 2026 11 4 9 30 0 0) (lit "") 2));
      [reflexivity | right; reflexivity].
Defined.

(** C5, as stated, fails: a follow-up date written with dashes makes
    [add_client] and [edit_client] raise; neither returns a response, and
    the client is answered with status 500. *)
Lemma malformed_next_follow_no_response :
  let r := Sample.post (Sample.client_form (lit "Wang") (lit "1 X Road")
                          (lit "1 X Road") (lit "") (lit "2026-11-18")) in
  add_client ascii_decimal Sample.now (Some Sample.alice) r Sample.db
  = Raise ValueError
  /\ edit_client ascii_decimal (Some Sample.alice) r 1 Sample.db
     = Raise ValueError
  /\ ~ (exists resp db',
          add_client ascii_decimal Sample.now (Some Sample.alice) r Sample.db
          = Ok (resp, db'))
  /\ ~ (exists resp db',
          edit_client ascii_decimal (Some Sample.alice) r 1 Sample.db
          = Ok (resp, db'))
  /\ fst (serve (add_client ascii_decimal Sample.now (Some Sample.alice) r)
            Sample.db) = Status 500
  /\ fst (serve (edit_client ascii_decimal (Some Sample.alice) r 1)
            Sample.db) = Status 500.
Proof.
  intros r. repeat split; try reflexivity;
    intros (resp & db' & H); discriminate H.
Qed.

Example strptime_slashes :
  strptime ascii_decimal (lit "2026/11/18") = Ok (mk_datetime 2026 11 18 0 0 0 0).
Proof. reflexivity. Qed.

Example strptime_short_fields :
  strptime ascii_decimal (lit "2026/1/5") = Ok (mk_datetime 2026 1 5 0 0 0 0).
Proof. reflexivity. Qed.

Example strptime_leap_day :
  strptime ascii_decimal (lit "2028/02/29") = Ok (mk_datetime 2028 2 29 0 0 0 0)
  /\ strptime ascii_decimal (lit "2026/02/29") = Raise ValueError.
Proof. split; reflexivity. Qed.

Example strptime_rest :
  strptime ascii_decimal (lit "2026/11/181") = Raise ValueError
  /\ strptime ascii_decimal (lit "0000/01/01") = Raise ValueError
  /\ strptime ascii_decimal (lit "26/11/18") = Raise ValueError.
Proof. repeat split; reflexivity. Qed.

(** ** Rows that do not exist *)

(** C4, as the code has it. For a logged-in session and an [id], in the
    range the engine binds, that no row of [customers] has, [edit_client] on
    POST and [delete_client] return no response. [edit_client] raises
    [AttributeError] (on the owner of the missing row, or for an admin on
    its first attribute set) and the request is answered with status 500;
    only an admin's form without the [name] field is answered with status
    400 before that. [delete_client] raises [AttributeError] for a session
    that is not an admin's and [UnmappedInstanceError] for an admin's, and
    the request is answered with status 500. The database is as it was. *)
Theorem missing_client_raises decimal (sess : Session.t) (r : request)
    (id : Z) (db : DB) :
  key_in_range id ->
  Client_get db id = None ->
  (req_method r = POST ->
   (Session.role sess <> ADMIN \/ lookup "name" (form r) <> None ->
    edit_client decimal (Some sess) r id db = Raise AttributeError
    /\ serve (edit_client decimal (Some sess) r id) db = (Status 500, db))
   /\ (Session.role sess = ADMIN -> lookup "name" (form r) = None ->
       edit_client decimal (Some sess) r id db
       = Raise (BadRequestKeyError "name")
       /\ serve (edit_client decimal (Some sess) r id) db = (Status 400, db)))
  /\ delete_client (Some sess) id db
     = Raise (if Str.eqb (Session.role sess) ADMIN
              then UnmappedInstanceError else AttributeError)
  /\ serve (delete_client (Some sess) id) db = (Status 500, db).
Proof.
  intros _ Ec. split; [intros Hm|split].
  - unfold serve, edit_client, login_required. rewrite Ec, Hm.
    destruct (is_admin_dec (Session.role sess)) as [[Ha ->]|[Ha ->]];
      cbn [negb deref bind].
    + unfold form_get. destruct (lookup "name" (form r)) eqn:En; cbn [bind].
      * split; [intros _; split; reflexivity|].
        intros _ H. discriminate H.
      * split; [|intros _ _; split; reflexivity].
        intros [H|H]; contradiction.
    + split; [intros _; split; reflexivity|].
      intros H. contradiction.
  - unfold delete_client, login_required. rewrite Ec.
    destruct (Str.eqb (Session.role sess) ADMIN); reflexivity.
  - unfold serve, delete_client, login_required. rewrite Ec.
    destruct (Str.eqb (Session.role sess) ADMIN); reflexivity.
Qed.

Lemma missing_client_raises_witness :
  let r := Sample.post (Sample.client_form (lit "Wang") (lit "1 X Road")
                          (lit "1 X Road") (lit "") (lit "")) in
  delete_client (Some Sample.root) 99 Sample.db = Raise UnmappedInstanceError
  /\ serve (delete_client (Some Sample.root) 99) Sample.db
     = (Status 500, Sample.db)
  /\ edit_client ascii_decimal (Some Sample.root) r 99 Sample.db
     = Raise AttributeError
  /\ serve (edit_client ascii_decimal (Some Sample.root) r 99) Sample.db
     = (Status 500, Sample.db).
Proof.
  intros r.
  assert (K : key_in_range 99) by (unfold key_in_range; lia).
  destruct (missing_client_raises ascii_decimal Sample.root r 99 Sample.db
              K eq_refl) as (E & D & S).
  split; [exact D|]. split; [exact S|].
  destruct (E eq_refl) as [A _]. apply A. right. discriminate.
Defined.

(** C4, as stated, fails: for an [id] without a row, [edit_client] and
    [delete_client] return no response at all, for an employee and for an
    admin; the client is answered with status 500, not with a not-found
    result. *)
Lemma missing_client_no_response :
  let r := Sample.post (Sample.client_form (lit "Wang") (lit "1 X Road")
                          (lit "1 X Road") (lit "") (lit "")) in
  Client_get Sample.db 99 = None
  /\ edit_client ascii_decimal (Some Sample.alice) r 99 Sample.db
     = Raise AttributeError
  /\ delete_client (Some Sample.alice) 99 Sample.db = Raise AttributeError
  /\ edit_client ascii_decimal (Some Sample.root) r 99 Sample.db
     = Raise AttributeError
  /\ delete_client (Some Sample.root) 99 Sample.db
     = Raise UnmappedInstanceError
  /\ ~ (exists resp db',
          edit_client ascii_decimal (Some Sample.alice) r 99 Sample.db
          = Ok (resp, db'))
  /\ ~ (exists resp db',
          delete_client (Some Sample.alice) 99 Sample.db = Ok (resp, db'))
  /\ fst (serve (edit_client ascii_decimal (Some Sample.alice) r 99)
            Sample.db) = Status 500
  /\ fst (serve (delete_client (Some Sample.alice) 99) Sample.db)
     = Status 500.
Proof.
  intros r. repeat split; try reflexivity;
    intros (resp & db' & H); discriminate H.
Qed.

(** ** The [users] table *)

Lemma fold_max_ge (ids : list Z) (x : Z) :
  In x ids -> x <= fold_right Z.max 0 ids.
Proof.
  induction ids as [|a ids IH]; simpl; [contradiction|].
  intros [->|H]; [lia|]. specialize (IH H). lia.
Qed.

Lemma fresh_id_fresh (ids : list Z) : ~ In (fresh_id ids) ids.
Proof.
  intros H. apply fold_max_ge in H. unfold fresh_id in H. lia.
Qed.

Lemma NoDup_snoc {A} (l : list A) (x : A) :
  NoDup l -> ~ In x l -> NoDup (l ++ [x]).
Proof.
  intros N. induction N as [|a l Ha N IH]; intros Hx; simpl.
  - constructor; [intros []|constructor].
  - constructor.
    + rewrite in_app_iff. intros [H|[H|[]]]; [contradiction|].
      apply Hx. left. symmetry. exact H.
    + apply IH. intros H. apply Hx. right. exact H.
Qed.

Lemma NoDup_map_filter {Row Key} (key : Row -> Key) (keep : Row -> bool)
    (rows : list Row) :
  NoDup (map key rows) -> NoDup (map key (filter keep rows)).
Proof.
  induction rows as [|a rows IH]; simpl; intros N; [constructor|].
  inversion N as [|? ? Ha N']; subst.
  destruct (keep a); simpl; [|apply IH, N'].
  constructor; [|apply IH, N'].
  intros H. apply Ha. apply in_map_iff in H. destruct H as (x & E & Hx).
  apply filter_In in Hx. apply in_map_iff. exists x. tauto.
Qed.

Lemma User_by_username_None (db : DB) (name : str) :
  User_by_username db name = None -> ~ In name (usernames db).
Proof.
  unfold User_by_username, usernames. intros H Hin.
  apply in_map_iff in Hin. destruct Hin as (u & <- & Hu).
  pose proof (find_none _ _ H u Hu) as E. cbn in E.
  rewrite eqb_refl in E. discriminate E.
Qed.

Lemma User_by_username_Some (db : DB) (name : str) (u : User.t) :
  In u (users db) -> User.username u = name ->
  exists v, User_by_username db name = Some v.
Proof.
  intros Hu E. unfold User_by_username.
  destruct (find (fun u0 => Str.eqb (User.username u0) name) (users db))
    as [v|] eqn:F; [exists v; reflexivity|].
  pose proof (find_none _ _ F u Hu) as N. cbn in N.
  rewrite E, eqb_refl in N. discriminate N.
Qed.

(** An insert whose username no row holds passes the UNIQUE constraint and
    keeps the constraints of the table. *)
Lemma commit_insert_user_ok (db : DB) (mk_row : Z -> User.t) (name : str) :
  (forall i, User.id (mk_row i) = i) ->
  (forall i, User.username (mk_row i) = name) ->
  User_by_username db name = None ->
  commit_insert_user db mk_row
  = Ok (mk_DB (users db ++ [mk_row (fresh_id (map User.id (users db)))])
              (customers db))
  /\ (users_ok db ->
      users_ok (mk_DB (users db ++ [mk_row (fresh_id (map User.id (users db)))])
                      (customers db))).
Proof.
  intros Hid Hname Hf. unfold commit_insert_user. rewrite Hname. split.
  - unfold User_by_username in Hf.
    destruct (existsb (fun r => Str.eqb (User.username r) name) (users db))
      eqn:E; [|reflexivity].
    apply existsb_exists in E. destruct E as (u & Hu & E).
    pose proof (find_none _ _ Hf u Hu) as N. cbn in N. congruence.
  - intros [Ni Nu]. unfold users_ok, usernames. cbn [users].
    rewrite !map_app. cbn [map]. rewrite Hid, Hname. split.
    + apply NoDup_snoc; [exact Ni | apply fresh_id_fresh].
    + apply NoDup_snoc; [exact Nu | apply User_by_username_None, Hf].
Qed.

(** An update of the row of a primary key keeps the constraints when no
    other row holds the username. *)
Lemma update_keeps_users_ok (l : list User.t) (u : User.t) :
  NoDup (map User.id l) -> NoDup (map User.username l) ->
  (forall r, In r l -> User.id r <> User.id u ->
             User.username r <> User.username u) ->
  let l' := map (fun r => if User.id r =? User.id u then u else r) l in
  map User.id l' = map User.id l /\ NoDup (map User.username l').
Proof.
  intros Ni Nu Hother. cbv zeta.
  induction l as [|a l IH]; cbn [map]; [split; [reflexivity | constructor]|].
  inversion Ni as [|? ? Hai Ni']; subst.
  inversion Nu as [|? ? Hau Nu']; subst.
  destruct IH as [IHi IHu]; [exact Ni' | exact Nu' | |].
  { intros r Hr. apply Hother. right. exact Hr. }
  destruct (Z.eqb_spec (User.id a) (User.id u)) as [E|E].
  - assert (Same : map (fun r => if User.id r =? User.id u then u else r) l = l).
    { rewrite <- (map_id l) at 2. apply map_ext_in. intros r Hr.
      destruct (Z.eqb_spec (User.id r) (User.id u)) as [E'|_]; [|reflexivity].
      exfalso. apply Hai. rewrite E, <- E'. apply in_map. exact Hr. }
    rewrite Same. split; [rewrite E; reflexivity|].
    constructor; [|exact Nu'].
    intros H. apply in_map_iff in H. destruct H as (r & Er & Hr).
    apply (Hother r); [right; exact Hr | | exact Er].
    intros E'. apply Hai. rewrite E, <- E'. apply in_map. exact Hr.
  - split; [rewrite IHi; reflexivity|].
    constructor; [|exact IHu].
    intros H. apply in_map_iff in H. destruct H as (x & Ex & Hx).
    apply in_map_iff in Hx. destruct Hx as (r & <- & Hr).
    destruct (User.id r =? User.id u).
    + apply (Hother a); [left; reflexivity | exact E | symmetry; exact Ex].
    + apply Hau. rewrite <- Ex. apply in_map. exact Hr.
Qed.

Lemma commit_update_user_ok (db db' : DB) (u : User.t) :
  commit_update_user db u = Ok db' -> users_ok db -> users_ok db'.
Proof.
  unfold commit_update_user.
  destruct (existsb _ (users db)) eqn:E; [discriminate|].
  intros H [Ni Nu]. injection H as <-. unfold users_ok, usernames. cbn [users].
  destruct (update_keeps_users_ok (users db) u Ni Nu) as [Hi Hu].
  - intros r Hr Hid Hn.
    assert (X : existsb (fun r => negb (User.id r =? User.id u)
                                  && Str.eqb (User.username r) (User.username u))
                  (users db) = true).
    { apply existsb_exists. exists r. split; [exact Hr|].
      apply Z.eqb_neq in Hid. rewrite Hid, Hn, eqb_refl. reflexivity. }
    congruence.
  - rewrite Hi. split; assumption.
Qed.

Lemma commit_delete_user_ok (db db' : DB) (u : option User.t) :
  commit_delete_user db u = Ok db' -> users_ok db -> users_ok db'.
Proof.
  destruct u as [u|]; [|discriminate]. cbn.
  intros H [Ni Nu]. injection H as <-. unfold users_ok, usernames. cbn [users].
  split; apply NoDup_map_filter; assumption.
Qed.

Lemma add_user_keeps (salt : str) (s : session) (r : request) (db : DB) :
  users_ok db -> users_ok (snd (serve (add_user salt s r) db)).
Proof.
  intros W. apply serve_keeps; [exact W|]. intros resp db'.
  unfold add_user, login_required.
  destruct s as [sess|]; [|intros H; injection H as _ <-; exact W].
  destruct (negb (Str.eqb (Session.role sess) ADMIN));
    [intros H; injection H as _ <-; exact W|].
  destruct (req_method r); [intros H; injection H as _ <-; exact W|].
  destruct (form_get r "username") as [username|]; cbn [bind]; [|discriminate].
  destruct (form_get r "password") as [password|]; cbn [bind]; [|discriminate].
  destruct (form_get r "employee_id") as [employee_id|]; cbn [bind]; [|discriminate].
  destruct (form_get r "role") as [role|]; cbn [bind]; [|discriminate].
  destruct (User_by_username db username) as [v|] eqn:F;
    [intros H; injection H as _ <-; exact W|].
  destruct (commit_insert_user_ok db
              (fun id => User.mk id username
                           (generate_password_hash salt password)
                           employee_id role) username) as [E K];
    [reflexivity .. | exact F |].
  rewrite E. cbn [bind]. intros H. injection H as _ <-. apply K, W.
Qed.

Lemma edit_user_keeps (salt : str) (s : session) (r : request) (id : Z)
    (db : DB) :
  users_ok db -> users_ok (snd (serve (edit_user salt s r id) db)).
Proof.
  intros W. apply serve_keeps; [exact W|]. intros resp db'.
  unfold edit_user, login_required.
  destruct s as [sess|]; [|intros H; injection H as _ <-; exact W].
  destruct (negb (Str.eqb (Session.role sess) ADMIN));
    [intros H; injection H as _ <-; exact W|].
  destruct (req_method r); [intros H; injection H as _ <-; exact W|].
  destruct (form_get r "username") as [username|]; cbn [bind]; [|discriminate].
  destruct (User_get db id) as [u|]; cbn [deref bind]; [|discriminate].
  destruct (form_get r "employee_id") as [employee_id|]; cbn [bind]; [|discriminate].
  destruct (form_get r "role") as [role|]; cbn [bind]; [|discriminate].
  destruct (form_get r "password") as [password|]; cbn [bind]; [|discriminate].
  match goal with
  | |- bind (commit_update_user db ?u') _ = _ -> _ =>
      destruct (commit_update_user db u') as [d|] eqn:E; cbn [bind];
      [|discriminate]
  end.
  intros H. injection H as _ <-. exact (commit_update_user_ok _ _ _ E W).
Qed.

Lemma delete_user_keeps (s : session) (id : Z) (db : DB) :
  users_ok db -> users_ok (snd (serve (delete_user s id) db)).
Proof.
  intros W. apply serve_keeps; [exact W|]. intros resp db'.
  unfold delete_user, login_required.
  destruct s as [sess|]; [|intros H; injection H as _ <-; exact W].
  destruct (negb (Str.eqb (Session.role sess) ADMIN));
    [intros H; injection H as _ <-; exact W|].
  destruct (id =? Session.user_id sess);
    [intros H; injection H as _ <-; exact W|].
  destruct (commit_delete_user db (User_get db id)) as [d|] eqn:E; cbn [bind];
    [|discriminate].
  intros H. injection H as _ <-. exact (commit_delete_user_ok _ _ _ E W).
Qed.

(** What [create_admin] does, by whether a row is named ["admin"]. *)
Lemma create_admin_cases (salt : str) (db : DB) :
  match User_by_username db ADMIN with
  | Some _ => create_admin salt db = Ok (text "管理員已存在！", db)
  | None =>
      create_admin salt db
      = Ok (text "管理員帳號已建立： admin / 123456",
            mk_DB (users db ++
                   [User.mk (fresh_id (map User.id (users db))) ADMIN
                      (generate_password_hash salt (lit "123456"))
                      (lit "A000") ADMIN])
                  (customers db))
  end.
Proof.
  unfold create_admin. destruct (User_by_username db ADMIN) eqn:F;
    [reflexivity|].
  destruct (commit_insert_user_ok db
              (fun id => User.mk id ADMIN
                           (generate_password_hash salt (lit "123456"))
                           (lit "A000") ADMIN) ADMIN) as [E _];
    [reflexivity .. | exact F |].
  rewrite E. reflexivity.
Qed.

Lemma create_admin_keeps (salt : str) (db : DB) :
  users_ok db -> users_ok (snd (serve (create_admin salt) db)).
Proof.
  intros W. unfold serve. pose proof (create_admin_cases salt db) as C.
  destruct (User_by_username db ADMIN) eqn:F; rewrite C; [exact W|].
  cbn [snd].
  apply (commit_insert_user_ok db
           (fun id => User.mk id ADMIN
                        (generate_password_hash salt (lit "123456"))
                        (lit "A000") ADMIN) ADMIN);
    [reflexivity .. | exact F | exact W].
Qed.

(** C6. From a [users] table whose usernames are pairwise distinct (and
    whose primary keys are, as the table declares), the table [add_user],
    [edit_user], [delete_user] and [create_admin] leave, whatever the
    session and the form and whatever they answer, has pairwise distinct
    usernames (and primary keys). *)
Theorem username_unique_preserved (salt : str) (s : session) (r : request)
    (id : Z) (db : DB) :
  NoDup (map User.id (users db)) ->
  NoDup (usernames db) ->
  let after (h : handler) := snd (serve h db) in
  (NoDup (usernames (after (add_user salt s r)))
   /\ NoDup (map User.id (users (after (add_user salt s r)))))
  /\ (NoDup (usernames (after (edit_user salt s r id)))
      /\ NoDup (map User.id (users (after (edit_user salt s r id)))))
  /\ (NoDup (usernames (after (delete_user s id)))
      /\ NoDup (map User.id (users (after (delete_user s id)))))
  /\ (NoDup (usernames (after (create_admin salt)))
      /\ NoDup (map User.id (users (after (create_admin salt))))).
Proof.
  intros Ni Nu after.
  assert (W : users_ok db) by (split; assumption).
  unfold after.
  repeat split;
    first [ apply (add_user_keeps salt s r db W)
          | apply (edit_user_keeps salt s r id db W)
          | apply (delete_user_keeps s id db W)
          | apply (create_admin_keeps salt db W) ].
Qed.

Lemma username_unique_preserved_witness :
  let r := Sample.post (Sample.user_form (lit "alice") (lit "") (lit "E003")
                          (lit "user")) in
  NoDup (usernames (snd (serve (edit_user (lit "s") (Some Sample.root) r 3)
                           Sample.db)))
  /\ NoDup (usernames (snd (serve (create_admin (lit "s")) Sample.db))).
Proof.
  intros r.
  assert (Ni : NoDup (map User.id (users Sample.db))).
  { repeat constructor; cbn; intros H;
      repeat (destruct H as [H|H]; [discriminate H|]); exact H. }
  assert (Nu : NoDup (usernames Sample.db)).
  { repeat constructor; cbn; intros H;
      repeat (destruct H as [H|H]; [discriminate H|]); exact H. }
  destruct (username_unique_preserved (lit "s") (Some Sample.root) r 3
              Sample.db Ni Nu) as (_ & [E _] & _ & [C _]).
  split; [exact E | exact C].
Defined.

(** [edit_user] renaming a user to a name another row holds: the commit
    fails on the UNIQUE constraint and the table stays. *)
Example edit_user_duplicate :
  edit_user (lit "s") (Some Sample.root)
    (Sample.post (Sample.user_form (lit "alice") (lit "") (lit "E003")
                    (lit "user"))) 3 Sample.db
  = Raise IntegrityError.
Proof. reflexivity. Qed.

(** C7. When a row of [users] holds the username of the form, [add_user]
    leaves the database as it was, whatever the session and the method; and
    for an admin's POST with the four fields it answers with the form and
    the error that the account exists. *)
Theorem add_user_existing_username (salt : str) (s : session) (r : request)
    (db : DB) (username : str) (u : User.t) :
  form_get r "username" = Ok username ->
  In u (users db) ->
  User.username u = username ->
  snd (serve (add_user salt s r) db) = db
  /\ (forall sess password employee_id role,
        s = Some sess ->
        Session.role sess = ADMIN ->
        req_method r = POST ->
        form_get r "password" = Ok password ->
        form_get r "employee_id" = Ok employee_id ->
        form_get r "role" = Ok role ->
        add_user salt s r db
        = Ok (render_template "user_add.html" (with_error "此帳號已存在"), db)).
Proof.
  intros Eu Hu Hn.
  destruct (User_by_username_Some db username u Hu Hn) as [v F].
  split.
  - unfold serve, add_user, login_required.
    destruct s as [sess|]; [|reflexivity].
    destruct (negb (Str.eqb (Session.role sess) ADMIN)); [reflexivity|].
    destruct (req_method r); [reflexivity|].
    rewrite Eu. cbn [bind].
    destruct (form_get r "password") as [password|e]; cbn [bind];
      [|destruct e; reflexivity].
    destruct (form_get r "employee_id") as [employee_id|e]; cbn [bind];
      [|destruct e; reflexivity].
    destruct (form_get r "role") as [role|e]; cbn [bind];
      [|destruct e; reflexivity].
    rewrite F. reflexivity.
  - intros sess password employee_id role -> Ha Hm E2 E3 E4.
    unfold add_user, login_required.
    rewrite Ha, Hm. cbn [negb]. change (Str.eqb ADMIN ADMIN) with true.
    cbn [negb]. rewrite Eu, E2, E3, E4. cbn [bind]. rewrite F. reflexivity.
Qed.

Lemma add_user_existing_username_witness :
  let r := Sample.post (Sample.user_form (lit "bob") (lit "x") (lit "E009")
                          (lit "admin")) in
  snd (serve (add_user (lit "s") (Some Sample.root) r) Sample.db) = Sample.db
  /\ add_user (lit "s") (Some Sample.root) r Sample.db
     = Ok (render_template "user_add.html" (with_error "此帳號已存在"),
           Sample.db).
Proof.
  intros r.
  destruct (add_user_existing_username (lit "s") (Some Sample.root) r
              Sample.db (lit "bob")
              (User.mk 3 (lit "bob") (Hashed (lit "s3") (lit "pw-b"))
                 (lit "E002") (lit "user")))
    as [A B].
  - reflexivity.
  - right; right; left; reflexivity.
  - reflexivity.
  - split; [exact A|].
    apply (B Sample.root (lit "x") (lit "E009") (lit "admin")); reflexivity.
Defined.

(** C8. Without a row named ["admin"], [create_admin] inserts the account
    ["admin"] of role ["admin"] whose password is ["123456"]; with one, it
    reports that the admin exists and leaves the database as it was; so a
    second run reports that the admin exists and leaves the database of the
    first run. *)
Theorem create_admin_idempotent (salt salt' : str) (db : DB) :
  let db1 := snd (serve (create_admin salt) db) in
  (User_by_username db ADMIN = None ->
   exists admin,
     create_admin salt db
     = Ok (text "管理員帳號已建立： admin / 123456",
           mk_DB (users db ++ [admin]) (customers db))
     /\ User.username admin = ADMIN
     /\ User.role admin = ADMIN
     /\ User.employee_id admin = lit "A000"
     /\ User.check_password admin (lit "123456") = true)
  /\ (forall u, User_by_username db ADMIN = Some u ->
        create_admin salt db = Ok (text "管理員已存在！", db))
  /\ serve (create_admin salt') db1 = (Sent (text "管理員已存在！"), db1).
Proof.
  cbv zeta. pose proof (create_admin_cases salt db) as C. split; [|split].
  - intros F. rewrite F in C. eexists. split; [exact C|].
    repeat split; reflexivity.
  - intros u F. rewrite F in C. exact C.
  - assert (F1 : exists u,
               User_by_username (snd (serve (create_admin salt) db)) ADMIN
               = Some u).
    { unfold serve. destruct (User_by_username db ADMIN) as [u|] eqn:F;
        rewrite C; cbn [snd].
      - exists u. exact F.
      - eapply User_by_username_Some.
        + cbn [users]. apply in_or_app. right. left. reflexivity.
        + reflexivity. }
    destruct F1 as [u F1].
    pose proof (create_admin_cases salt' (snd (serve (create_admin salt) db)))
      as C1.
    rewrite F1 in C1. unfold serve at 1. rewrite C1. reflexivity.
Qed.

Lemma create_admin_idempotent_witness :
  let empty := mk_DB [] [] in
  let db1 := snd (serve (create_admin (lit "s")) empty) in
  users db1
  = [User.mk 1 ADMIN (Hashed (lit "s") (lit "123456")) (lit "A000") ADMIN]
  /\ serve (create_admin (lit "t")) db1 = (Sent (text "管理員已存在！"), db1).
Proof.
  intros empty db1.
  destruct (create_admin_idempotent (lit "s") (lit "t") empty) as (A & _ & I).
  destruct (A eq_refl) as (admin & E & _).
  split; [reflexivity | exact I].
Defined.

(** ** The follow-up dates of the store *)

Lemma Forall_snoc {A} (P : A -> Prop) (l : list A) (x : A) :
  Forall P l -> P x -> Forall P (l ++ [x]).
Proof.
  intros F Hx. apply Forall_app. split; [exact F | constructor; [exact Hx | constructor]].
Qed.

(** The view functions that write [customers] store only dates: the
    hypothesis of [list_clients_due_today] on the store holds of every store
    they lead to from the empty one. *)
Lemma follow_ups_valid_kept decimal (now : datetime) (s : session)
    (r : request) (id : Z) (db : DB) :
  valid now = true ->
  follow_ups_valid db ->
  follow_ups_valid (snd (serve (add_client decimal now s r) db))
  /\ follow_ups_valid (snd (serve (edit_client decimal s r id) db))
  /\ follow_ups_valid (snd (serve (delete_client s id) db)).
Proof.
  intros Hn W. split; [|split]; apply serve_keeps; try exact W;
    intros resp db' H.
  - apply add_client_Ok in H. destruct H as [[_ ->]|H]; [exact W|].
    destruct H as (sess & name & house & register & notes & nf & next
                   & _ & _ & _ & _ & _ & _ & _ & _ & En & ->).
    unfold follow_ups_valid. cbn [customers]. apply Forall_snoc; [exact W|].
    cbn [Client.next_follow].
    destruct (Str.eqb (strip nf) []); [|exact (strptime_valid _ _ _ En)].
    pose proof (add_days_spec now 14 Hn ltac:(lia)) as A.
    destruct (add_days now 14) as [t|]; [|discriminate En].
    injection En as <-.
    destruct (toordinal now + 14 <=? MAXORDINAL); [|discriminate A].
    destruct A as (t' & Et & _ & Hv & _). injection Et as <-. exact Hv.
  - apply edit_client_Ok in H. destruct H as [[_ ->]|H]; [exact W|].
    destruct H as (sess & c & name & house & register & notes & nf & next
                   & _ & _ & _ & Ec & _ & _ & _ & _ & _ & _ & En & ->).
    unfold follow_ups_valid in *. cbn [customers].
    apply Forall_map. rewrite Forall_forall in *. intros x Hx.
    destruct (Client.id x =? Client.id c); [|apply W, Hx].
    cbn [updated Client.next_follow].
    destruct (truthy (strip nf)); [exact (strptime_valid _ _ _ En)|].
    injection En as <-. apply W. apply (Client_get_id _ _ _ Ec).
  - revert H. unfold delete_client, login_required.
    destruct s as [sess|]; [|intros H; injection H as _ <-; exact W].
    match goal with
    | |- bind ?e _ = _ -> _ => destruct e as [[|]|]; cbn [bind]
    end; [intros H; injection H as _ <-; exact W | | discriminate].
    destruct (Client_get db id) as [c|]; cbn [commit_delete_client bind];
      [|discriminate].
    intros H. injection H as _ <-. unfold follow_ups_valid. cbn [customers].
    apply Forall_filter, W.
Qed.

(* ===================================================================== *)
(** * Further properties of the view functions *)

(** ** Logging in and out *)

(** X1. A POST to [login] with both fields opens a session exactly when a
    row has the username and its hash checks the password; the session then
    carries the id, username, employee id and role of that row. Otherwise
    the login page is rendered with the error and the session is kept. *)
Theorem login_iff (s : session) (r : request) (db : DB)
    (username password : str) :
  req_method r = POST ->
  form_get r "username" = Ok username ->
  form_get r "password" = Ok password ->
  (forall u,
      User_by_username db username = Some u ->
      User.check_password u password = true ->
      login s r db
      = Ok (redirect "/list",
            Some (Session.mk (User.id u) (User.username u)
                    (User.employee_id u) (User.role u)))
      /\ User.username u = username)
  /\ ((User_by_username db username = None
       \/ exists u, User_by_username db username = Some u
                    /\ User.check_password u password = false) ->
      login s r db
      = Ok (render_template "login.html" (with_error "帳號或密碼錯誤"), s))
  /\ (forall sess,
        login s r db = Ok (redirect "/list", Some sess) ->
        exists u, In u (users db)
                  /\ User.username u = username
                  /\ User.check_password u password = true
                  /\ sess = Session.mk (User.id u) (User.username u)
                              (User.employee_id u) (User.role u)).
Proof.
  intros Hm Eu Ep. unfold login. rewrite Hm, Eu, Ep. cbn [bind].
  split; [|split].
  - intros u F C. rewrite F, C. split; [reflexivity|].
    apply find_some in F. apply eqb_eq. apply F.
  - intros [F|(u & F & C)]; rewrite F; [|rewrite C]; reflexivity.
  - intros sess. destruct (User_by_username db username) as [u|] eqn:F;
      [|discriminate].
    destruct (User.check_password u password) eqn:C; [|discriminate].
    intros H. injection H as <-. exists u.
    apply find_some in F. destruct F as [Hin E]. apply eqb_eq in E. auto.
Qed.

Lemma login_iff_witness :
  login None (Sample.post [("username"%string, lit "alice");
                           ("password"%string, lit "pw-a")]) Sample.db
  = Ok (redirect "/list", Some Sample.alice)
  /\ login None (Sample.post [("username"%string, lit "alice");
                              ("password"%string, lit "pw-b")]) Sample.db
     = Ok (render_template "login.html" (with_error "帳號或密碼錯誤"), None).
Proof.
  split.
  - destruct (login_iff None
                (Sample.post [("username"%string, lit "alice");
                              ("password"%string, lit "pw-a")])
                Sample.db (lit "alice") (lit "pw-a")
                eq_refl eq_refl eq_refl) as (A & _).
    apply (A (User.mk 2 (lit "alice") (Hashed (lit "s2") (lit "pw-a"))
                (lit "E001") (lit "user"))); reflexivity.
  - destruct (login_iff None
                (Sample.post [("username"%string, lit "alice");
                              ("password"%string, lit "pw-b")])
                Sample.db (lit "alice") (lit "pw-b")
                eq_refl eq_refl eq_refl) as (_ & B & _).
    apply B. right. eexists. split; reflexivity.
Defined.

(** X2. After [logout] the session is empty, and with an empty session
    every view function under [@login_required] answers with the redirect
    to the login page and leaves the database as it was, whatever the
    request. *)
Theorem logged_out_redirects decimal (like : str -> str -> bool)
    (wb_save : list (list str) -> result unit)
    (now : datetime) (salt : str) (s : session) (r : request) (id : Z)
    (db : DB) :
  let s' := snd (logout s) in
  s' = None
  /\ home s' = redirect "/login"
  /\ add_client decimal now s' r db = Ok (redirect "/login", db)
  /\ edit_client decimal s' r id db = Ok (redirect "/login", db)
  /\ delete_client s' id db = Ok (redirect "/login", db)
  /\ list_clients like now s' r db = Ok (redirect "/login", db)
  /\ export_csv s' db = inl (redirect "/login")
  /\ export_excel wb_save s' db = Ok (inl (redirect "/login"))
  /\ user_list s' db = Ok (redirect "/login", db)
  /\ add_user salt s' r db = Ok (redirect "/login", db)
  /\ edit_user salt s' r id db = Ok (redirect "/login", db)
  /\ delete_user s' id db = Ok (redirect "/login", db).
Proof. cbv zeta. repeat split. Qed.

(** ** Who may touch a client *)

(** X3. For a session that is not an admin's and a row another user owns,
    [edit_client] (whatever the method and the form) and [delete_client]
    answer with their denial and leave the database as it was. *)
Theorem other_owner_denied decimal (sess : Session.t) (r : request) (id : Z)
    (db : DB) (c : Client.t) :
  Session.role sess <> ADMIN ->
  Client_get db id = Some c ->
  Client.user_id c <> Session.user_id sess ->
  edit_client decimal (Some sess) r id db
  = Ok (text "⛔ 你沒有權限編輯這筆資料", db)
  /\ delete_client (Some sess) id db
     = Ok (text "⛔ 你沒有權限刪除這筆資料", db).
Proof.
  intros Hr Ec Ho. apply eqb_neq in Hr. apply Z.eqb_neq in Ho.
  unfold edit_client, delete_client, login_required.
  rewrite Hr, Ec. cbn [negb deref bind]. rewrite Ho. split; reflexivity.
Qed.

Lemma other_owner_denied_witness :
  edit_client ascii_decimal (Some Sample.alice)
    (Sample.post (Sample.client_form (lit "x") (lit "y") (lit "z") (lit "")
                    (lit ""))) 2 Sample.db
  = Ok (text "⛔ 你沒有權限編輯這筆資料", Sample.db)
  /\ delete_client (Some Sample.alice) 2 Sample.db
     = Ok (text "⛔ 你沒有權限刪除這筆資料", Sample.db).
Proof.
  apply (other_owner_denied ascii_decimal Sample.alice _ 2 Sample.db
           (Client.mk 2 (lit "Chen") (lit "2 Y Road") (lit "5 Z Street")
              (mk_datetime 2026 10 1 14 0 0 0)
              (mk_datetime 2026 11 20 0 0 0 0) (lit "call back") 3)).
  - intros H. discriminate H.
  - reflexivity.
  - intros H. discriminate H.
Defined.

Lemma find_filter_other (id id' : Z) (l : list Client.t) :
  id' <> id ->
  find (fun c => Client.id c =? id')
       (filter (fun r => negb (Client.id r =? id)) l)
  = find (fun c => Client.id c =? id') l.
Proof.
  intros Hne. induction l as [|a l IH]; simpl; [reflexivity|].
  destruct (Z.eqb_spec (Client.id a) id) as [E|E]; simpl.
  - destruct (Z.eqb_spec (Client.id a) id') as [E'|_]; [congruence | exact IH].
  - rewrite IH. reflexivity.
Qed.

Lemma find_filter_same (id : Z) (l : list Client.t) :
  find (fun c => Client.id c =? id)
       (filter (fun r => negb (Client.id r =? id)) l) = None.
Proof.
  induction l as [|a l IH]; simpl; [reflexivity|].
  destruct (Client.id a =? id) eqn:E; simpl; [exact IH|].
  rewrite E. exact IH.
Qed.

(** X4. [delete_client] by the owner of the row or by an admin redirects to
    the list; afterwards no row has the id, every other id finds the row it
    found before, and [users] is as it was. *)
Theorem delete_client_permitted (sess : Session.t) (id : Z) (db : DB)
    (c : Client.t) :
  Client_get db id = Some c ->
  Session.role sess = ADMIN \/ Client.user_id c = Session.user_id sess ->
  exists db',
    delete_client (Some sess) id db = Ok (redirect "/list", db')
    /\ Client_get db' id = None
    /\ (forall id', id' <> id -> Client_get db' id' = Client_get db id')
    /\ users db' = users db.
Proof.
  intros Ec Hp. unfold delete_client, login_required. rewrite Ec.
  assert (Hd : (if negb (Str.eqb (Session.role sess) ADMIN)
                then c0 <- deref (Some c) ;;
                     Ok (negb (Client.user_id c0 =? Session.user_id sess))
                else Ok false) = Ok false).
  { destruct (is_admin_dec (Session.role sess)) as [[_ ->]|[Hn ->]];
      cbn [negb deref bind]; [reflexivity|].
    destruct Hp as [Hp|Hp]; [contradiction|].
    apply Z.eqb_eq in Hp. rewrite Hp. reflexivity. }
  rewrite Hd. cbn [bind commit_delete_client]. eexists.
  split; [reflexivity|].
  destruct (Client_get_id _ _ _ Ec) as [_ ->].
  unfold Client_get. cbn [customers users].
  split; [apply find_filter_same|]. split; [|reflexivity].
  intros id' Hne. apply find_filter_other, Hne.
Qed.

Lemma delete_client_permitted_witness :
  exists db',
    delete_client (Some Sample.bob) 2 Sample.db = Ok (redirect "/list", db')
    /\ Client_get db' 2 = None
    /\ Client_get db' 3 = Client_get Sample.db 3.
Proof.
  destruct (delete_client_permitted Sample.bob 2 Sample.db
              (Client.mk 2 (lit "Chen") (lit "2 Y Road") (lit "5 Z Street")
                 (mk_datetime 2026 10 1 14 0 0 0)
                 (mk_datetime 2026 11 20 0 0 0 0) (lit "call back") 3)
              eq_refl (or_intror eq_refl)) as (db' & E & N & O & _).
  exists db'. split; [exact E|]. split; [exact N|].
  apply O. discriminate.
Defined.

(** ** Employee accounts *)

(** X5. For a logged-in session that is not an admin's, the four
    employee-management views answer with their denial and leave the
    database as it was, whatever the request. *)
Theorem employee_views_admin_only (salt : str) (sess : Session.t)
    (r : request) (id : Z) (db : DB) :
  Session.role sess <> ADMIN ->
  user_list (Some sess) db = Ok (text "⛔ 只有管理員可以查看員工列表", db)
  /\ add_user salt (Some sess) r db = Ok (text "⛔ 只有管理員可以新增員工", db)
  /\ edit_user salt (Some sess) r id db
     = Ok (text "⛔ 只有管理員可以編輯員工", db)
  /\ delete_user (Some sess) id db = Ok (text "⛔ 只有管理員可以刪除員工", db).
Proof.
  intros Hr. apply eqb_neq in Hr.
  unfold user_list, add_user, edit_user, delete_user, login_required.
  rewrite Hr. repeat split.
Qed.

Lemma employee_views_admin_only_witness :
  add_user (lit "s") (Some Sample.alice)
    (Sample.post (Sample.user_form (lit "eve") (lit "pw") (lit "E9")
                    (lit "admin"))) Sample.db
  = Ok (text "⛔ 只有管理員可以新增員工", Sample.db).
Proof.
  apply (employee_views_admin_only (lit "s") Sample.alice _ 0 Sample.db).
  intros H. discriminate H.
Defined.

(** X6. [delete_user] on the id of the session itself never deletes:
    whatever the role, the database is as it was, and an admin is told that
    one cannot delete oneself. *)
Theorem delete_user_self (sess : Session.t) (db : DB) :
  snd (serve (delete_user (Some sess) (Session.user_id sess)) db) = db
  /\ (Session.role sess = ADMIN ->
      delete_user (Some sess) (Session.user_id sess) db
      = Ok (text "⛔ 無法刪除自己", db)).
Proof.
  unfold serve, delete_user, login_required. rewrite Z.eqb_refl.
  split; [destruct (negb (Str.eqb (Session.role sess) ADMIN)); reflexivity|].
  intros ->. reflexivity.
Qed.

Lemma delete_user_self_witness :
  delete_user (Some Sample.root) 1 Sample.db
  = Ok (text "⛔ 無法刪除自己", Sample.db).
Proof.
  apply (delete_user_self Sample.root Sample.db). reflexivity.
Defined.

Lemma User_get_id (db : DB) (id : Z) (u : User.t) :
  User_get db id = Some u -> In u (users db) /\ User.id u = id.
Proof.
  unfold User_get. intros H. apply find_some in H.
  rewrite Z.eqb_eq in H. exact H.
Qed.

Lemma find_user_filter_other (id id' : Z) (l : list User.t) :
  id' <> id ->
  find (fun u => User.id u =? id')
       (filter (fun r => negb (User.id r =? id)) l)
  = find (fun u => User.id u =? id') l.
Proof.
  intros Hne. induction l as [|a l IH]; simpl; [reflexivity|].
  destruct (Z.eqb_spec (User.id a) id) as [E|E]; simpl.
  - destruct (Z.eqb_spec (User.id a) id') as [E'|_]; [congruence | exact IH].
  - rewrite IH. reflexivity.
Qed.

Lemma find_user_filter_same (id : Z) (l : list User.t) :
  find (fun u => User.id u =? id)
       (filter (fun r => negb (User.id r =? id)) l) = None.
Proof.
  induction l as [|a l IH]; simpl; [reflexivity|].
  destruct (User.id a =? id) eqn:E; simpl; [exact IH|].
  rewrite E. exact IH.
Qed.

(** X7. [delete_user] by an admin on the id of another, existing user
    redirects to the employee list; afterwards no row of [users] has the id,
    every other id finds the user it found before, and [customers] is as it
    was: the clients of the deleted user stay, with their [user_id]. *)
Theorem delete_user_other (sess : Session.t) (id : Z) (db : DB) (u : User.t) :
  Session.role sess = ADMIN ->
  id <> Session.user_id sess ->
  User_get db id = Some u ->
  exists db',
    delete_user (Some sess) id db = Ok (redirect "/users", db')
    /\ User_get db' id = None
    /\ (forall id', id' <> id -> User_get db' id' = User_get db id')
    /\ customers db' = customers db
    /\ Client_by_user_id db' id = Client_by_user_id db id.
Proof.
  intros Ha Hne Eu. unfold delete_user, login_required.
  rewrite Ha. change (Str.eqb ADMIN ADMIN) with true. cbn [negb].
  apply Z.eqb_neq in Hne. rewrite Hne, Eu. cbn [commit_delete_user bind].
  eexists. split; [reflexivity|].
  destruct (User_get_id _ _ _ Eu) as [_ ->].
  unfold User_get, Client_by_user_id. cbn [users customers].
  split; [apply find_user_filter_same|].
  split; [intros id' H; apply find_user_filter_other, H|].
  split; reflexivity.
Qed.

Lemma delete_user_other_witness :
  exists db',
    delete_user (Some Sample.root) 3 Sample.db = Ok (redirect "/users", db')
    /\ User_get db' 3 = None
    /\ List.length (Client_by_user_id db' 3) = 2%nat.
Proof.
  destruct (delete_user_other Sample.root 3 Sample.db
              (User.mk 3 (lit "bob") (Hashed (lit "s3") (lit "pw-b"))
                 (lit "E002") (lit "user")))
    as (db' & E & N & _ & _ & C); [reflexivity | discriminate | reflexivity |].
  exists db'. split; [exact E|]. split; [exact N|]. rewrite C. reflexivity.
Defined.

(** X8. For an admin and an id, in the range the engine binds, that no row
    of [users] has, [edit_user] on POST with the username field and
    [delete_user] (on an id that is not the admin's own) return no response:
    they raise [AttributeError] and [UnmappedInstanceError], the request is
    answered with status 500 and the database is as it was. On GET,
    [edit_user] hands the form template no user. *)
Theorem missing_user_raises (salt : str) (sess : Session.t) (r : request)
    (id : Z) (db : DB) (username : str) :
  key_in_range id ->
  Session.role sess = ADMIN ->
  User_get db id = None ->
  (req_method r = POST -> form_get r "username" = Ok username ->
   edit_user salt (Some sess) r id db = Raise AttributeError
   /\ serve (edit_user salt (Some sess) r id) db = (Status 500, db))
  /\ (req_method r = GET ->
      edit_user salt (Some sess) r id db
      = Ok (render_template "user_edit.html" (with_user None), db))
  /\ (id <> Session.user_id sess ->
      delete_user (Some sess) id db = Raise UnmappedInstanceError
      /\ serve (delete_user (Some sess) id) db = (Status 500, db)).
Proof.
  intros _ Ha Eu.
  unfold serve, edit_user, delete_user, login_required.
  rewrite Ha, Eu. change (Str.eqb ADMIN ADMIN) with true. cbn [negb].
  split; [|split].
  - intros -> ->. split; reflexivity.
  - intros ->. reflexivity.
  - intros Hne. apply Z.eqb_neq in Hne. rewrite Hne. split; reflexivity.
Qed.

Lemma missing_user_raises_witness :
  serve (delete_user (Some Sample.root) 42) Sample.db = (Status 500, Sample.db)
  /\ serve (edit_user (lit "s") (Some Sample.root)
              (Sample.post (Sample.user_form (lit "eve") (lit "") (lit "E9")
                              (lit "user"))) 42) Sample.db
     = (Status 500, Sample.db).
Proof.
  assert (K : key_in_range 42) by (unfold key_in_range; lia).
  destruct (missing_user_raises (lit "s") Sample.root
              (Sample.post (Sample.user_form (lit "eve") (lit "") (lit "E9")
                              (lit "user"))) 42 Sample.db (lit "eve")
              K eq_refl eq_refl) as (E & _ & D).
  split.
  - apply D. discriminate.
  - apply E; reflexivity.
Defined.

Lemma find_snoc {A} (f : A -> bool) (l : list A) (x : A) :
  find f l = None -> f x = true -> find f (l ++ [x]) = Some x.
Proof.
  intros N Hx. induction l as [|a l IH]; simpl in *; [rewrite Hx; reflexivity|].
  destruct (f a); [discriminate N | apply IH, N].
Qed.

(** X9. [add_user] by an admin with a username no row holds inserts the
    user under a primary key no row had and leaves [customers]; after it,
    [login] with that username and password opens a session carrying the
    new id and the employee id and role of the form. *)
Theorem add_user_then_login (salt : str) (sess : Session.t) (r : request)
    (db : DB) (username password employee_id role : str)
    (s0 : session) (r' : request) :
  Session.role sess = ADMIN ->
  req_method r = POST ->
  form_get r "username" = Ok username ->
  form_get r "password" = Ok password ->
  form_get r "employee_id" = Ok employee_id ->
  form_get r "role" = Ok role ->
  User_by_username db username = None ->
  req_method r' = POST ->
  form_get r' "username" = Ok username ->
  form_get r' "password" = Ok password ->
  let id := fresh_id (map User.id (users db)) in
  exists db',
    add_user salt (Some sess) r db = Ok (redirect "/users", db')
    /\ users db'
       = users db ++ [User.mk id username (generate_password_hash salt password)
                        employee_id role]
    /\ ~ In id (map User.id (users db))
    /\ customers db' = customers db
    /\ login s0 r' db'
       = Ok (redirect "/list", Some (Session.mk id username employee_id role)).
Proof.
  intros Ha Hm E1 E2 E3 E4 F Hm' E1' E2' id.
  destruct (commit_insert_user_ok db
              (fun id => User.mk id username
                           (generate_password_hash salt password)
                           employee_id role) username) as [E _];
    [reflexivity .. | exact F |].
  unfold add_user, login_required. rewrite Ha, Hm.
  change (Str.eqb ADMIN ADMIN) with true. cbn [negb].
  rewrite E1, E2, E3, E4. cbn [bind]. rewrite F, E. cbn [bind].
  eexists. split; [reflexivity|]. cbn [users customers].
  split; [reflexivity|]. split; [apply fresh_id_fresh|].
  split; [reflexivity|].
  unfold login. rewrite Hm', E1', E2'. cbn [bind].
  unfold User_by_username in *. cbn [users].
  rewrite (find_snoc _ _ _ F) by (cbn; apply eqb_refl).
  unfold User.check_password. cbn. rewrite eqb_refl. reflexivity.
Qed.

Lemma add_user_then_login_witness :
  let r := Sample.post (Sample.user_form (lit "eve") (lit " pw ") (lit "E9")
                          (lit "user")) in
  exists db',
    add_user (lit "s") (Some Sample.root) r Sample.db
    = Ok (redirect "/users", db')
    /\ login None r db'
       = Ok (redirect "/list",
             Some (Session.mk 4 (lit "eve") (lit "E9") (lit "user"))).
Proof.
  intros r.
  destruct (add_user_then_login (lit "s") Sample.root r Sample.db
              (lit "eve") (lit " pw ") (lit "E9") (lit "user") None r
              eq_refl eq_refl eq_refl eq_refl eq_refl eq_refl eq_refl
              eq_refl eq_refl eq_refl)
    as (db' & A & _ & _ & _ & L).
  exists db'. split; [exact A | exact L].
Defined.

(** X10. On a store without a user named ["admin"], after [create_admin] a
    [login] as ["admin"] with the password ["123456"] opens a session of
    role ["admin"] and employee id ["A000"]; with any other password it
    renders the login page with the error. *)
Theorem create_admin_then_login (salt : str) (db : DB) (s0 : session)
    (r : request) (password : str) :
  User_by_username db ADMIN = None ->
  req_method r = POST ->
  form_get r "username" = Ok ADMIN ->
  form_get r "password" = Ok password ->
  let db' := snd (serve (create_admin salt) db) in
  let id := fresh_id (map User.id (users db)) in
  login s0 r db'
  = if Str.eqb (lit "123456") password
    then Ok (redirect "/list",
             Some (Session.mk id ADMIN (lit "A000") ADMIN))
    else Ok (render_template "login.html" (with_error "帳號或密碼錯誤"), s0).
Proof.
  intros F Hm Eu Ep. cbv zeta.
  pose proof (create_admin_cases salt db) as C. rewrite F in C.
  unfold serve. rewrite C. cbn [snd].
  unfold login. rewrite Hm, Eu, Ep. cbn [bind].
  unfold User_by_username in *. cbn [users].
  rewrite (find_snoc _ _ _ F)
    by (cbv beta; cbn [User.username]; apply eqb_refl).
  unfold User.check_password. cbn [User.password_hash generate_password_hash
                                    check_password_hash].
  destruct (Str.eqb (lit "123456") password); reflexivity.
Qed.

Lemma create_admin_then_login_witness :
  login None (Sample.post [("username"%string, ADMIN);
                           ("password"%string, lit "123456")])
    (snd (serve (create_admin (lit "s")) (mk_DB [] [])))
  = Ok (redirect "/list", Some (Session.mk 1 ADMIN (lit "A000") ADMIN)).
Proof.
  apply (create_admin_then_login (lit "s") (mk_DB [] []) None
           (Sample.post [("username"%string, ADMIN);
                         ("password"%string, lit "123456")])
           (lit "123456")); reflexivity.
Defined.

Lemma find_user_replace (u' : User.t) (id : Z) (l : list User.t) :
  find (fun u => User.id u =? id)
       (map (fun r => if User.id r =? User.id u' then u' else r) l)
  = option_map (fun r => if User.id r =? User.id u' then u' else r)
               (find (fun u => User.id u =? id) l).
Proof.
  induction l as [|a l IH]; simpl; [reflexivity|].
  destruct (User.id a =? User.id u') eqn:E.
  - replace (User.id u' =? id) with (User.id a =? id)
      by (apply Z.eqb_eq in E; rewrite E; reflexivity).
    destruct (User.id a =? id); [simpl; rewrite E; reflexivity | exact IH].
  - destruct (User.id a =? id); [simpl; rewrite E; reflexivity | exact IH].
Qed.

(** The first row named as [u'] after the update to [u'], when no other row
    holds its username. *)
Lemma find_username_replace (u' : User.t) (l : list User.t) :
  (forall r, In r l -> User.id r <> User.id u' ->
             User.username r <> User.username u') ->
  (exists r, In r l /\ User.id r = User.id u') ->
  find (fun u => Str.eqb (User.username u) (User.username u'))
       (map (fun r => if User.id r =? User.id u' then u' else r) l)
  = Some u'.
Proof.
  induction l as [|a l IH]; intros Ho (r & Hr & Er); [destruct Hr|].
  simpl. destruct (Z.eqb_spec (User.id a) (User.id u')) as [E|E].
  - rewrite eqb_refl. reflexivity.
  - assert (N : Str.eqb (User.username a) (User.username u') = false).
    { apply eqb_neq. apply Ho; [left; reflexivity | exact E]. }
    rewrite N. apply IH.
    + intros x Hx. apply Ho. right. exact Hx.
    + destruct Hr as [->|Hr]; [contradiction|]. exists r. auto.
Qed.

(** X11. [edit_user] by an admin on an existing user, when no other row
    holds the username of the form, redirects to the employee list and
    writes the username, employee id and role of the form. A password field
    that is empty after [strip] leaves the hash as it was; otherwise the
    hash accepts exactly the stripped password. [customers] is as it was,
    and [login] under the new username finds the updated row. *)
Theorem edit_user_updates (salt : str) (sess : Session.t) (r : request)
    (id : Z) (db : DB) (u : User.t)
    (username employee_id role password : str) :
  Session.role sess = ADMIN ->
  req_method r = POST ->
  User_get db id = Some u ->
  form_get r "username" = Ok username ->
  form_get r "employee_id" = Ok employee_id ->
  form_get r "role" = Ok role ->
  form_get r "password" = Ok password ->
  (forall x, In x (users db) -> User.id x <> id -> User.username x <> username) ->
  exists db' u',
    edit_user salt (Some sess) r id db = Ok (redirect "/users", db')
    /\ User_get db' id = Some u'
    /\ User_by_username db' username = Some u'
    /\ User.id u' = id
    /\ User.username u' = username
    /\ User.employee_id u' = employee_id
    /\ User.role u' = role
    /\ (strip password = [] -> User.password_hash u' = User.password_hash u)
    /\ (strip password <> [] ->
        forall p, User.check_password u' p = Str.eqb (strip password) p)
    /\ customers db' = customers db.
Proof.
  intros Ha Hm Eu E1 E2 E3 E4 Hother.
  destruct (User_get_id _ _ _ Eu) as [Hin Hid].
  set (u' := let v := User.mk (User.id u) username (User.password_hash u)
                        employee_id role in
             if truthy (strip password)
             then User.set_password salt v (strip password) else v).
  assert (Hid' : User.id u' = id)
    by (unfold u'; destruct (truthy (strip password)); exact Hid).
  assert (Hn' : User.username u' = username)
    by (unfold u'; destruct (truthy (strip password)); reflexivity).
  assert (Hc : commit_update_user db u'
               = Ok (mk_DB (map (fun x => if User.id x =? User.id u'
                                          then u' else x) (users db))
                           (customers db))).
  { unfold commit_update_user.
    destruct (existsb _ (users db)) eqn:X; [|reflexivity].
    apply existsb_exists in X. destruct X as (x & Hx & X).
    apply andb_true_iff in X. destruct X as [X1 X2].
    apply negb_true_iff, Z.eqb_neq in X1. apply eqb_eq in X2.
    rewrite Hid' in X1. rewrite Hn' in X2.
    destruct (Hother x Hx X1 X2). }
  unfold edit_user, login_required. rewrite Ha, Hm, Eu.
  change (Str.eqb ADMIN ADMIN) with true. cbn [negb].
  rewrite E1. cbn [deref bind]. rewrite E2, E3, E4. cbn [bind].
  fold u'. rewrite Hc. cbn [bind].
  exists (mk_DB (map (fun x => if User.id x =? User.id u' then u' else x)
                   (users db)) (customers db)), u'.
  split; [reflexivity|].
  split.
  { unfold User_get in *. cbn [users]. rewrite (find_user_replace u' id), Eu.
    cbn [option_map]. rewrite Hid, Hid', Z.eqb_refl. reflexivity. }
  split.
  { unfold User_by_username. cbn [users]. rewrite <- Hn'.
    apply find_username_replace.
    - intros x Hx Hne. rewrite Hid' in Hne. rewrite Hn'. apply Hother; assumption.
    - exists u. rewrite Hid'. auto. }
  split; [exact Hid'|]. split; [exact Hn'|].
  unfold u'. rewrite truthy_eqb_nil.
  destruct (Str.eqb (strip password) []) eqn:Eb; cbn [negb].
  - apply eqb_eq in Eb. repeat split; try reflexivity.
    intros H. contradiction.
  - apply eqb_neq in Eb. repeat split; try reflexivity.
    intros H. contradiction.
Qed.

Lemma edit_user_updates_witness :
  let r := Sample.post (Sample.user_form (lit "robert") (lit " new ")
                          (lit "E002") (lit "admin")) in
  exists db' u',
    edit_user (lit "s") (Some Sample.root) r 3 Sample.db
    = Ok (redirect "/users", db')
    /\ User_by_username db' (lit "robert") = Some u'
    /\ User.check_password u' (lit "new") = true
    /\ User.check_password u' (lit " new ") = false.
Proof.
  intros r.
  destruct (edit_user_updates (lit "s") Sample.root r 3 Sample.db
              (User.mk 3 (lit "bob") (Hashed (lit "s3") (lit "pw-b"))
                 (lit "E002") (lit "user"))
              (lit "robert") (lit "E002") (lit "admin") (lit " new ")
              eq_refl eq_refl eq_refl eq_refl eq_refl eq_refl eq_refl)
    as (db' & u' & E & _ & F & _ & _ & _ & _ & _ & P & _).
  - intros x Hx _ H.
    repeat (destruct Hx as [<-|Hx]; [discriminate H|]). exact Hx.
  - exists db', u'. split; [exact E|]. split; [exact F|].
    rewrite !P by discriminate. split; reflexivity.
Defined.

(** ** The [customers] table *)

Lemma find_app_Some {A} (f : A -> bool) (l l' : list A) (x : A) :
  find f l = Some x -> find f (l ++ l') = Some x.
Proof.
  induction l as [|a l IH]; simpl; [discriminate|].
  destruct (f a); [auto | exact IH].
Qed.

(** X12. When [add_client] redirects to the list, it has appended one row
    to [customers] and left [users]: the row has a primary key no row had,
    the session's user as owner and [now] as first contact; every id finds
    the row it found before; the creator's query and an admin's gain the row
    at the end, and the query of any other employee is as it was. *)
Theorem add_client_inserts decimal (now : datetime) (sess : Session.t)
    (r : request) (db db' : DB) :
  add_client decimal now (Some sess) r db = Ok (redirect "/list", db') ->
  exists c,
    customers db' = customers db ++ [c]
    /\ users db' = users db
    /\ ~ In (Client.id c) (map Client.id (customers db))
    /\ Client.user_id c = Session.user_id sess
    /\ Client.first_contact c = now
    /\ (forall id x, Client_get db id = Some x -> Client_get db' id = Some x)
    /\ Client_get db' (Client.id c) = Some c
    /\ scoped_query (Session.role sess) (Session.user_id sess) db'
       = scoped_query (Session.role sess) (Session.user_id sess) db ++ [c]
    /\ (forall uid, scoped_query ADMIN uid db'
                    = scoped_query ADMIN uid db ++ [c])
    /\ (forall role uid, role <> ADMIN -> uid <> Session.user_id sess ->
          scoped_query role uid db' = scoped_query role uid db).
Proof.
  intros H. apply add_client_Ok in H.
  destruct H as [[H _]|H]; [contradiction H; reflexivity|].
  destruct H as (sess' & name & house & register & notes & nf & next
                 & Es & _ & _ & _ & _ & _ & _ & _ & _ & ->).
  injection Es as <-. eexists. cbn [customers users].
  split; [reflexivity|]. split; [reflexivity|].
  cbn [Client.id Client.user_id Client.first_contact].
  split; [apply fresh_id_fresh|]. split; [reflexivity|]. split; [reflexivity|].
  split; [intros id x Hx; unfold Client_get in *; cbn [customers];
          apply find_app_Some, Hx|].
  split.
  { unfold Client_get. cbn [customers]. apply find_snoc.
    - destruct (find _ (customers db)) as [x|] eqn:F; [|reflexivity].
      apply find_some in F. destruct F as [Hin E]. apply Z.eqb_eq in E.
      exfalso. apply (fresh_id_fresh (map Client.id (customers db))).
      rewrite <- E. apply in_map, Hin.
    - cbn. apply Z.eqb_refl. }
  unfold scoped_query, Client_by_user_id. cbn [customers].
  split; [|split].
  - destruct (Str.eqb (Session.role sess) ADMIN); [reflexivity|].
    rewrite filter_app. cbn. rewrite Z.eqb_refl. reflexivity.
  - intros uid. reflexivity.
  - intros role uid Hr Hu. apply eqb_neq in Hr. rewrite Hr.
    rewrite filter_app. cbn.
    assert (E : (Session.user_id sess =? uid) = false)
      by (apply Z.eqb_neq; congruence).
    rewrite E. apply app_nil_r.
Qed.

Lemma add_client_inserts_witness :
  let r := Sample.post (Sample.client_form (lit "Wu") (lit "3 K Road")
                          (lit "8 L Road") (lit "") (lit "2026/12/01")) in
  exists db' c,
    add_client ascii_decimal Sample.now (Some Sample.alice) r Sample.db
    = Ok (redirect "/list", db')
    /\ customers db' = customers Sample.db ++ [c]
    /\ Client.user_id c = 2
    /\ scoped_query (lit "user") 3 db' = scoped_query (lit "user") 3 Sample.db.
Proof.
  intros r.
  pose (db' := match add_client ascii_decimal Sample.now (Some Sample.alice)
                       r Sample.db with
               | Ok (_, d) => d
               | Raise _ => Sample.db
               end).
  destruct (add_client_inserts ascii_decimal Sample.now Sample.alice r
              Sample.db db' eq_refl)
    as (c & Hc & _ & _ & Ho & _ & _ & _ & _ & _ & Hq).
  exists db', c. split; [reflexivity|]. split; [exact Hc|].
  split; [exact Ho|]. apply Hq; discriminate.
Defined.

(** [edit_client] keeps the primary keys of [customers], in order. *)
Lemma edit_client_keeps_ids decimal (s : session) (r : request) (id : Z)
    (db : DB) :
  map Client.id (customers (snd (serve (edit_client decimal s r id) db)))
  = map Client.id (customers db).
Proof.
  destruct (edit_client_store decimal s r id db) as [->|H]; [reflexivity|].
  destruct H as (c & name & house & register & next & notes & Ec & ->).
  cbn [customers]. rewrite map_map. apply map_ext. intros x.
  destruct (Z.eqb_spec (Client.id x) (Client.id c)) as [E|_];
    [symmetry; exact E | reflexivity].
Qed.

(** X13. Whatever [edit_client] answers, it touches no row but the one of
    its [id]: every other id finds the row it found before, the table has
    as many rows, in the same order of primary keys, and [users] is as it
    was. *)
Theorem edit_client_other_rows decimal (s : session) (r : request) (id : Z)
    (db : DB) :
  let db' := snd (serve (edit_client decimal s r id) db) in
  (forall id', id' <> id -> Client_get db' id' = Client_get db id')
  /\ map Client.id (customers db') = map Client.id (customers db)
  /\ users db' = users db.
Proof.
  cbv zeta. split; [|split; [apply edit_client_keeps_ids|]];
    (destruct (edit_client_store decimal s r id db) as [->|H];
     [reflexivity|]);
    destruct H as (c & name & house & register & next & notes & Ec & ->);
    [|reflexivity].
  destruct (Client_get_id _ _ _ Ec) as [_ Ei].
  - intros id' Hne. unfold Client_get. cbn [customers].
    rewrite (find_replace (updated c name house register next notes) id').
    destruct (find (fun c0 => Client.id c0 =? id') (customers db))
      as [x|] eqn:F; [|reflexivity].
    cbn [option_map updated Client.id].
    apply find_some in F. destruct F as [_ F]. apply Z.eqb_eq in F.
    assert (E : (Client.id x =? Client.id c) = false)
      by (apply Z.eqb_neq; congruence).
    rewrite E. reflexivity.
Qed.

Lemma edit_client_other_rows_witness :
  let r := Sample.post (Sample.client_form (lit "Wang") (lit "9 Q Road")
                          (lit "1 X Road") (lit "moved") (lit "")) in
  Client_get (snd (serve (edit_client ascii_decimal (Some Sample.alice) r 1)
                     Sample.db)) 3
  = Client_get Sample.db 3.
Proof.
  intros r.
  destruct (edit_client_other_rows ascii_decimal (Some Sample.alice) r 1
              Sample.db) as (O & _).
  apply O. discriminate.
Defined.

(** X14. The primary keys of [customers] stay pairwise distinct through
    [add_client], [edit_client] and [delete_client], whatever they answer. *)
Theorem client_ids_unique_kept decimal (now : datetime) (s : session)
    (r : request) (id : Z) (db : DB) :
  NoDup (map Client.id (customers db)) ->
  NoDup (map Client.id (customers (snd (serve (add_client decimal now s r) db))))
  /\ NoDup (map Client.id
              (customers (snd (serve (edit_client decimal s r id) db))))
  /\ NoDup (map Client.id (customers (snd (serve (delete_client s id) db)))).
Proof.
  intros N. split; [|split].
  - apply (serve_keeps (fun d => NoDup (map Client.id (customers d))));
      [exact N|]. intros resp db' H.
    apply add_client_Ok in H. destruct H as [[_ ->]|H]; [exact N|].
    destruct H as (sess & name & house & register & notes & nf & next
                   & _ & _ & _ & _ & _ & _ & _ & _ & _ & ->).
    cbn [customers]. rewrite map_app. cbn [map Client.id].
    apply NoDup_snoc; [exact N | apply fresh_id_fresh].
  - rewrite edit_client_keeps_ids. exact N.
  - apply (serve_keeps (fun d => NoDup (map Client.id (customers d))));
      [exact N|]. intros resp db'.
    unfold delete_client, login_required.
    destruct s as [sess|]; [|intros H; injection H as _ <-; exact N].
    match goal with
    | |- bind ?e _ = _ -> _ => destruct e as [[|]|]; cbn [bind]
    end; [intros H; injection H as _ <-; exact N | | discriminate].
    destruct (Client_get db id) as [c|]; cbn [commit_delete_client bind];
      [|discriminate].
    intros H. injection H as _ <-. cbn [customers].
    apply NoDup_map_filter, N.
Qed.

Lemma client_ids_unique_kept_witness :
  let r := Sample.post (Sample.client_form (lit "Wu") (lit "3 K Road")
                          (lit "8 L Road") (lit "") (lit "")) in
  NoDup (map Client.id
           (customers (snd (serve (add_client ascii_decimal Sample.now
                                     (Some Sample.alice) r) Sample.db)))).
Proof.
  intros r.
  apply (client_ids_unique_kept ascii_decimal Sample.now (Some Sample.alice)
           r 0 Sample.db).
  repeat constructor; cbn; intros H;
    repeat (destruct H as [H|H]; [discriminate H|]); exact H.
Defined.

(** X15. When every row of [customers] obeys the same-address rule, every
    row does after [add_client], [edit_client] and [delete_client], whatever
    they answer. *)
Theorem sentinel_rule_kept decimal (now : datetime) (s : session)
    (r : request) (id : Z) (db : DB) :
  Forall sentinel_ok (customers db) ->
  Forall sentinel_ok
    (customers (snd (serve (add_client decimal now s r) db)))
  /\ Forall sentinel_ok
       (customers (snd (serve (edit_client decimal s r id) db)))
  /\ Forall sentinel_ok (customers (snd (serve (delete_client s id) db))).
Proof.
  intros W. split; [|split];
    apply (serve_keeps (fun d => Forall sentinel_ok (customers d)));
    try exact W; intros resp db' H.
  - apply add_client_Ok in H. destruct H as [[_ ->]|H]; [exact W|].
    destruct H as (sess & name & house & register & notes & nf & next
                   & _ & _ & _ & _ & _ & _ & _ & _ & _ & ->).
    cbn [customers]. apply Forall_snoc; [exact W|].
    unfold sentinel_ok. cbn [Client.house_address Client.register_address].
    apply sentinel_rule.
  - apply edit_client_Ok in H. destruct H as [[_ ->]|H]; [exact W|].
    destruct H as (sess & c & name & house & register & notes & nf & next
                   & _ & _ & _ & _ & _ & _ & _ & _ & _ & _ & _ & ->).
    cbn [customers]. apply Forall_map. rewrite Forall_forall in *.
    intros x Hx. destruct (Client.id x =? Client.id c); [|apply W, Hx].
    unfold sentinel_ok, updated.
    cbn [Client.house_address Client.register_address].
    apply sentinel_rule.
  - revert H. unfold delete_client, login_required.
    destruct s as [sess|]; [|intros H; injection H as _ <-; exact W].
    match goal with
    | |- bind ?e _ = _ -> _ => destruct e as [[|]|]; cbn [bind]
    end; [intros H; injection H as _ <-; exact W | | discriminate].
    destruct (Client_get db id) as [c|]; cbn [commit_delete_client bind];
      [|discriminate].
    intros H. injection H as _ <-. cbn [customers].
    apply Forall_filter, W.
Qed.

Lemma sentinel_rule_kept_witness :
  let r := Sample.post (Sample.client_form (lit "Chen") (lit "2 Y Road ")
                          (lit " 2 Y Road") (lit "") (lit "")) in
  Forall sentinel_ok
    (customers (snd (serve (edit_client ascii_decimal (Some Sample.bob) r 2)
                       Sample.db))).
Proof.
  intros r.
  apply (sentinel_rule_kept ascii_decimal Sample.now (Some Sample.bob) r 2
           Sample.db).
  repeat constructor; intros H; try reflexivity; discriminate H.
Defined.

(** ** Follow-up dates given in the form *)

(** X16. When the [next_follow] field is not empty after [strip] and
    [strptime] parses it to [t], [add_client] stores [t] as next follow-up
    (not fourteen days from [now]), and [edit_client] on a row the session
    may edit replaces the stored next follow-up by [t]. *)
Theorem explicit_next_follow_stored decimal (now : datetime)
    (sess : Session.t) (r : request) (id : Z) (db : DB)
    (name house register notes nf : str) (t : datetime) :
  req_method r = POST ->
  form_get r "name" = Ok name ->
  form_get r "house_address" = Ok house ->
  form_get r "register_address" = Ok register ->
  form_get r "notes" = Ok notes ->
  form_get r "next_follow" = Ok nf ->
  strip nf <> [] ->
  strptime decimal (strip nf) = Ok t ->
  (exists c,
      add_client decimal now (Some sess) r db
      = Ok (redirect "/list", mk_DB (users db) (customers db ++ [c]))
      /\ Client.next_follow c = t
      /\ Client.first_contact c = now)
  /\ (forall c0,
        Client_get db id = Some c0 ->
        Session.role sess = ADMIN
        \/ Client.user_id c0 = Session.user_id sess ->
        exists db' c,
          edit_client decimal (Some sess) r id db = Ok (redirect "/list", db')
          /\ Client_get db' id = Some c
          /\ Client.next_follow c = t
          /\ Client.first_contact c = Client.first_contact c0).
Proof.
  intros Hm E1 E2 E3 E4 E5 Hnf P. split.
  - unfold add_client, login_required.
    rewrite Hm, E1, E2, E3, E4, E5. cbn [bind].
    apply eqb_neq in Hnf. rewrite Hnf, P. cbn [bind commit_insert_client].
    eexists. split; [reflexivity|]. split; reflexivity.
  - intros c0 Ec Hp.
    rewrite (edit_client_POST decimal sess r id db c0 name house register
               notes nf Hm Ec Hp E1 E2 E3 E4 E5).
    rewrite truthy_eqb_nil. apply eqb_neq in Hnf. rewrite Hnf, P.
    cbn [negb bind]. do 2 eexists. split; [reflexivity|].
    destruct (Client_get_id _ _ _ Ec) as [_ Ei].
    unfold Client_get in *. cbn [customers].
    match goal with
    | |- context [map (fun x => if _ then ?u else x) _] =>
        rewrite (find_replace u id)
    end.
    rewrite Ec. cbn. rewrite Z.eqb_refl. repeat split; reflexivity.
Qed.

Lemma explicit_next_follow_stored_witness :
  let r := Sample.post (Sample.client_form (lit "Wang") (lit "1 X Road")
                          (lit "1 X Road") (lit "") (lit " 2027/1/5 ")) in
  exists db' c,
    edit_client ascii_decimal (Some Sample.alice) r 1 Sample.db
    = Ok (redirect "/list", db')
    /\ Client_get db' 1 = Some c
    /\ Client.next_follow c = mk_datetime 2027 1 5 0 0 0 0.
Proof.
  intros r.
  destruct (explicit_next_follow_stored ascii_decimal Sample.now Sample.alice
              r 1 Sample.db (lit "Wang") (lit "1 X Road") (lit "1 X Road")
              (lit "") (lit " 2027/1/5 ") (mk_datetime 2027 1 5 0 0 0 0)
              eq_refl eq_refl eq_refl eq_refl eq_refl eq_refl)
    as [_ B]; [discriminate | reflexivity |].
  destruct (B (Client.mk 1 (lit "Wang") (lit "1 X Road") SAME_AS_HOUSE
                 (mk_datetime 2026 10 21 9 30 0 0)
                 (mk_datetime 2026 11 4 9 30 0 0) (lit "") 2)
              eq_refl (or_intror eq_refl)) as (db' & c & E & G & N & _).
  exists db', c. auto.
Defined.

(** ** Missing form fields *)

(** X17. A POST to [add_client] whose form lacks one of its five fields
    raises [BadRequestKeyError] for a field that is missing; no row is
    built, the request is answered with status 400 and the database is as
    it was. *)
Theorem add_client_missing_field decimal (now : datetime) (sess : Session.t)
    (r : request) (db : DB) :
  req_method r = POST ->
  (exists key, In key ["name"; "house_address"; "register_address"; "notes";
                       "next_follow"]%string
               /\ lookup key (form r) = None) ->
  exists key,
    In key ["name"; "house_address"; "register_address"; "notes";
            "next_follow"]%string
    /\ lookup key (form r) = None
    /\ add_client decimal now (Some sess) r db = Raise (BadRequestKeyError key)
    /\ serve (add_client decimal now (Some sess) r) db = (Status 400, db).
Proof.
  intros Hm (key & Hk & Hn).
  unfold serve, add_client, login_required, form_get. rewrite Hm.
  destruct (lookup "name" (form r)) eqn:E1; cbn [bind];
    [|exists "name"%string; cbn; auto 10].
  destruct (lookup "house_address" (form r)) eqn:E2; cbn [bind];
    [|exists "house_address"%string; cbn; auto 10].
  destruct (lookup "register_address" (form r)) eqn:E3; cbn [bind];
    [|exists "register_address"%string; cbn; auto 10].
  destruct (lookup "notes" (form r)) eqn:E4; cbn [bind];
    [|exists "notes"%string; cbn; auto 10].
  destruct (lookup "next_follow" (form r)) eqn:E5; cbn [bind];
    [|exists "next_follow"%string; cbn; auto 10].
  exfalso. cbn in Hk.
  repeat (destruct Hk as [<-|Hk]; [congruence|]). exact Hk.
Qed.

Lemma add_client_missing_field_witness :
  let r := Sample.post [("name"%string, lit "Wu");
                        ("house_address"%string, lit "3 K Road");
                        ("notes"%string, lit "")] in
  exists key,
    add_client ascii_decimal Sample.now (Some Sample.alice) r Sample.db
    = Raise (BadRequestKeyError key)
    /\ serve (add_client ascii_decimal Sample.now (Some Sample.alice) r)
         Sample.db = (Status 400, Sample.db).
Proof.
  intros r.
  destruct (add_client_missing_field ascii_decimal Sample.now Sample.alice r
              Sample.db eq_refl) as (key & _ & _ & E & S).
  - exists "next_follow"%string. split; [cbn; auto 10 | reflexivity].
  - exists key. split; [exact E | exact S].
Defined.

(** ** The list page *)

(** X18. The count [list_clients] hands to the template is the number of
    rows the session may see whose next follow-up falls on the day of [now];
    it depends neither on the search nor on the due-today flag. The page
    shows rows of the store in storage order, and the database is as it
    was. *)
Theorem list_clients_today_count (like : str -> str -> bool) (now : datetime)
    (sess : Session.t) (r : request) (db : DB) :
  valid now = true ->
  follow_ups_valid db ->
  exists clients p,
    list_clients like now (Some sess) r db
    = Ok (render_template "list.html"
            (with_clients clients (strip (args_get r "q"))
               (Str.eqb (args_get r "today") (lit "1")) (strftime_Ymd now)
               (Z.of_nat
                  (List.length
                     (filter (fun c => same_date (Client.next_follow c) now)
                        (scoped_query (Session.role sess)
                           (Session.user_id sess) db))))), db)
    /\ clients = filter p (customers db).
Proof.
  intros Hn W. unfold list_clients, login_required.
  set (visible := scoped_query (Session.role sess) (Session.user_id sess) db).
  assert (Hv : Forall (fun c => valid (Client.next_follow c) = true) visible).
  { unfold visible, scoped_query, Client_by_user_id.
    destruct (Str.eqb (Session.role sess) ADMIN);
      [exact W | apply Forall_filter, W]. }
  assert (Hc : filter (due_on (strftime_Ymd now)) visible
               = filter (fun c => same_date (Client.next_follow c) now) visible).
  { apply filter_ext_Forall
      with (P := fun c => valid (Client.next_follow c) = true);
      [|exact Hv].
    intros c Hcv. apply due_on_same_date; assumption. }
  rewrite Hc.
  assert (Hvis : exists p0, visible = filter p0 (customers db)).
  { unfold visible, scoped_query, Client_by_user_id.
    destruct (Str.eqb (Session.role sess) ADMIN).
    - exists (fun _ => true). symmetry. apply forallb_filter_id.
      apply forallb_forall. reflexivity.
    - eexists. reflexivity. }
  destruct Hvis as [p0 Hvis].
  assert (F2 : forall (f g : Client.t -> bool) l,
             filter f (filter g l) = filter (fun x => g x && f x) l).
  { intros f g l. induction l as [|a l IH]; simpl; [reflexivity|].
    destruct (g a); simpl; [destruct (f a); rewrite IH; reflexivity | exact IH]. }
  assert (Hcl : forall cl,
             (exists p, cl = filter p (customers db)) ->
             forall f, exists p, filter f cl = filter p (customers db)).
  { intros cl [p ->] f. rewrite F2. eexists. reflexivity. }
  assert (H1 : exists p,
             (if truthy (strip (args_get r "q"))
              then filter (matches like ([37] ++ strip (args_get r "q") ++ [37]))
                     visible
              else visible) = filter p (customers db)).
  { destruct (truthy (strip (args_get r "q")));
      [apply Hcl|]; exists p0; exact Hvis. }
  assert (H2 : exists p,
             (if Str.eqb (args_get r "today") (lit "1")
              then filter (due_on (strftime_Ymd now))
                     (if truthy (strip (args_get r "q"))
                      then filter (matches like
                                     ([37] ++ strip (args_get r "q") ++ [37]))
                             visible
                      else visible)
              else if truthy (strip (args_get r "q"))
                   then filter (matches like
                                  ([37] ++ strip (args_get r "q") ++ [37]))
                          visible
                   else visible) = filter p (customers db)).
  { destruct (Str.eqb (args_get r "today") (lit "1"));
      [apply Hcl|]; exact H1. }
  destruct H2 as [p H2]. eexists. exists p. split; [reflexivity | exact H2].
Qed.

Lemma list_clients_today_count_witness :
  exists clients,
    list_clients Sample.like Sample.now (Some Sample.root)
      (Sample.get [("q"%string, lit "Chen")]) Sample.db
    = Ok (render_template "list.html"
            (with_clients clients (lit "Chen") false
               (strftime_Ymd Sample.now) 2), Sample.db).
Proof.
  destruct (list_clients_today_count Sample.like Sample.now Sample.root
              (Sample.get [("q"%string, lit "Chen")]) Sample.db eq_refl)
    as (clients & p & E & _).
  - repeat constructor.
  - exists clients. exact E.
Defined.

(** ** Dates written as the form asks *)

Lemma zfill_2 (n : Z) : zfill 2 n = [48 + (n / 10) mod 10; 48 + n mod 10].
Proof. reflexivity. Qed.

Lemma zfill_4 (n : Z) :
  zfill 4 n = [48 + (n / 10 / 10 / 10) mod 10; 48 + (n / 10 / 10) mod 10;
               48 + (n / 10) mod 10; 48 + n mod 10].
Proof. reflexivity. Qed.

Lemma group_m_zfill (m : Z) (rest : str) :
  1 <= m <= 12 ->
  exists tl, group_m (zfill 2 m ++ 47 :: rest) = (m, 47 :: rest) :: tl.
Proof.
  intros Hm.
  assert (C : m = 1 \/ m = 2 \/ m = 3 \/ m = 4 \/ m = 5 \/ m = 6 \/ m = 7
              \/ m = 8 \/ m = 9 \/ m = 10 \/ m = 11 \/ m = 12) by lia.
  repeat destruct C as [->|C]; try subst m; eexists; reflexivity.
Qed.

Lemma group_d_zfill decimal (d : Z) :
  (forall c, 48 <= c <= 57 -> decimal c = Some (c - 48)) ->
  1 <= d <= 31 ->
  exists tl, group_d decimal (zfill 2 d) = (d, []) :: tl.
Proof.
  intros Hdec Hd.
  assert (C : d = 1 \/ d = 2 \/ d = 3 \/ d = 4 \/ d = 5 \/ d = 6 \/ d = 7
              \/ d = 8 \/ d = 9 \/ d = 10 \/ d = 11 \/ d = 12 \/ d = 13
              \/ d = 14 \/ d = 15 \/ d = 16 \/ d = 17 \/ d = 18 \/ d = 19
              \/ d = 20 \/ d = 21 \/ d = 22 \/ d = 23 \/ d = 24 \/ d = 25
              \/ d = 26 \/ d = 27 \/ d = 28 \/ d = 29 \/ d = 30 \/ d = 31)
    by lia.
  repeat destruct C as [->|C]; try subst d;
    unfold group_d; rewrite zfill_2;
    repeat match goal with
    | |- context [48 + ?x] =>
        let v := eval vm_compute in (48 + x) in
        progress change (48 + x) with v
    end;
    cbn [in_class Z.add Z.leb Z.compare Pos.compare Pos.compare_cont andb app];
    repeat match goal with
    | |- context [decimal ?c] => rewrite (Hdec c) by lia
    end;
    eexists; reflexivity.
Qed.

Lemma days_in_month_le_31 (y m : Z) : 1 <= m <= 12 -> days_in_month y m <= 31.
Proof.
  intros Hm. unfold days_in_month.
  destruct ((m =? 2) && is_leap y); [lia|].
  assert (C : m = 1 \/ m = 2 \/ m = 3 \/ m = 4 \/ m = 5 \/ m = 6 \/ m = 7
              \/ m = 8 \/ m = 9 \/ m = 10 \/ m = 11 \/ m = 12) by lia.
  repeat destruct C as [->|C]; try subst m; cbv; discriminate.
Qed.

(** X19. A date of the calendar written as four digits of year, a slash,
    two digits of month, a slash and two digits of day is parsed by
    [strptime] to midnight of that date, for every table of decimal digits
    that reads the ASCII digits as Python does. *)
Theorem strptime_of_formatted decimal (y m d : Z) :
  (forall c, 48 <= c <= 57 -> decimal c = Some (c - 48)) ->
  valid_date y m d = true ->
  strptime decimal (zfill 4 y ++ [47] ++ zfill 2 m ++ [47] ++ zfill 2 d)
  = Ok (mk_datetime y m d 0 0 0 0).
Proof.
  intros Hdec V. pose proof V as V'.
  unfold valid_date, MINYEAR, MAXYEAR in V'.
  rewrite !andb_true_iff, !Z.leb_le in V'.
  destruct V' as (((((Hy1 & Hy2) & Hm1) & Hm2) & Hd1) & Hd2).
  pose proof (days_in_month_le_31 y m (conj Hm1 Hm2)) as Hd3.
  destruct (group_m_zfill m (zfill 2 d) (conj Hm1 Hm2)) as [tlm Gm].
  destruct (group_d_zfill decimal d Hdec) as [tld Gd]; [lia|].
  unfold strptime, regex_match. rewrite zfill_4.
  cbn [app group_Y].
  rewrite !Hdec by (Z.div_mod_to_equations; lia).
  replace (1000 * (48 + (y / 10 / 10 / 10) mod 10 - 48)
           + 100 * (48 + (y / 10 / 10) mod 10 - 48)
           + 10 * (48 + (y / 10) mod 10 - 48) + (48 + y mod 10 - 48))
    with y by (Z.div_mod_to_equations; lia).
  cbn [slash].
  change (zfill 2 m ++ 47 :: zfill 2 d) with (zfill 2 m ++ 47 :: zfill 2 d).
  rewrite Gm. cbn [first_md slash]. rewrite Gd. rewrite V. reflexivity.
Qed.

Lemma strptime_of_formatted_witness :
  strptime ascii_decimal (lit "2028/02/29")
  = Ok (mk_datetime 2028 2 29 0 0 0 0).
Proof.
  apply (strptime_of_formatted ascii_decimal 2028 2 29); [|reflexivity].
  intros c Hc. unfold ascii_decimal, in_class.
  replace (48 + 0 <=? c) with true by (symmetry; apply Z.leb_le; lia).
  replace (c <=? 48 + 9) with true by (symmetry; apply Z.leb_le; lia).
  reflexivity.
Defined.

(** ** Whitespace around the addresses *)

Lemma lstrip_spaces (ws s : str) :
  forallb isspace ws = true -> lstrip (ws ++ s) = lstrip s.
Proof.
  induction ws as [|c ws IH]; simpl; [reflexivity|].
  intros H. apply andb_true_iff in H. destruct H as [-> H]. apply IH, H.
Qed.

Lemma lstrip_all_spaces (ws : str) : forallb isspace ws = true -> lstrip ws = [].
Proof.
  intros H. rewrite <- (app_nil_r ws). rewrite lstrip_spaces by exact H.
  reflexivity.
Qed.

Lemma lstrip_app (s t : str) :
  lstrip (s ++ t) = match lstrip s with [] => lstrip t | _ :: _ => lstrip s ++ t end.
Proof.
  induction s as [|c s IH]; simpl; [destruct (lstrip t); reflexivity|].
  destruct (isspace c); [exact IH | reflexivity].
Qed.

Lemma forallb_rev {A} (f : A -> bool) (l : list A) :
  forallb f l = true -> forallb f (rev l) = true.
Proof.
  rewrite !forallb_forall. intros H x Hx. apply H. apply in_rev. exact Hx.
Qed.

Lemma rstrip_spaces (s ws : str) :
  forallb isspace ws = true -> rstrip (s ++ ws) = rstrip s.
Proof.
  intros H. unfold rstrip. rewrite rev_app_distr.
  rewrite lstrip_spaces by (apply forallb_rev, H). reflexivity.
Qed.

(** [strip] does not see whitespace added on either side. *)
Lemma strip_padded (ws1 s ws2 : str) :
  forallb isspace ws1 = true -> forallb isspace ws2 = true ->
  strip (ws1 ++ s ++ ws2) = strip s.
Proof.
  intros H1 H2. unfold strip. rewrite lstrip_spaces by exact H1.
  rewrite lstrip_app. destruct (lstrip s) as [|c l] eqn:E.
  - rewrite lstrip_all_spaces by exact H2. reflexivity.
  - apply rstrip_spaces, H2.
Qed.

(** X20. When the two addresses of the form are the same text between any
    leading and trailing whitespace, the row [add_client] inserts and the
    row [edit_client] leaves hold the sentinel as registered address, and
    the house address as the form has it, whitespace included. *)
Theorem padded_addresses_sentinel decimal (now : datetime) (s : session)
    (r : request) (id : Z) (db db' : DB) (core ws1 ws2 ws3 ws4 : str) :
  forallb isspace ws1 = true -> forallb isspace ws2 = true ->
  forallb isspace ws3 = true -> forallb isspace ws4 = true ->
  form_get r "house_address" = Ok (ws1 ++ core ++ ws2) ->
  form_get r "register_address" = Ok (ws3 ++ core ++ ws4) ->
  (add_client decimal now s r db = Ok (redirect "/list", db') ->
   exists c, customers db' = customers db ++ [c]
             /\ Client.house_address c = ws1 ++ core ++ ws2
             /\ Client.register_address c = SAME_AS_HOUSE)
  /\ (edit_client decimal s r id db = Ok (redirect "/list", db') ->
      exists c, Client_get db' id = Some c
                /\ Client.house_address c = ws1 ++ core ++ ws2
                /\ Client.register_address c = SAME_AS_HOUSE).
Proof.
  intros H1 H2 H3 H4 Eh Er.
  assert (S : Str.eqb (strip (ws1 ++ core ++ ws2)) (strip (ws3 ++ core ++ ws4))
              = true).
  { rewrite !strip_padded by assumption. apply eqb_refl. }
  split; intros H.
  - apply add_client_Ok in H.
    destruct H as [[H _]|H]; [contradiction H; reflexivity|].
    destruct H as (sess & name & house & register & notes & nf & next
                   & _ & _ & _ & _ & Eh' & Er' & _ & _ & _ & ->).
    rewrite Eh in Eh'. rewrite Er in Er'.
    injection Eh' as <-. injection Er' as <-. rewrite S.
    eexists. cbn [customers]. split; [reflexivity|]. split; reflexivity.
  - apply edit_client_Ok in H.
    destruct H as [[H _]|H]; [contradiction H; reflexivity|].
    destruct H as (sess & c & name & house & register & notes & nf & next
                   & _ & _ & _ & Ec & _ & _ & Eh' & Er' & _ & _ & _ & ->).
    rewrite Eh in Eh'. rewrite Er in Er'.
    injection Eh' as <-. injection Er' as <-. rewrite S.
    destruct (Client_get_id _ _ _ Ec) as [_ Ei].
    exists (updated c name (ws1 ++ core ++ ws2) SAME_AS_HOUSE next notes).
    split; [|split; reflexivity].
    unfold Client_get in *. cbn [customers].
    rewrite (find_replace (updated c name (ws1 ++ core ++ ws2) SAME_AS_HOUSE
                             next notes) id).
    rewrite Ec. cbn. rewrite Z.eqb_refl. reflexivity.
Qed.

Lemma padded_addresses_sentinel_witness :
  let r := Sample.post (Sample.client_form (lit "Wu") ([0x3000] ++ lit "3 K Road")
                          (lit "3 K Road" ++ [9; 32]) (lit "") (lit "")) in
  exists db' c,
    add_client ascii_decimal Sample.now (Some Sample.alice) r Sample.db
    = Ok (redirect "/list", db')
    /\ customers db' = customers Sample.db ++ [c]
    /\ Client.register_address c = SAME_AS_HOUSE.
Proof.
  intros r.
  pose (db' := match add_client ascii_decimal Sample.now (Some Sample.alice)
                       r Sample.db with
               | Ok (_, d) => d
               | Raise _ => Sample.db
               end).
  destruct (padded_addresses_sentinel ascii_decimal Sample.now
              (Some Sample.alice) r 0 Sample.db db'
              (lit "3 K Road") [0x3000] [] [] [9; 32]
              eq_refl eq_refl eq_refl eq_refl eq_refl eq_refl) as [A _].
  destruct (A eq_refl) as (c & Hc & _ & Hr).
  exists db', c. split; [reflexivity|]. split; assumption.
Defined.

(** ** The exports *)

Lemma fold_left_append {A B} (g : A -> B) (data : list A) (init : list B) :
  fold_left (fun f c => f ++ [g c]) data init = init ++ map g data.
Proof.
  revert init. induction data as [|a data IH]; intros init; simpl.
  - symmetry. apply app_nil_r.
  - rewrite IH, <- app_assoc. reflexivity.
Qed.

Lemma cells_spec (row : list str) :
  cells row
  = if forallb cell_ok row then Ok (map truncate row)
    else Raise IllegalCharacterError.
Proof.
  induction row as [|value row IH]; [reflexivity|].
  cbn [cells forallb map]. unfold check_string, cell_ok at 1.
  destruct (existsb illegal_character (truncate value));
    cbn [bind negb andb]; [reflexivity|].
  rewrite IH. destruct (forallb cell_ok row); reflexivity.
Qed.

Lemma sheet_fold_raise (data : list Client.t) (e : exn) :
  fold_left (fun ws c => ws <- ws ;; ws_append ws (export_cells c))
    data (Raise e) = Raise e.
Proof. induction data as [|c data IH]; [reflexivity|]. exact IH. Qed.

Lemma sheet_fold (data : list Client.t) (ws : list (list str)) :
  fold_left (fun ws c => ws <- ws ;; ws_append ws (export_cells c))
    data (Ok ws)
  = if forallb (fun c => forallb cell_ok (export_cells c)) data
    then Ok (ws ++ map (fun c => map truncate (export_cells c)) data)
    else Raise IllegalCharacterError.
Proof.
  revert ws. induction data as [|c data IH]; intros ws.
  - cbn [fold_left forallb map]. rewrite app_nil_r. reflexivity.
  - cbn [fold_left forallb map bind]. unfold ws_append at 2.
    rewrite cells_spec.
    destruct (forallb cell_ok (export_cells c)); cbn [bind andb].
    + rewrite IH, <- app_assoc. reflexivity.
    + apply sheet_fold_raise.
Qed.

Lemma header_cells : ws_append [] EXPORT_HEADER = Ok [EXPORT_HEADER].
Proof. vm_compute. reflexivity. Qed.

Lemma truncate_short (value : str) :
  Z.of_nat (List.length value) <= CELL_MAX -> truncate value = value.
Proof. intros H. apply firstn_all2. unfold CELL_MAX in *. lia. Qed.

Lemma export_excel_spec (wb_save : list (list str) -> result unit)
    (sess : Session.t) (db : DB) :
  let visible := scoped_query (Session.role sess) (Session.user_id sess) db in
  export_excel wb_save (Some sess) db
  = if forallb (fun c => forallb cell_ok (export_cells c)) visible
    then saved <- wb_save (sheet_of visible) ;;
         Ok (inr (send_file "clients_export.xlsx" (sheet_of visible)))
    else Raise IllegalCharacterError.
Proof.
  cbv zeta. unfold export_excel. rewrite header_cells. cbn [bind].
  rewrite sheet_fold.
  destruct (forallb _ (scoped_query _ _ db)); reflexivity.
Qed.

(** X21. For a logged-in session [export_csv] writes the header, then one
    row of six cells for each client the session may see, in storage
    order. [export_excel] raises [IllegalCharacterError] when, cut to 32767
    characters, a cell of one of these rows holds a control character other
    than tab, line feed and carriage return; otherwise it saves and sends
    the sheet of the same rows with each cell cut to 32767 characters,
    which are the rows of the CSV when no cell is longer. With no visible
    client both files hold the header alone; a session that is not an
    admin's exports only clients it owns. *)
Theorem exports_rows (wb_save : list (list str) -> result unit)
    (sess : Session.t) (db : DB) :
  let visible := scoped_query (Session.role sess) (Session.user_id sess) db in
  let rows := EXPORT_HEADER :: map export_cells visible in
  let sheet :=
    EXPORT_HEADER :: map (fun c => map truncate (export_cells c)) visible in
  export_csv (Some sess) db = inr (send_file "clients_export.csv" rows)
  /\ export_excel wb_save (Some sess) db
     = (if forallb (fun c => forallb cell_ok (export_cells c)) visible
        then saved <- wb_save sheet ;;
             Ok (inr (send_file "clients_export.xlsx" sheet))
        else Raise IllegalCharacterError)
  /\ (Forall (fun c => Forall (fun value =>
                                 Z.of_nat (List.length value) <= CELL_MAX)
                         (export_cells c)) visible ->
      sheet = rows)
  /\ List.length rows = S (List.length visible)
  /\ Forall (fun row => List.length row = 6%nat) rows
  /\ (visible = [] -> rows = [EXPORT_HEADER] /\ sheet = [EXPORT_HEADER])
  /\ (Session.role sess <> ADMIN ->
      Forall (fun c => Client.user_id c = Session.user_id sess) visible).
Proof.
  cbv zeta. split; [|split; [|split; [|split; [|split; [|split]]]]].
  - unfold export_csv. rewrite fold_left_append. reflexivity.
  - apply export_excel_spec.
  - intros Hs. f_equal. apply map_ext_in. intros c Hc.
    rewrite Forall_forall in Hs. specialize (Hs c Hc).
    rewrite <- (map_id (export_cells c)) at 2. apply map_ext_in.
    intros value Hv. rewrite Forall_forall in Hs.
    apply truncate_short, Hs, Hv.
  - cbn [List.length]. rewrite length_map. reflexivity.
  - constructor; [reflexivity|]. apply Forall_map.
    apply Forall_forall. intros c _. reflexivity.
  - intros ->. split; reflexivity.
  - intros Hr. apply Forall_forall. intros c Hc.
    apply (scoped_query_owner _ _ _ _ Hr Hc).
Qed.

Lemma exports_rows_witness :
  let rows :=
    [EXPORT_HEADER;
     [lit "Wang"; lit "1 X Road"; SAME_AS_HOUSE;
      lit "2026-10-21 09:30"; lit "2026-11-04"; lit ""]] in
  let bell :=
    mk_DB (users Sample.db)
      [Client.mk 1 (lit "Wang") (lit "1 X Road") SAME_AS_HOUSE
         (mk_datetime 2026 10 21 9 30 0 0) (mk_datetime 2026 11 4 9 30 0 0)
         [7] 2] in
  export_csv (Some Sample.alice) Sample.db
  = inr (send_file "clients_export.csv" rows)
  /\ export_excel (fun _ => Ok tt) (Some Sample.alice) Sample.db
     = Ok (inr (send_file "clients_export.xlsx" rows))
  /\ export_excel (fun _ => Ok tt) (Some Sample.alice) bell
     = Raise IllegalCharacterError.
Proof.
  cbv zeta.
  destruct (exports_rows (fun _ => Ok tt) Sample.alice Sample.db)
    as (C & E & _).
  split; [exact C|]. split; [exact E|].
  destruct (exports_rows (fun _ => Ok tt) Sample.alice
              (mk_DB (users Sample.db)
                 [Client.mk 1 (lit "Wang") (lit "1 X Road") SAME_AS_HOUSE
                    (mk_datetime 2026 10 21 9 30 0 0)
                    (mk_datetime 2026 11 4 9 30 0 0) [7] 2]))
    as (_ & R & _).
  exact R.
Defined.

(** X22. On a request without search and without the due-today flag,
    [list_clients] shows a session the clients it may see, in storage
    order, and the rows [export_csv] writes after the header are those of
    the same clients in the same order. So are the rows of the sheet
    [export_excel] saves, each cell cut to 32767 characters, when no such
    cell holds an illegal control character; when one does, [export_excel]
    raises [IllegalCharacterError]. *)
Theorem exports_match_list (like : str -> str -> bool)
    (wb_save : list (list str) -> result unit) (now : datetime)
    (sess : Session.t) (r : request) (db : DB) :
  strip (args_get r "q") = [] ->
  args_get r "today" <> lit "1" ->
  let clients := scoped_query (Session.role sess) (Session.user_id sess) db in
  let today_str := strftime_Ymd now in
  let today_count :=
    Z.of_nat (List.length (filter (due_on today_str) clients)) in
  let sheet :=
    EXPORT_HEADER :: map (fun c => map truncate (export_cells c)) clients in
  list_clients like now (Some sess) r db
  = Ok (render_template "list.html"
          (with_clients clients [] false today_str today_count), db)
  /\ export_csv (Some sess) db
     = inr (send_file "clients_export.csv"
              (EXPORT_HEADER :: map export_cells clients))
  /\ export_excel wb_save (Some sess) db
     = (if forallb (fun c => forallb cell_ok (export_cells c)) clients
        then saved <- wb_save sheet ;;
             Ok (inr (send_file "clients_export.xlsx" sheet))
        else Raise IllegalCharacterError).
Proof.
  intros Hq Ht. apply eqb_neq in Ht. cbv zeta.
  split; [|split].
  - unfold list_clients, login_required. rewrite Hq, Ht. reflexivity.
  - unfold export_csv. rewrite fold_left_append. reflexivity.
  - apply export_excel_spec.
Qed.

Lemma exports_match_list_witness :
  let clients :=
    [ Client.mk 2 (lit "Chen") (lit "2 Y Road") (lit "5 Z Street")
        (mk_datetime 2026 10 1 14 0 0 0) (mk_datetime 2026 11 20 0 0 0 0)
        (lit "call back") 3;
      Client.mk 3 (lit "Lin") (lit "7 Y Road") SAME_AS_HOUSE
        (mk_datetime 2026 11 1 8 0 0 0) (mk_datetime 2026 11 4 0 0 0 0)
        (lit "") 3 ] in
  list_clients Sample.like Sample.now (Some Sample.bob) (Sample.get [])
    Sample.db
  = Ok (render_template "list.html"
          (with_clients clients [] false (lit "2026-11-04") 1), Sample.db)
  /\ export_csv (Some Sample.bob) Sample.db
     = inr (send_file "clients_export.csv"
              (EXPORT_HEADER :: map export_cells clients))
  /\ export_excel (fun _ => Ok tt) (Some Sample.bob) Sample.db
     = Ok (inr (send_file "clients_export.xlsx"
                  (EXPORT_HEADER :: map export_cells clients))).
Proof.
  cbv zeta.
  destruct (exports_match_list Sample.like (fun _ => Ok tt) Sample.now
              Sample.bob (Sample.get []) Sample.db eq_refl)
    as (L & C & E); [discriminate|].
  split; [exact L|]. split; [exact C|exact E].
Defined.

(** ** The database URL *)

Lemma startswith_app (s prefix : str) :
  startswith s prefix = true -> s = prefix ++ skipn (List.length prefix) s.
Proof.
  revert s. induction prefix as [|p prefix IH]; intros s H; [reflexivity|].
  destruct s as [|c s]; [discriminate H|]. simpl in H.
  apply andb_true_iff in H. destruct H as [E H]. apply Z.eqb_eq in E.
  subst c. simpl. f_equal. apply IH, H.
Qed.

(** X23. The database URI is the default SQLite file when [DATABASE_URL] is
    unset or empty; a URL that starts with [postgres://] has that scheme,
    and nothing else, replaced by [postgresql+psycopg2://]; any other URL is
    taken as it is. The result never starts with [postgres://], so the
    rewriting applied to its own result changes nothing. *)
Theorem database_uri_spec (raw_url : option str) :
  (raw_url = None \/ raw_url = Some [] ->
   database_uri raw_url = lit "sqlite:///local.db")
  /\ (forall rest,
        raw_url = Some (lit "postgres://" ++ rest) ->
        database_uri raw_url = lit "postgresql+psycopg2://" ++ rest)
  /\ (forall url,
        raw_url = Some url -> url <> [] ->
        startswith url (lit "postgres://") = false ->
        database_uri raw_url = url)
  /\ startswith (database_uri raw_url) (lit "postgres://") = false
  /\ database_uri (Some (database_uri raw_url)) = database_uri raw_url.
Proof.
  assert (P : forall rest,
             database_uri (Some (lit "postgres://" ++ rest))
             = lit "postgresql+psycopg2://" ++ rest) by (intros; reflexivity).
  assert (N : startswith (database_uri raw_url) (lit "postgres://") = false).
  { destruct raw_url as [url|]; [|reflexivity]. unfold database_uri.
    destruct (truthy url); [|reflexivity].
    destruct (startswith url (lit "postgres://")) eqn:E; [|exact E].
    apply startswith_app in E. rewrite E. reflexivity. }
  split; [intros [->| ->]; reflexivity|].
  split; [intros rest ->; apply P|].
  split.
  { intros url -> Hne Hs. unfold database_uri. rewrite Hs.
    destruct url; [contradiction|reflexivity]. }
  split; [exact N|].
  unfold database_uri at 1. rewrite N.
  destruct (database_uri raw_url) eqn:E; [|reflexivity].
  destruct raw_url as [url|]; [|discriminate E].
  unfold database_uri in E. destruct (truthy url) eqn:T; [|discriminate E].
  destruct (startswith url (lit "postgres://")) eqn:S.
  - apply startswith_app in S. rewrite S in E. discriminate E.
  - subst url. discriminate T.
Qed.

Lemma database_uri_spec_witness :
  database_uri (Some (lit "postgres://u:p@host:5432/railway"))
  = lit "postgresql+psycopg2://u:p@host:5432/railway".
Proof.
  destruct (database_uri_spec (Some (lit "postgres://u:p@host:5432/railway")))
    as (_ & P & _).
  apply (P (lit "u:p@host:5432/railway")). reflexivity.
Defined.

(** ** The stores the application reaches *)

Lemma client_views_keep_users decimal (now : datetime) (s : session)
    (r : request) (id : Z) (db : DB) :
  users (snd (serve (add_client decimal now s r) db)) = users db
  /\ users (snd (serve (edit_client decimal s r id) db)) = users db
  /\ users (snd (serve (delete_client s id) db)) = users db.
Proof.
  split; [|split].
  - apply (serve_keeps (fun d => users d = users db)); [reflexivity|].
    intros resp db' H. apply add_client_Ok in H.
    destruct H as [[_ ->]|H]; [reflexivity|].
    destruct H as (sess & name & house & register & notes & nf & next
                   & _ & _ & _ & _ & _ & _ & _ & _ & _ & ->).
    reflexivity.
  - destruct (edit_client_store decimal s r id db) as [->|H]; [reflexivity|].
    destruct H as (c & name & house & register & next & notes & _ & ->).
    reflexivity.
  - apply (serve_keeps (fun d => users d = users db)); [reflexivity|].
    intros resp db'. unfold delete_client, login_required.
    destruct s as [sess|]; [|intros H; injection H as _ <-; reflexivity].
    match goal with
    | |- bind ?e _ = _ -> _ => destruct e as [[|]|]; cbn [bind]
    end; [intros H; injection H as _ <-; reflexivity | | discriminate].
    destruct (Client_get db id) as [c|]; cbn [commit_delete_client bind];
      [|discriminate].
    intros H. injection H as _ <-. reflexivity.
Qed.

Lemma employee_views_keep_customers (salt : str) (s : session) (r : request)
    (id : Z) (db : DB) :
  customers (snd (serve (create_admin salt) db)) = customers db
  /\ customers (snd (serve (add_user salt s r) db)) = customers db
  /\ customers (snd (serve (edit_user salt s r id) db)) = customers db
  /\ customers (snd (serve (delete_user s id) db)) = customers db.
Proof.
  split; [|split; [|split]];
    apply (serve_keeps (fun d => customers d = customers db));
    try reflexivity; intros resp db'.
  - unfold create_admin. destruct (User_by_username db ADMIN);
      [intros H; injection H as _ <-; reflexivity|].
    unfold commit_insert_user. destruct (existsb _ (users db)); cbn [bind];
      [discriminate|]. intros H. injection H as _ <-. reflexivity.
  - unfold add_user, login_required.
    destruct s as [sess|]; [|intros H; injection H as _ <-; reflexivity].
    destruct (negb (Str.eqb (Session.role sess) ADMIN));
      [intros H; injection H as _ <-; reflexivity|].
    destruct (req_method r); [intros H; injection H as _ <-; reflexivity|].
    destruct (form_get r "username"); cbn [bind]; [|discriminate].
    destruct (form_get r "password"); cbn [bind]; [|discriminate].
    destruct (form_get r "employee_id"); cbn [bind]; [|discriminate].
    destruct (form_get r "role"); cbn [bind]; [|discriminate].
    destruct (User_by_username db _);
      [intros H; injection H as _ <-; reflexivity|].
    unfold commit_insert_user. destruct (existsb _ (users db)); cbn [bind];
      [discriminate|]. intros H. injection H as _ <-. reflexivity.
  - unfold edit_user, login_required.
    destruct s as [sess|]; [|intros H; injection H as _ <-; reflexivity].
    destruct (negb (Str.eqb (Session.role sess) ADMIN));
      [intros H; injection H as _ <-; reflexivity|].
    destruct (req_method r); [intros H; injection H as _ <-; reflexivity|].
    destruct (form_get r "username"); cbn [bind]; [|discriminate].
    destruct (User_get db id); cbn [deref bind]; [|discriminate].
    destruct (form_get r "employee_id"); cbn [bind]; [|discriminate].
    destruct (form_get r "role"); cbn [bind]; [|discriminate].
    destruct (form_get r "password"); cbn [bind]; [|discriminate].
    unfold commit_update_user. destruct (existsb _ (users db)); cbn [bind];
      [discriminate|]. intros H. injection H as _ <-. reflexivity.
  - unfold delete_user, login_required.
    destruct s as [sess|]; [|intros H; injection H as _ <-; reflexivity].
    destruct (negb (Str.eqb (Session.role sess) ADMIN));
      [intros H; injection H as _ <-; reflexivity|].
    destruct (id =? Session.user_id sess);
      [intros H; injection H as _ <-; reflexivity|].
    destruct (User_get db id); cbn [commit_delete_user bind]; [|discriminate].
    intros H. injection H as _ <-. reflexivity.
Qed.

(** X24. In every database the view functions lead to from the empty one,
    by any sequence of requests, the usernames are pairwise distinct, the
    primary keys of [users] are, and every stored next follow-up is a
    [datetime]: what the properties above assume of the store holds of the
    stores of the application. *)
Theorem reachable_store_ok (db : DB) :
  reachable db ->
  NoDup (usernames db)
  /\ NoDup (map User.id (users db))
  /\ follow_ups_valid db.
Proof.
  intros R.
  assert (G : users_ok db /\ follow_ups_valid db).
  { induction R as [ | decimal now s r db Hn R [U F]
                     | decimal s r id db R [U F] | s id db R [U F]
                     | salt db R [U F] | salt s r db R [U F]
                     | salt s r id db R [U F] | s id db R [U F] ].
    - split; [split; constructor | constructor].
    - destruct (client_views_keep_users decimal now s r 0 db) as (K & _ & _).
      destruct (follow_ups_valid_kept decimal now s r 0 db Hn F) as (V & _ & _).
      split; [|exact V]. unfold users_ok, usernames in *. rewrite K. exact U.
    - destruct (client_views_keep_users decimal (mk_datetime 1 1 1 0 0 0 0)
                  s r id db) as (_ & K & _).
      destruct (follow_ups_valid_kept decimal (mk_datetime 1 1 1 0 0 0 0)
                  s r id db eq_refl F) as (_ & V & _).
      split; [|exact V]. unfold users_ok, usernames in *. rewrite K. exact U.
    - destruct (client_views_keep_users (fun _ => None)
                  (mk_datetime 1 1 1 0 0 0 0) s (mk_request GET [] []) id db)
        as (_ & _ & K).
      destruct (follow_ups_valid_kept (fun _ => None)
                  (mk_datetime 1 1 1 0 0 0 0) s (mk_request GET [] []) id db
                  eq_refl F) as (_ & _ & V).
      split; [|exact V]. unfold users_ok, usernames in *. rewrite K. exact U.
    - destruct (employee_views_keep_customers salt None (mk_request GET [] [])
                  0 db) as (K & _).
      split; [apply create_admin_keeps, U|].
      unfold follow_ups_valid in *. rewrite K. exact F.
    - destruct (employee_views_keep_customers salt s r 0 db) as (_ & K & _).
      split; [apply add_user_keeps, U|].
      unfold follow_ups_valid in *. rewrite K. exact F.
    - destruct (employee_views_keep_customers salt s r id db)
        as (_ & _ & K & _).
      split; [apply edit_user_keeps, U|].
      unfold follow_ups_valid in *. rewrite K. exact F.
    - destruct (employee_views_keep_customers [] s (mk_request GET [] []) id db)
        as (_ & _ & _ & K).
      split; [apply delete_user_keeps, U|].
      unfold follow_ups_valid in *. rewrite K. exact F. }
  destruct G as [[Ni Nu] F]. auto.
Qed.

Lemma reachable_store_ok_witness :
  let db1 := snd (serve (create_admin (lit "s")) (mk_DB [] [])) in
  let db2 :=
    snd (serve (add_client ascii_decimal Sample.now (Some Sample.root)
                  (Sample.post (Sample.client_form (lit "Wu") (lit "3 K Road")
                                  (lit "8 L Road") (lit "")
                                  (lit "2026/12/01")))) db1) in
  List.length (customers db2) = 1%nat
  /\ NoDup (usernames db2) /\ follow_ups_valid db2.
Proof.
  intros db1 db2. split; [reflexivity|].
  destruct (reachable_store_ok db2) as (U & _ & F).
  - apply reach_add_client; [reflexivity|].
    apply reach_create_admin. apply reach_empty.
  - split; assumption.
Defined.
